(** * minimodem: the receive loop, the NOCARRIER report and the transmitter

    A shallow embedding of [src/minimodem.c].  Machine integers are [Z] with
    the wrap-around of their C type written out, [float] is IEEE binary32
    and [double] IEEE binary64 (the parametric [SpecFloat] operations of the
    standard library, which compute), and the functions that live in the
    other compilation units of the program ([fsk.h], [baudot.h],
    [simpleaudio.h]) are the members of three interfaces. *)

From Stdlib Require Import ZArith List Bool Lia String Ascii SpecFloat.
Import ListNotations.
Open Scope Z_scope.

(* ================================================================== *)
(** * Part I: definitions                                              *)
(* ================================================================== *)

(** ** C arithmetic *)

Module C99.

(** Unsigned types wrap. *)
Definition uint (z : Z) : Z := z mod 2 ^ 32.      (* unsigned int *)
Definition size_t (z : Z) : Z := z mod 2 ^ 64.    (* size_t, LP64 *)
Definition ullong (z : Z) : Z := z mod 2 ^ 64.    (* unsigned long long *)

(** [float] and [double]. *)
Definition float := spec_float.
Definition double := spec_float.

Definition fprec : Z := 24.
Definition femax : Z := 128.
Definition dprec : Z := 53.
Definition demax : Z := 1024.

Definition fadd : float -> float -> float := SFadd fprec femax.
Definition fsub : float -> float -> float := SFsub fprec femax.
Definition fmul : float -> float -> float := SFmul fprec femax.
Definition fdiv : float -> float -> float := SFdiv fprec femax.
Definition dadd : double -> double -> double := SFadd dprec demax.
Definition dmul : double -> double -> double := SFmul dprec demax.
Definition ddiv : double -> double -> double := SFdiv dprec demax.

(** The comparisons are false as soon as one side is a NaN. *)
Definition fle (x y : spec_float) : bool := SFleb x y.      (* x <= y *)
Definition flt (x y : spec_float) : bool := SFltb x y.      (* x <  y *)
Definition fgt (x y : spec_float) : bool := SFltb y x.      (* x >  y *)
Definition fge (x y : spec_float) : bool := SFleb y x.      (* x >= y *)
Definition feq (x y : spec_float) : bool := SFeqb x y.      (* x == y *)

Definition is_nan (x : spec_float) : bool :=
  match x with S754_nan => true | _ => false end.

(** [signbit]; [spec_float] keeps no sign for a NaN, for which the model
    answers [false]. *)
Definition signbit (x : spec_float) : bool :=
  match x with
  | S754_zero s | S754_infinity s | S754_finite s _ _ => s
  | S754_nan => false
  end.

Definition fabs (x : spec_float) : spec_float := SFabs x.
Definition fneg (x : spec_float) : spec_float := SFopp x.

(** Integer to floating point: round to nearest, ties to even. *)
Definition float_of_Z (z : Z) : float := binary_normalize fprec femax z 0 false.
Definition double_of_Z (z : Z) : double := binary_normalize dprec demax z 0 false.

(** [float] to [double] is exact; [double] to [float] rounds. *)
Definition double_of_float (x : float) : double :=
  match x with
  | S754_finite s m e => binary_round dprec demax s m e
  | _ => x
  end.
Definition float_of_double (x : double) : float :=
  match x with
  | S754_finite s m e => binary_round fprec femax s m e
  | _ => x
  end.

(** Floating point to integer truncates toward zero.  The conversion of a
    NaN, of an infinity or of a value outside the target type is
    undefined in C; the model answers 0 for the first two and wraps the
    third. *)
Definition Ztrunc (x : spec_float) : Z :=
  match x with
  | S754_finite s m e =>
      cond_Zopp s (match e with
                   | Zneg p => Z.shiftr (Zpos m) (Zpos p)
                   | _ => Z.shiftl (Zpos m) e
                   end)
  | _ => 0
  end.
Definition uint_of_float (x : spec_float) : Z := uint (Ztrunc x).
Definition size_t_of_float (x : spec_float) : Z := size_t (Ztrunc x).
Definition int_of_float (x : spec_float) : Z := Ztrunc x.

(** [ceilf] *)
Definition ceilf (x : float) : float :=
  match x with
  | S754_finite s m (Zneg p) =>
      let q := Z.shiftr (Zpos m) (Zpos p) in
      let exact := Z.eqb (Z.shiftl q (Zpos p)) (Zpos m) in
      let c := if s then - q else if exact then q else q + 1 in
      binary_normalize fprec femax c 0 s
  | _ => x
  end.

(** Constants of the source. *)
Definition f_zero : float := S754_zero false.                      (* 0 *)
Definition f_half : float := binary_normalize fprec femax 1 (-1) false.   (* 0.5f *)
Definition d_half : double := binary_normalize dprec demax 1 (-1) false.  (* 0.5 *)
Definition d_two : double := double_of_Z 2.                        (* 2.0 *)
Definition d_hundred : double := double_of_Z 100.                  (* 100.0 *)
Definition INFINITY : float := S754_infinity false.

(** A decimal literal [n / 10^k] as a [double], and stored in a [float]. *)
Definition double_lit (n : Z) (k : Z) : double :=
  ddiv (double_of_Z n) (double_of_Z (10 ^ k)).
Definition float_lit (n : Z) (k : Z) : float := float_of_double (double_lit n k).

(** [isprint] and [isspace] in the C locale, on a [char] value. *)
Definition isprint (c : Z) : bool := (32 <=? c) && (c <=? 126).
Definition isspace (c : Z) : bool := (c =? 32) || ((9 <=? c) && (c <=? 13)).

(** An [int] or [unsigned] stored in a [char] (signed, 8 bits). *)
Definition to_char (z : Z) : Z :=
  let b := z mod 256 in if b <? 128 then b else b - 256.

End C99.
Import C99.

(** ** The interfaces of the other compilation units *)

(** Modelled from the spec: the declaration of [struct fsk_plan] is in
    [fsk.h], which is not part of the sources at hand.  The fields are those
    of the spec's data model (sample rate, band width, the two band indices,
    the number of data bits, the number of frame bits and the DFT size); the
    receive loop reads [n_data_bits], [n_frame_bits], [fftsize],
    [band_width] and [b_mark]. *)
Record fsk_plan : Type := mk_fsk_plan {
  plan_sample_rate : Z;
  band_width : float;
  b_mark : Z;
  b_space : Z;
  n_data_bits : Z;
  n_frame_bits : Z;
  fftsize : Z
}.

(** What [fsk_find_frame] hands back: its return value and the two
    out-parameters. *)
Record frame : Type := mk_frame {
  frame_confidence : float;
  frame_bits : Z;
  frame_start_sample : Z
}.

(** [fsk.h].  [fsk_find_frame fskp samples frame_nsamples try_first_sample
    try_max_nsamples try_step_nsamples try_confidence_search_limit];
    [fsk_detect_carrier fskp samples nsamples min_mag_threshold] (an [int],
    negative when no band is found). *)
Class FskLib : Type := {
  fsk_find_frame :
    fsk_plan -> list float -> Z -> Z -> Z -> Z -> float -> frame;
  fsk_detect_carrier : fsk_plan -> list float -> Z -> float -> Z;
  fsk_set_tones_by_bandshift : fsk_plan -> Z -> Z -> fsk_plan
}.

(** [simpleaudio.h], the reading side.  [simpleaudio_read sa n] answers the
    return value (negative on error, 0 at the end of the stream), the samples
    it stored and the stream afterwards. *)
Class SimpleAudio (stream : Type) : Type := {
  simpleaudio_read : stream -> Z -> Z * list float * stream
}.

(** [baudot.h]; the module keeps the letters/figures shift in a static
    variable, here a state of type [shift]. *)
Class BaudotLib (shift : Type) : Type := {
  baudot_reset : shift -> shift;
  baudot_decode : shift -> Z -> list Z * shift;
  baudot_encode : shift -> Z -> list Z * shift
}.

(** ** Framebits decoders and encoders *)

(** The two values the function pointers [bfsk_framebits_decode] and
    [bfsk_framebits_encode] of [main] can hold. *)
Inductive framebits_codec : Type := Ascii8 | Baudot.

(** [*databits_outp = char_out], one data word. *)
Definition framebits_encode_ascii8 (char_out : Z) : list Z :=
  [uint (to_char char_out)].

(** A decoder call yields the bytes stored through [dataout_p] (their number
    is the return value), or [None] when an [assert] fails.
    [dataout_p = None] is the call with a NULL buffer. *)
Definition framebits_decode_ascii8 (dataout_p : option unit) (dataout_size : Z)
    (bits : Z) : option (list Z) :=
  match dataout_p with
  | None => Some []
  | Some _ =>
      if negb (Z.land bits (Z.lnot 255) =? 0) then None
      else if negb (1 <=? dataout_size) then None
      else Some [to_char bits]
  end.

Section Codec.
Context {shift : Type} {BL : BaudotLib shift}.

Definition framebits_decode_baudot (sh : shift) (dataout_p : option unit)
    (dataout_size : Z) (bits : Z) : option (list Z * shift) :=
  match dataout_p with
  | None => Some ([], baudot_reset sh)
  | Some _ =>
      if negb (Z.land bits (Z.lnot 31) =? 0) then None
      else if negb (1 <=? dataout_size) then None
      else Some (baudot_decode sh bits)
  end.

Definition framebits_decode (codec : framebits_codec) (sh : shift)
    (dataout_p : option unit) (dataout_size : Z) (bits : Z)
    : option (list Z * shift) :=
  match codec with
  | Ascii8 =>
      match framebits_decode_ascii8 dataout_p dataout_size bits with
      | Some bytes => Some (bytes, sh)
      | None => None
      end
  | Baudot => framebits_decode_baudot sh dataout_p dataout_size bits
  end.

Definition framebits_encode (codec : framebits_codec) (sh : shift)
    (char_out : Z) : list Z * shift :=
  match codec with
  | Ascii8 => (framebits_encode_ascii8 char_out, sh)
  | Baudot => baudot_encode sh char_out
  end.
End Codec.

(** ** The transmitter *)

Module Tx.

(** One call of [simpleaudio_tone sa_out tone_freq nsamples_dur]. *)
Record tone : Type := mk_tone { tone_freq : float; tone_nsamples : Z }.

Definition tx_leader_bits_len : Z := 2.
Definition tx_trailer_bits_len : Z := 2.

(** What the loop of [fsk_transmit_stdin] waits for in [getchar]: a byte,
    or, in interactive mode, the one-shot timer going off first. *)
Inductive stdin_event : Type :=
| Getchar (c : Z)
| Sigalrm.

Record tx_params : Type := mk_tx_params {
  tx_sample_rate : Z;            (* simpleaudio_get_rate(sa_out) *)
  tx_interactive : bool;
  data_rate : float;
  bfsk_mark_f : float;
  bfsk_space_f : float;
  tx_n_data_bits : Z;
  bfsk_txstopbits : float;
  framebits_encoder : framebits_codec
}.

Definition bit_nsamples (p : tx_params) : Z :=
  size_t_of_float
    (dadd (double_of_float (fdiv (float_of_Z (tx_sample_rate p)) (data_rate p)))
          d_half).

Section Transmit.
Context {shift : Type} {BL : BaudotLib shift}.

Record tx_state : Type := mk_tx_state {
  tx_transmitting : bool;
  timer_armed : bool;
  tx_shift : shift;
  tx_out : list tone
}.

Definition emit (ts : list tone) (s : tx_state) : tx_state :=
  mk_tx_state (tx_transmitting s) (timer_armed s) (tx_shift s)
              (tx_out s ++ ts).

(** [tx_stop_transmit_sighandler]; [tx_bit_nsamples] is an
    [unsigned int]. *)
Definition tx_stop_transmit_sighandler (p : tx_params) (s : tx_state)
    : tx_state :=
  let trailer :=
    repeat (mk_tone (bfsk_mark_f p) (uint (bit_nsamples p)))
           (Z.to_nat tx_trailer_bits_len) in
  let flush := mk_tone (float_of_Z 0) (tx_sample_rate p / 2) in
  mk_tx_state false (timer_armed s) (tx_shift s)
              (tx_out s ++ trailer ++ [flush]).

(** [for ( i=0; i<n_data_bits; i++ )], with [count] iterations left. *)
Fixpoint data_bit_tones (p : tx_params) (word : Z) (i : Z) (count : nat)
    : list tone :=
  match count with
  | O => []
  | S count' =>
      let bit := Z.land (Z.shiftr word i) 1 in
      let tone_freq := if bit =? 1 then bfsk_mark_f p else bfsk_space_f p in
      mk_tone tone_freq (bit_nsamples p)
        :: data_bit_tones p word (i + 1) count'
  end.

(** The body of [for ( j=0; j<nwords; j++ )]. *)
Definition word_tones (p : tx_params) (word : Z) : list tone :=
  mk_tone (bfsk_space_f p) (bit_nsamples p)
    :: data_bit_tones p word 0 (Z.to_nat (tx_n_data_bits p))
    ++ [mk_tone (bfsk_mark_f p)
          (size_t_of_float
             (fmul (float_of_Z (bit_nsamples p)) (bfsk_txstopbits p)))].

Fixpoint words_tones (p : tx_params) (words : list Z) : list tone :=
  match words with
  | [] => []
  | w :: words' => word_tones p w ++ words_tones p words'
  end.

(** The body of [while ( (c = getchar()) != EOF )]. *)
Definition tx_char (p : tx_params) (c : Z) (s : tx_state) : tx_state :=
  let s := mk_tx_state (tx_transmitting s)
             (if tx_interactive p then false else timer_armed s)
             (tx_shift s) (tx_out s) in
  let '(bits, sh) := framebits_encode (framebits_encoder p) (tx_shift s) c in
  let s := mk_tx_state (tx_transmitting s) (timer_armed s) sh (tx_out s) in
  let s :=
    if negb (tx_transmitting s) then
      emit (repeat (mk_tone (bfsk_mark_f p) (bit_nsamples p))
                   (Z.to_nat tx_leader_bits_len))
           (mk_tx_state true (timer_armed s) (tx_shift s) (tx_out s))
    else s in
  let s := emit (words_tones p bits) s in
  mk_tx_state (tx_transmitting s)
    (if tx_interactive p then true else timer_armed s)
    (tx_shift s) (tx_out s).

(** The timer is one-shot and is armed only between two bytes; when it
    goes off the handler runs. *)
Definition tx_event (p : tx_params) (ev : stdin_event) (s : tx_state)
    : tx_state :=
  match ev with
  | Getchar c => tx_char p c s
  | Sigalrm =>
      if timer_armed s then
        tx_stop_transmit_sighandler p
          (mk_tx_state (tx_transmitting s) false (tx_shift s) (tx_out s))
      else s
  end.

Fixpoint tx_loop (p : tx_params) (input : list stdin_event) (s : tx_state)
    : tx_state :=
  match input with
  | [] => s
  | ev :: input' => tx_loop p input' (tx_event p ev s)
  end.

(** [fsk_transmit_stdin], from the first [getchar] to the return. *)
Definition fsk_transmit_stdin (p : tx_params) (sh : shift)
    (input : list stdin_event) : tx_state :=
  let s := tx_loop p input (mk_tx_state false false sh []) in
  let s := if tx_interactive p
           then mk_tx_state (tx_transmitting s) false (tx_shift s) (tx_out s)
           else s in
  if negb (tx_transmitting s) then s
  else tx_stop_transmit_sighandler p s.

(** The frame of one data word in the words of the specification: a
    start bit of space tone, the data bits from the least significant
    one up, mark for 1 and space for 0, and the stop bits of mark
    tone. *)
Definition spec_bit_tone (p : tx_params) (b : bool) : tone :=
  mk_tone (if b then bfsk_mark_f p else bfsk_space_f p) (bit_nsamples p).

Definition spec_word_frame (p : tx_params) (word : Z) : list tone :=
  [spec_bit_tone p false]
    ++ map (fun i => spec_bit_tone p (Z.testbit word (Z.of_nat i)))
           (seq 0 (Z.to_nat (tx_n_data_bits p)))
    ++ [mk_tone (bfsk_mark_f p)
          (size_t_of_float
             (fmul (float_of_Z (bit_nsamples p)) (bfsk_txstopbits p)))].

Definition spec_leader (p : tx_params) : list tone :=
  [spec_bit_tone p true; spec_bit_tone p true].

(** The data words of the bytes [cs], in the order the loop sends them, the
    state of the encoder going from one byte to the next. *)
Fixpoint encode_all (codec : framebits_codec) (sh : shift) (cs : list Z)
    : list Z :=
  match cs with
  | [] => []
  | c :: cs' =>
      let '(words, sh') := framebits_encode codec sh c in
      words ++ encode_all codec sh' cs'
  end.

(** What [tx_stop_transmit_sighandler] sends: the trailer bits and the
    half second of silence. *)
Definition spec_trailer (p : tx_params) : list tone :=
  [mk_tone (bfsk_mark_f p) (uint (bit_nsamples p));
   mk_tone (bfsk_mark_f p) (uint (bit_nsamples p))].

Definition spec_flush (p : tx_params) : tone :=
  mk_tone (float_of_Z 0) (tx_sample_rate p / 2).

(** The events in which a byte arrives. *)
Definition is_getchar (ev : stdin_event) : bool :=
  match ev with Getchar _ => true | Sigalrm => false end.

End Transmit.

(** [generate_test_tones]: [count] turns of its loop are left. *)
Fixpoint test_tone_loop (count : nat) (nframes : Z) : list tone :=
  match count with
  | O => []
  | S count' =>
      mk_tone (float_of_Z 1000) (nframes / 2)
        :: mk_tone (float_of_Z 1777) (nframes / 2)
        :: test_tone_loop count' nframes
  end.

(** [sample_rate] is what [simpleaudio_get_rate] returns, an [unsigned
    int]; [None] is the division by zero of [sample_rate/nframes], or the
    overflow of the [int i] that counts up to a bound of 2^31 or more. *)
Definition generate_test_tones (sample_rate duration_sec : Z)
    : option (list tone) :=
  let nframes := uint (sample_rate / 10) in
  if nframes =? 0 then None
  else
    let count := uint (uint (sample_rate / nframes) * duration_sec) in
    if 2 ^ 31 <=? count then None
    else Some (test_tone_loop (Z.to_nat count) nframes).

(** The samples of a list of tones. *)
Fixpoint total_nsamples (ts : list tone) : Z :=
  match ts with
  | [] => 0
  | t :: ts' => tone_nsamples t + total_nsamples ts'
  end.

End Tx.

(** ** The receiver *)

Module Rx.

(** *** The settings [main] works out before the loop *)

(** The positional argument: [rtty], or what [atof] makes of it. *)
Inductive baudmode : Type :=
| Rtty
| Bps (rate : float).

(** The variables of [main] as the option loop leaves them. *)
Record options : Type := mk_options {
  opt_quiet_mode : bool;
  opt_band_width : float;
  opt_bfsk_mark_f : Z;
  opt_bfsk_space_f : Z;
  opt_bfsk_txstopbits : float;
  opt_bfsk_n_data_bits : Z;
  opt_carrier_autodetect_threshold : float;
  opt_fsk_confidence_threshold : float;
  opt_fsk_confidence_search_limit : float;
  opt_sample_rate : Z;
  opt_modem_mode : baudmode
}.

(** The defaults of the declarations at the top of [main]. *)
Definition default_options (mode : baudmode) : options :=
  mk_options false f_zero 0 0 f_zero 0 f_zero
             (float_of_Z 2) (float_lit 23 1) 48000 mode.

Record settings : Type := mk_settings {
  quiet_mode : bool;
  rx_band_width : float;
  bfsk_mark_f : Z;
  bfsk_space_f : Z;
  bfsk_txstopbits : float;
  bfsk_n_data_bits : Z;
  autodetect_shift : Z;
  carrier_autodetect_threshold : float;
  fsk_confidence_threshold : float;
  fsk_confidence_search_limit : float;
  sample_rate : Z;
  bfsk_data_rate : float;
  bfsk_framebits : framebits_codec
}.

(** Why [main] stops before it opens a stream. *)
Inductive setup_error : Type :=
| Usage                (* usage(): exit(1) *)
| AssertDataBits.      (* assert( 0 && bfsk_n_data_bits ) *)

(** Lines 554 to 630 of [main]. *)
Definition main_setup (o : options) : settings + setup_error :=
  let '(bfsk_data_rate, n_data_bits, txstopbits) :=
    match opt_modem_mode o with
    | Rtty =>
        (float_lit 4545 2,
         (if opt_bfsk_n_data_bits o =? 0 then 5 else opt_bfsk_n_data_bits o),
         (if feq (opt_bfsk_txstopbits o) f_zero
          then float_lit 15 1 else opt_bfsk_txstopbits o))
    | Bps rate =>
        (rate,
         (if opt_bfsk_n_data_bits o =? 0 then 8 else opt_bfsk_n_data_bits o),
         opt_bfsk_txstopbits o)
    end in
  if feq bfsk_data_rate f_zero then inr Usage
  else
    match (if n_data_bits =? 8 then Some Ascii8
           else if n_data_bits =? 5 then Some Baudot else None) with
    | None => inr AssertDataBits
    | Some codec =>
        let '(shift, dflt_mark, dflt_bw) :=
          if fge bfsk_data_rate (float_of_Z 400) then
            (int_of_float
               (fneg (fdiv (fmul bfsk_data_rate (float_of_Z 5)) (float_of_Z 6))),
             uint_of_float
               (fadd (fdiv bfsk_data_rate (float_of_Z 2)) (float_of_Z 600)),
             float_of_Z 200)
          else if fge bfsk_data_rate (float_of_Z 100) then
            (200, 1270, float_of_Z 50)
          else
            (170, 1585, float_of_Z 10) in
        let mark := if opt_bfsk_mark_f o =? 0 then dflt_mark
                    else opt_bfsk_mark_f o in
        let space := if opt_bfsk_space_f o =? 0 then uint (mark - shift)
                     else opt_bfsk_space_f o in
        let bw := if feq (opt_band_width o) f_zero then dflt_bw
                  else opt_band_width o in
        let txstopbits := if feq txstopbits f_zero then float_of_Z 1
                          else txstopbits in
        let bw := if fgt bw bfsk_data_rate then bfsk_data_rate else bw in
        let limit :=
          if flt (opt_fsk_confidence_search_limit o)
                 (opt_fsk_confidence_threshold o)
          then opt_fsk_confidence_threshold o
          else opt_fsk_confidence_search_limit o in
        inl (mk_settings (opt_quiet_mode o) bw mark space txstopbits
               n_data_bits shift (opt_carrier_autodetect_threshold o)
               (opt_fsk_confidence_threshold o) limit
               (opt_sample_rate o) bfsk_data_rate codec)
    end.

(** The rate [main] takes from the positional argument. *)
Definition rate_of_mode (mode : baudmode) : float :=
  match mode with
  | Rtty => float_lit 4545 2
  | Bps rate => rate
  end.

(** The shift, the mark frequency and the band width [main] falls back on
    for a data rate: Bell 202 from 400 bps, Bell 103 from 100 bps, RTTY
    below. *)
Definition band_defaults (rate : float) : Z * Z * float :=
  if fge rate (float_of_Z 400) then
    (int_of_float (fneg (fdiv (fmul rate (float_of_Z 5)) (float_of_Z 6))),
     uint_of_float (fadd (fdiv rate (float_of_Z 2)) (float_of_Z 600)),
     float_of_Z 200)
  else if fge rate (float_of_Z 100) then (200, 1270, float_of_Z 50)
  else (170, 1585, float_of_Z 10).

(** The number of data bits [main] settles on. *)
Definition data_bits_of (o : options) : Z :=
  if opt_bfsk_n_data_bits o =? 0
  then match opt_modem_mode o with Rtty => 5 | Bps _ => 8 end
  else opt_bfsk_n_data_bits o.

(** [float nsamples_per_bit = sample_rate / bfsk_data_rate] *)
Definition nsamples_per_bit (c : settings) : float :=
  fdiv (float_of_Z (sample_rate c)) (bfsk_data_rate c).

(** [size_t samplebuf_size = ceilf(nsamples_per_bit) * (12+1)] *)
Definition samplebuf_size (c : settings) : Z :=
  size_t_of_float (fmul (ceilf (nsamples_per_bit c)) (float_of_Z (12 + 1))).

Definition fsk_frame_overscan : float := f_half.

(** [nsamples_overscan = nsamples_per_bit * fsk_frame_overscan + 0.5],
    at least one sample. *)
Definition nsamples_overscan (c : settings) : Z :=
  let n := uint_of_float
             (dadd (double_of_float (fmul (nsamples_per_bit c) fsk_frame_overscan))
                   d_half) in
  if fgt fsk_frame_overscan f_zero && (n =? 0) then 1 else n.

Definition FSK_ANALYZE_NSTEPS : Z := 10.
Definition FSK_MAX_NOCONFIDENCE_BITS : Z := 20.

(** [try_max_nsamples = nsamples_per_bit + nsamples_overscan] *)
Definition try_max_nsamples (c : settings) : Z :=
  uint_of_float (fadd (nsamples_per_bit c) (float_of_Z (nsamples_overscan c))).

(** [try_step_nsamples = nsamples_per_bit / FSK_ANALYZE_NSTEPS], at
    least 1. *)
Definition try_step_nsamples (c : settings) : Z :=
  let n := uint_of_float (fdiv (nsamples_per_bit c) (float_of_Z FSK_ANALYZE_NSTEPS)) in
  if n =? 0 then 1 else n.

(** *** What the receiver writes to stderr *)

Inductive skew_label : Type := slow | fast.

Inductive rate_note : Type :=
| RatePerfect                                        (* (rate perfect) *)
| RateSkew (percent : double) (label : skew_label).  (* (P.P% slow|fast) *)

(** The arguments of the two [fprintf] of [report_no_carrier]. *)
Record nocarrier_report : Type := mk_report {
  ndata : Z;
  report_confidence : float;
  throughput : float;
  note : rate_note
}.

Inductive stderr_line : Type :=
| Text (s : string)
| CarrierLine (rate : Z + float) (hz : float)
| NoCarrierLine (r : nocarrier_report).

Definition report_no_carrier (fskp : fsk_plan) (sample_rate : Z)
    (bfsk_data_rate nsamples_per_bit : float) (nframes_decoded : Z)
    (carrier_nsamples : Z) (confidence_total : float) : nocarrier_report :=
  let nbits_total := uint (nframes_decoded * (n_data_bits fskp + 2)) in
  let throughput_rate :=
    fdiv (float_of_Z (ullong (nbits_total * sample_rate)))
         (float_of_Z carrier_nsamples) in
  mk_report nframes_decoded
    (fdiv confidence_total (float_of_Z nframes_decoded))
    throughput_rate
    (if size_t_of_float
          (dadd (double_of_float (fmul (float_of_Z nbits_total) nsamples_per_bit))
                d_half)
        =? carrier_nsamples
     then RatePerfect
     else
       let throughput_skew :=
         fdiv (fsub throughput_rate bfsk_data_rate) bfsk_data_rate in
       RateSkew (dmul (fabs (double_of_float throughput_skew)) d_hundred)
                (if signbit throughput_skew then slow else fast)).

(** *** The state of the loop *)

(** The sample buffer and the three variables that describe it;
    [samples_readptr] is kept as an offset from [samplebuf]. *)
Record sample_window : Type := mk_window {
  samplebuf : list float;
  samples_readptr : Z;
  read_nsamples : Z;
  samples_nvalid : Z
}.

(** The carrier flag and the three counters of one carrier. *)
Record carrier_stats : Type := mk_stats {
  carrier : bool;
  confidence_total : float;
  nframes_decoded : Z;
  carrier_nsamples : Z
}.

Section Receive.
Context {stream shift : Type}.
Context {FL : FskLib} {SA : SimpleAudio stream} {BL : BaudotLib shift}.

Record rx_state : Type := mk_rx {
  sa : stream;
  fskp : fsk_plan;
  window : sample_window;
  ret : Z;
  stats : carrier_stats;
  noconfidence : Z;
  advance : Z;
  carrier_band : Z;          (* static int carrier_band = -1 *)
  baudot : shift;
  stdout : list Z;
  stderr : list stderr_line
}.

Definition set_sa (a : stream) (s : rx_state) : rx_state :=
  mk_rx a (fskp s) (window s) (ret s) (stats s) (noconfidence s) (advance s)
        (carrier_band s) (baudot s) (stdout s) (stderr s).
Definition set_ret (r : Z) (s : rx_state) : rx_state :=
  mk_rx (sa s) (fskp s) (window s) r (stats s) (noconfidence s) (advance s)
        (carrier_band s) (baudot s) (stdout s) (stderr s).
Definition set_window (w : sample_window) (s : rx_state) : rx_state :=
  mk_rx (sa s) (fskp s) w (ret s) (stats s) (noconfidence s) (advance s)
        (carrier_band s) (baudot s) (stdout s) (stderr s).
Definition set_advance (a : Z) (s : rx_state) : rx_state :=
  mk_rx (sa s) (fskp s) (window s) (ret s) (stats s) (noconfidence s) a
        (carrier_band s) (baudot s) (stdout s) (stderr s).
Definition set_stats (cs : carrier_stats) (s : rx_state) : rx_state :=
  mk_rx (sa s) (fskp s) (window s) (ret s) cs (noconfidence s) (advance s)
        (carrier_band s) (baudot s) (stdout s) (stderr s).
Definition set_noconfidence (n : Z) (s : rx_state) : rx_state :=
  mk_rx (sa s) (fskp s) (window s) (ret s) (stats s) n (advance s)
        (carrier_band s) (baudot s) (stdout s) (stderr s).
Definition set_carrier_band (b : Z) (s : rx_state) : rx_state :=
  mk_rx (sa s) (fskp s) (window s) (ret s) (stats s) (noconfidence s)
        (advance s) b (baudot s) (stdout s) (stderr s).
Definition set_fskp (p : fsk_plan) (s : rx_state) : rx_state :=
  mk_rx (sa s) p (window s) (ret s) (stats s) (noconfidence s)
        (advance s) (carrier_band s) (baudot s) (stdout s) (stderr s).
Definition set_baudot (sh : shift) (s : rx_state) : rx_state :=
  mk_rx (sa s) (fskp s) (window s) (ret s) (stats s) (noconfidence s)
        (advance s) (carrier_band s) sh (stdout s) (stderr s).
Definition print_stdout (bytes : list Z) (s : rx_state) : rx_state :=
  mk_rx (sa s) (fskp s) (window s) (ret s) (stats s) (noconfidence s)
        (advance s) (carrier_band s) (baudot s) (stdout s ++ bytes) (stderr s).
Definition print_stderr (lines : list stderr_line) (s : rx_state) : rx_state :=
  mk_rx (sa s) (fskp s) (window s) (ret s) (stats s) (noconfidence s)
        (advance s) (carrier_band s) (baudot s) (stdout s) (stderr s ++ lines).

(** The state at the top of the first iteration; [contents] is what
    [malloc] left in the buffer. *)
Definition rx_init (c : settings) (sa0 : stream) (plan : fsk_plan)
    (sh : shift) (contents : list float) : rx_state :=
  mk_rx sa0 plan (mk_window contents 0 (samplebuf_size c) 0) 0
        (mk_stats false f_zero 0 0) 0 0 (-1) sh [] [].

(** Where control is after a piece of the loop body. *)
Inductive flow (A : Type) : Type :=
| Next (a : A)             (* at the next statement *)
| Continue (s : rx_state)  (* continue; *)
| Break (s : rx_state)     (* break; *)
| Abort                    (* an assert failed *)
| Hang.                    (* an inner loop that does not end *)
Arguments Next {A} a.
Arguments Continue {A} s.
Arguments Break {A} s.
Arguments Abort {A}.
Arguments Hang {A}.

Definition bind {A B : Type} (m : flow A) (k : A -> flow B) : flow B :=
  match m with
  | Next a => k a
  | Continue s => Continue s
  | Break s => Break s
  | Abort => Abort
  | Hang => Hang
  end.

(** *** The loop body, statement by statement *)

(** [data] written over the front of [buf]. *)
Fixpoint overwrite (buf data : list float) : list float :=
  match buf, data with
  | _ :: buf', d :: data' => d :: overwrite buf' data'
  | _, _ => buf
  end.

Definition store (buf : list float) (off : Z) (data : list float)
    : list float :=
  firstn (Z.to_nat off) buf ++ overwrite (skipn (Z.to_nat off) buf) data.

(** "Shift the samples in samplebuf by 'advance' samples" *)
Definition shift_samples (c : settings) (s : rx_state) : flow rx_state :=
  let size := samplebuf_size c in
  if negb (advance s <=? size) then Abort
  else
    let s :=
      if advance s =? size
      then set_advance 0
             (set_window (mk_window (samplebuf (window s)) 0 size 0) s)
      else s in
    if advance s =? 0 then Next s
    else if samples_nvalid (window s) <? advance s then Break s
    else
      let w := window s in
      let keep := Z.to_nat (size - advance s) in
      Next (set_window
              (mk_window
                 (firstn keep (skipn (Z.to_nat (advance s)) (samplebuf w))
                    ++ skipn keep (samplebuf w))
                 (size - advance s)
                 (advance s)
                 (samples_nvalid w - advance s))
              s).

Definition read_error_message : string :=
  String.append "simpleaudio_read: error" (String (ascii_of_nat 10) EmptyString).

(** "Read more samples into samplebuf (fill it)" *)
Definition read_samples (c : settings) (s : rx_state) : flow rx_state :=
  let w := window s in
  if negb (0 <? read_nsamples w) then Abort
  else if negb (size_t (samples_nvalid w + read_nsamples w) <=? samplebuf_size c)
  then Abort
  else
    let '(r, data, sa') := simpleaudio_read (sa s) (read_nsamples w) in
    let s :=
      set_sa sa'
        (set_window
           (mk_window (store (samplebuf w) (samples_readptr w) data)
                      (samples_readptr w) (read_nsamples w) (samples_nvalid w))
           s) in
    if r <? 0 then
      Break (set_ret (-1) (print_stderr [Text read_error_message] s))
    else
      let s :=
        if 0 <? r then
          let w := window s in
          set_window (mk_window (samplebuf w) (samples_readptr w)
                                (read_nsamples w)
                                (size_t (samples_nvalid w + r))) s
        else s in
      if samples_nvalid (window s) =? 0 then Break s else Next s.

(** [for ( i=0; i+nsamples_per_scan<=samples_nvalid; i+=nsamples_per_scan )]
    from the test of its condition on, with [band] the current value of
    [carrier_band]; [None] when [fuel] tests were not enough. *)
Fixpoint scan_carrier (fuel : nat) (c : settings) (plan : fsk_plan)
    (buf : list float) (nvalid : Z) (nsamples_per_scan : float)
    (i band : Z) : option (Z * Z) :=
  if fle (fadd (float_of_Z i) nsamples_per_scan) (float_of_Z nvalid) then
    match fuel with
    | O => None
    | S fuel' =>
        let band :=
          fsk_detect_carrier plan (skipn (Z.to_nat i) buf)
            (uint_of_float nsamples_per_scan)
            (carrier_autodetect_threshold c) in
        if 0 <=? band then Some (i, band)
        else scan_carrier fuel' c plan buf nvalid nsamples_per_scan
               (uint_of_float (fadd (float_of_Z i) nsamples_per_scan)) band
    end
  else Some (i, band).

(** "Auto-detect carrier frequency".  [i] grows by at least one sample
    per turn or stays where it is for ever, so that a scan which has not
    ended after [2 * samples_nvalid + 2] turns never ends. *)
Definition autodetect_carrier (c : settings) (s : rx_state)
    : flow rx_state :=
  if fgt (carrier_autodetect_threshold c) f_zero && (carrier_band s <? 0)
  then
    let plan := fskp s in
    let w := window s in
    let nsamples_per_scan :=
      if fgt (nsamples_per_bit c) (float_of_Z (fftsize plan))
      then float_of_Z (fftsize plan) else nsamples_per_bit c in
    match scan_carrier (Z.to_nat (2 * samples_nvalid w + 2)) c plan
            (samplebuf w) (samples_nvalid w) nsamples_per_scan 0
            (carrier_band s) with
    | None => Hang
    | Some (i, band) =>
        let adv := uint_of_float (fadd (float_of_Z i) nsamples_per_scan) in
        let adv := if samples_nvalid w <? adv
                   then uint (samples_nvalid w) else adv in
        let s := set_advance adv (set_carrier_band band s) in
        if band <? 0 then Continue s
        else
          let b_shift :=
            int_of_float
              (fdiv
                 (fneg
                    (float_of_double
                       (dadd (double_of_Z (autodetect_shift c))
                             (ddiv (double_of_float (band_width plan)) d_two))))
                 (band_width plan)) in
          if band + b_shift <? 1 then Continue (set_carrier_band (-1) s)
          else
            Next (set_fskp (fsk_set_tones_by_bandshift plan band b_shift) s)
    end
  else Next s.

(** [frame_nsamples = nsamples_per_bit * fskp->n_frame_bits] *)
Definition frame_nsamples (c : settings) (s : rx_state) : Z :=
  uint_of_float (fmul (nsamples_per_bit c) (float_of_Z (n_frame_bits (fskp s)))).

Definition try_first_sample (c : settings) (s : rx_state) : Z :=
  if carrier (stats s) then nsamples_overscan c else 0.

Definition try_confidence_search_limit (c : settings) (s : rx_state)
    : float :=
  if carrier (stats s) then fsk_confidence_search_limit c else INFINITY.

(** From the computation of [frame_nsamples] to the return of
    [fsk_find_frame]. *)
Definition find_frame (c : settings) (s : rx_state) : flow frame :=
  if samples_nvalid (window s) <? frame_nsamples c s then Break s
  else
    Next (fsk_find_frame (fskp s) (samplebuf (window s))
            (frame_nsamples c s) (try_first_sample c s)
            (try_max_nsamples c) (try_step_nsamples c)
            (try_confidence_search_limit c s)).

(** "hardcoded chop off framing bits" *)
Definition chop_framing_bits (plan : fsk_plan) (bits : Z) : Z :=
  if n_data_bits plan =? 5
  then Z.land (Z.shiftr bits 2) 31
  else Z.land (Z.shiftr bits 2) 255.

Definition nocarrier_line (c : settings) (s : rx_state) : stderr_line :=
  NoCarrierLine
    (report_no_carrier (fskp s) (sample_rate c) (bfsk_data_rate c)
       (nsamples_per_bit c) (nframes_decoded (stats s))
       (carrier_nsamples (stats s)) (confidence_total (stats s))).

(** The branch [confidence <= fsk_confidence_threshold], up to its
    [continue]. *)
Definition no_confidence (c : settings) (s : rx_state) : rx_state :=
  let s := set_noconfidence (uint (noconfidence s + 1)) s in
  let s :=
    if FSK_MAX_NOCONFIDENCE_BITS <? noconfidence s then
      let s := set_carrier_band (-1) s in
      if carrier (stats s) then
        let s := if negb (quiet_mode c)
                 then print_stderr [nocarrier_line c s] s else s in
        set_stats (mk_stats false f_zero 0 0) s
      else s
    else s in
  set_advance (try_max_nsamples c) s.

Definition carrier_line (c : settings) (plan : fsk_plan) : stderr_line :=
  let hz := fmul (float_of_Z (b_mark plan)) (band_width plan) in
  if fge (bfsk_data_rate c) (float_of_Z 100)
  then CarrierLine
         (inl (uint_of_float (dadd (double_of_float (bfsk_data_rate c)) d_half)))
         hz
  else CarrierLine (inr (bfsk_data_rate c)) hz.

(** A byte that is neither [isprint] nor [isspace] is printed as a dot. *)
Definition printable_char (ch : Z) : Z :=
  if isprint ch || isspace ch then ch else 46.

(** The advance past an accepted frame. *)
Definition frame_advance (c : settings) (plan : fsk_plan)
    (frame_start_sample : Z) : Z :=
  uint_of_float
    (fsub (fadd (float_of_Z frame_start_sample)
                (fmul (nsamples_per_bit c)
                      (float_of_Z (uint (n_data_bits plan + 2)))))
          (float_of_Z (nsamples_overscan c))).

(** From "Add a frame's worth of samples to the sample count" to the
    end of the loop body; [bits] are the data bits already chopped. *)
Definition accept_frame (c : settings) (s : rx_state) (fr : frame)
    (bits : Z) : flow rx_state :=
  let plan := fskp s in
  let st := stats s in
  let nsamples :=
    size_t_of_float
      (fadd (float_of_Z (carrier_nsamples st))
            (fmul (nsamples_per_bit c)
                  (float_of_Z (uint (n_data_bits plan + 2))))) in
  let acquired :=
    if carrier st then
      Next (set_stats
              (mk_stats true (confidence_total st) (nframes_decoded st)
                 (size_t (size_t (nsamples + frame_start_sample fr)
                          - nsamples_overscan c)))
              s)
    else
      let s := if negb (quiet_mode c)
               then print_stderr [carrier_line c plan] s else s in
      let s := set_stats
                 (mk_stats true (confidence_total st) (nframes_decoded st)
                           nsamples) s in
      match framebits_decode (bfsk_framebits c) (baudot s) None 0 0 with
      | Some (_, sh) => Next (set_baudot sh s)
      | None => Abort
      end in
  bind acquired (fun s =>
    let st := stats s in
    let s := set_stats
               (mk_stats (carrier st)
                  (fadd (confidence_total st) (frame_confidence fr))
                  (uint (nframes_decoded st + 1))
                  (carrier_nsamples st)) s in
    let s := set_noconfidence 0 s in
    let s := set_advance (frame_advance c plan (frame_start_sample fr)) s in
    match framebits_decode (bfsk_framebits c) (baudot s) (Some tt) 4096 bits with
    | Some (bytes, sh) =>
        Next (print_stdout (map printable_char bytes) (set_baudot sh s))
    | None => Abort
    end).

(** From the top of the loop body to the return of [fsk_find_frame]. *)
Definition locate_frame (c : settings) (s : rx_state)
    : flow (rx_state * frame) :=
  bind (shift_samples c s) (fun s =>
  bind (read_samples c s) (fun s =>
  bind (autodetect_carrier c s) (fun s =>
  bind (find_frame c s) (fun fr => Next (s, fr))))).

(** From the return of [fsk_find_frame] to the end of the loop body. *)
Definition judge_frame (c : settings) (s : rx_state) (fr : frame)
    : flow rx_state :=
  let bits := chop_framing_bits (fskp s) (frame_bits fr) in
  if fle (frame_confidence fr) (fsk_confidence_threshold c)
  then Continue (no_confidence c s)
  else accept_frame c s fr bits.

(** The body of [while ( 1 )]. *)
Definition loop_body (c : settings) (s : rx_state) : flow rx_state :=
  bind (locate_frame c s) (fun '(s, fr) => judge_frame c s fr).

(** How the loop ends, when it does within [fuel] iterations. *)
Inductive loop_end : Type :=
| Left (s : rx_state)       (* by a break *)
| Aborted                   (* by a failed assert *)
| Hung                      (* in the scan of the auto-detection *)
| Running (s : rx_state).   (* not within the fuel *)

Fixpoint rx_loop (fuel : nat) (c : settings) (s : rx_state) : loop_end :=
  match fuel with
  | O => Running s
  | S fuel' =>
      match loop_body c s with
      | Next s' | Continue s' => rx_loop fuel' c s'
      | Break s' => Left s'
      | Abort => Aborted
      | Hang => Hung
      end
  end.

(** The state after [n] complete iterations, if the loop is still
    running then. *)
Fixpoint rx_iterate (n : nat) (c : settings) (s : rx_state)
    : option rx_state :=
  match n with
  | O => Some s
  | S n' =>
      match loop_body c s with
      | Next s' | Continue s' => rx_iterate n' c s'
      | _ => None
      end
  end.

(** After the loop: the last report, and the value [main] returns. *)
Definition rx_finish (c : settings) (s : rx_state) : rx_state :=
  if carrier (stats s) then
    if negb (quiet_mode c) then print_stderr [nocarrier_line c s] s else s
  else s.

Definition main_rx (fuel : nat) (c : settings) (s : rx_state)
    : option (Z * rx_state) :=
  match rx_loop fuel c s with
  | Left s' => Some (ret s', rx_finish c s')
  | _ => None
  end.

(** *** Kinds of iterations *)

(** An iteration that reaches the frame search and finds a frame of low
    confidence ([confidence <= fsk_confidence_threshold]), with the
    state it leaves. *)
Definition low_confidence_attempt (c : settings) (s : rx_state)
    : option rx_state :=
  match locate_frame c s with
  | Next (s1, fr) =>
      if fle (frame_confidence fr) (fsk_confidence_threshold c)
      then Some (no_confidence c s1) else None
  | _ => None
  end.

(** [k] such iterations in a row. *)
Fixpoint low_confidence_run (k : nat) (c : settings) (s : rx_state)
    : option rx_state :=
  match k with
  | O => Some s
  | S k' =>
      match low_confidence_attempt c s with
      | Some s' => low_confidence_run k' c s'
      | None => None
      end
  end.

(** The carrier state without a carrier. *)
Definition no_carrier : carrier_stats := mk_stats false f_zero 0 0.

(** What an accepted frame does to the state: the carrier statistics
    are updated, the frame is counted, the run counter cleared, and the
    bytes the decoder makes of the chopped bits are printed. *)
Definition accepted (c : settings) (s : rx_state) (fr : frame)
    (s' : rx_state) : Prop :=
  carrier (stats s') = true /\
  nframes_decoded (stats s') = uint (nframes_decoded (stats s) + 1) /\
  confidence_total (stats s') =
    fadd (confidence_total (stats s)) (frame_confidence fr) /\
  carrier_nsamples (stats s') =
    (let n := size_t_of_float
                (fadd (float_of_Z (carrier_nsamples (stats s)))
                      (fmul (nsamples_per_bit c)
                            (float_of_Z (uint (n_data_bits (fskp s) + 2))))) in
     if carrier (stats s)
     then size_t (size_t (n + frame_start_sample fr) - nsamples_overscan c)
     else n) /\
  noconfidence s' = 0 /\
  advance s' = frame_advance c (fskp s) (frame_start_sample fr) /\
  exists sh bytes,
    framebits_decode (bfsk_framebits c) sh (Some tt) 4096
      (chop_framing_bits (fskp s) (frame_bits fr)) = Some (bytes, baudot s') /\
    stdout s' = stdout s ++ map printable_char bytes.

(** What a rejected frame does: nothing is printed to stdout, no frame
    is counted, the run counter goes up. *)
Definition rejected (c : settings) (s s' : rx_state) : Prop :=
  stdout s' = stdout s /\
  (stats s' = stats s \/ stats s' = no_carrier) /\
  noconfidence s' = uint (noconfidence s + 1) /\
  advance s' = try_max_nsamples c.

(** The carrier-state invariant of the specification. *)
Definition carrier_invariant (s : rx_state) : Prop :=
  (0 < nframes_decoded (stats s) -> carrier (stats s) = true) /\
  (carrier (stats s) = false ->
   confidence_total (stats s) = f_zero /\ carrier_nsamples (stats s) = 0).

(** What the statements before the frame search leave alone. *)
Definition same_carrier_side (s s' : rx_state) : Prop :=
  stats s' = stats s /\ noconfidence s' = noconfidence s /\
  baudot s' = baudot s /\ stdout s' = stdout s /\
  stderr s' = stderr s /\ ret s' = ret s.

(** Without a carrier the three counters are zero. *)
Definition counters_zeroed (s : rx_state) : Prop :=
  carrier (stats s) = false -> stats s = no_carrier.

(** The plan agrees with the decoder [main] has chosen. *)
Definition plan_fits (c : settings) (plan : fsk_plan) : Prop :=
  bfsk_framebits c = Baudot -> n_data_bits plan = 5.

(** *** What the further properties speak of *)

(** A byte that [isprint] or [isspace] lets through. *)
Definition printable (ch : Z) : bool := isprint ch || isspace ch.

(** The CARRIER and the NOCARRIER lines of what was written to stderr, and
    the messages. *)
Definition is_carrier_line (l : stderr_line) : bool :=
  match l with CarrierLine _ _ => true | _ => false end.
Definition is_nocarrier_line (l : stderr_line) : bool :=
  match l with NoCarrierLine _ => true | _ => false end.
Definition is_text (l : stderr_line) : bool :=
  match l with Text _ => true | _ => false end.

Definition count_lines (f : stderr_line -> bool) (ls : list stderr_line) : Z :=
  Z.of_nat (List.length (filter f ls)).

(** The sample buffer as the asserts of the loop want it: the read goes
    to the end of the buffer, and no more samples are valid than the
    buffer holds. *)
Definition window_ok (c : settings) (w : sample_window) : Prop :=
  List.length (samplebuf w) = Z.to_nat (samplebuf_size c) /\
  0 <= samples_readptr w /\
  0 <= read_nsamples w /\
  samples_readptr w + read_nsamples w = samplebuf_size c /\
  0 <= samples_nvalid w <= samplebuf_size c.

(** [simpleaudio_read] never returns more than it was asked for. *)
Definition read_contract : Prop :=
  forall (st : stream) (n : Z),
    0 < n -> fst (fst (simpleaudio_read st n)) <= n.

(** CARRIER lines are one ahead of NOCARRIER lines while a carrier is
    held, and level otherwise; no message has been printed and [ret] is 0
    while the loop runs. *)
Definition stderr_in_step (c : settings) (s : rx_state) : Prop :=
  ret s = 0 /\
  count_lines is_text (stderr s) = 0 /\
  (quiet_mode c = true -> count_lines is_carrier_line (stderr s) = 0) /\
  count_lines is_carrier_line (stderr s) =
    count_lines is_nocarrier_line (stderr s)
      + (if carrier (stats s) && negb (quiet_mode c) then 1 else 0).

(** The sample buffer is as the asserts want it and [advance] is not
    negative. *)
Definition buffer_ok (c : settings) (s : rx_state) : Prop :=
  window_ok c (window s) /\ 0 <= advance s.

(** Whether the auto-detection of the carrier runs in an iteration. *)
Definition autodetect_runs (c : settings) (s : rx_state) : bool :=
  fgt (carrier_autodetect_threshold c) f_zero && (carrier_band s <? 0).

(** The shift in bands the auto-detection binds the space tone with. *)
Definition autodetect_b_shift (c : settings) (plan : fsk_plan) : Z :=
  int_of_float
    (fdiv
       (fneg
          (float_of_double
             (dadd (double_of_Z (autodetect_shift c))
                   (ddiv (double_of_float (band_width plan)) d_two))))
       (band_width plan)).

(** The auto-detection has bound the tones of the plan in going from [s]
    to [s']. *)
Definition rebound (c : settings) (s s' : rx_state) : Prop :=
  autodetect_runs c s = true /\
  0 <= carrier_band s' /\
  1 <= carrier_band s' + autodetect_b_shift c (fskp s) /\
  fskp s' =
    fsk_set_tones_by_bandshift (fskp s) (carrier_band s')
      (autodetect_b_shift c (fskp s)).

(** With auto-detection on, a carrier is held only on a detected band. *)
Definition band_pinned (c : settings) (s : rx_state) : Prop :=
  fgt (carrier_autodetect_threshold c) f_zero = true ->
  carrier (stats s) = true -> 0 <= carrier_band s.

End Receive.

Arguments Next {stream shift A} a.
Arguments Continue {stream shift A} s.
Arguments Break {stream shift A} s.
Arguments Abort {stream shift A}.
Arguments Hang {stream shift A}.

End Rx.

(** ** The command line *)

Module Cmdline.
Import Rx.

(** The [USE_...] macros the program is built with. *)
Record build : Type := mk_build {
  USE_PULSEAUDIO : bool;
  USE_ALSA : bool;
  USE_SNDFILE : bool
}.

(** The values of [sa_backend_t] and [sa_format_t] that [main] assigns. *)
Inductive sa_backend_t : Type :=
| SA_BACKEND_SYSDEFAULT
| SA_BACKEND_FILE
| SA_BACKEND_ALSA.

Inductive sa_format_t : Type :=
| SA_SAMPLE_FORMAT_S16
| SA_SAMPLE_FORMAT_FLOAT.

(** One answer of [getopt_long] other than -1: the value it returns, and
    [optarg] with what [atof] and [atoi] make of it. *)
Record getopt_answer : Type := mk_getopt_answer {
  opt_c : Z;
  optarg : string;
  optarg_atof : double;
  optarg_atoi : Z
}.

(** The variables of [main] that the option loop assigns. *)
Record main_vars : Type := mk_main_vars {
  TX_mode : Z;
  quiet_mode : bool;
  band_width : float;
  bfsk_mark_f : Z;
  bfsk_space_f : Z;
  bfsk_txstopbits : float;
  bfsk_n_data_bits : Z;
  filename : option string;
  carrier_autodetect_threshold : float;
  fsk_confidence_threshold : float;
  fsk_confidence_search_limit : float;
  sa_backend : sa_backend_t;
  sample_format : sa_format_t;
  sample_rate : Z;
  tx_sin_table_len : Z
}.

Definition set_TX_mode (v : main_vars) (x : Z) : main_vars :=
  mk_main_vars x (quiet_mode v) (band_width v) (bfsk_mark_f v)
    (bfsk_space_f v) (bfsk_txstopbits v) (bfsk_n_data_bits v) (filename v)
    (carrier_autodetect_threshold v) (fsk_confidence_threshold v)
    (fsk_confidence_search_limit v) (sa_backend v) (sample_format v)
    (sample_rate v) (tx_sin_table_len v).
Definition set_quiet_mode (v : main_vars) (x : bool) : main_vars :=
  mk_main_vars (TX_mode v) x (band_width v) (bfsk_mark_f v) (bfsk_space_f v)
    (bfsk_txstopbits v) (bfsk_n_data_bits v) (filename v)
    (carrier_autodetect_threshold v) (fsk_confidence_threshold v)
    (fsk_confidence_search_limit v) (sa_backend v) (sample_format v)
    (sample_rate v) (tx_sin_table_len v).
Definition set_band_width (v : main_vars) (x : float) : main_vars :=
  mk_main_vars (TX_mode v) (quiet_mode v) x (bfsk_mark_f v) (bfsk_space_f v)
    (bfsk_txstopbits v) (bfsk_n_data_bits v) (filename v)
    (carrier_autodetect_threshold v) (fsk_confidence_threshold v)
    (fsk_confidence_search_limit v) (sa_backend v) (sample_format v)
    (sample_rate v) (tx_sin_table_len v).
Definition set_bfsk_mark_f (v : main_vars) (x : Z) : main_vars :=
  mk_main_vars (TX_mode v) (quiet_mode v) (band_width v) x (bfsk_space_f v)
    (bfsk_txstopbits v) (bfsk_n_data_bits v) (filename v)
    (carrier_autodetect_threshold v) (fsk_confidence_threshold v)
    (fsk_confidence_search_limit v) (sa_backend v) (sample_format v)
    (sample_rate v) (tx_sin_table_len v).
Definition set_bfsk_space_f (v : main_vars) (x : Z) : main_vars :=
  mk_main_vars (TX_mode v) (quiet_mode v) (band_width v) (bfsk_mark_f v) x
    (bfsk_txstopbits v) (bfsk_n_data_bits v) (filename v)
    (carrier_autodetect_threshold v) (fsk_confidence_threshold v)
    (fsk_confidence_search_limit v) (sa_backend v) (sample_format v)
    (sample_rate v) (tx_sin_table_len v).
Definition set_bfsk_txstopbits (v : main_vars) (x : float) : main_vars :=
  mk_main_vars (TX_mode v) (quiet_mode v) (band_width v) (bfsk_mark_f v)
    (bfsk_space_f v) x (bfsk_n_data_bits v) (filename v)
    (carrier_autodetect_threshold v) (fsk_confidence_threshold v)
    (fsk_confidence_search_limit v) (sa_backend v) (sample_format v)
    (sample_rate v) (tx_sin_table_len v).
Definition set_bfsk_n_data_bits (v : main_vars) (x : Z) : main_vars :=
  mk_main_vars (TX_mode v) (quiet_mode v) (band_width v) (bfsk_mark_f v)
    (bfsk_space_f v) (bfsk_txstopbits v) x (filename v)
    (carrier_autodetect_threshold v) (fsk_confidence_threshold v)
    (fsk_confidence_search_limit v) (sa_backend v) (sample_format v)
    (sample_rate v) (tx_sin_table_len v).
Definition set_filename (v : main_vars) (x : option string) : main_vars :=
  mk_main_vars (TX_mode v) (quiet_mode v) (band_width v) (bfsk_mark_f v)
    (bfsk_space_f v) (bfsk_txstopbits v) (bfsk_n_data_bits v) x
    (carrier_autodetect_threshold v) (fsk_confidence_threshold v)
    (fsk_confidence_search_limit v) (sa_backend v) (sample_format v)
    (sample_rate v) (tx_sin_table_len v).
Definition set_carrier_autodetect_threshold (v : main_vars) (x : float) : main_vars :=
  mk_main_vars (TX_mode v) (quiet_mode v) (band_width v) (bfsk_mark_f v)
    (bfsk_space_f v) (bfsk_txstopbits v) (bfsk_n_data_bits v) (filename v) x
    (fsk_confidence_threshold v) (fsk_confidence_search_limit v)
    (sa_backend v) (sample_format v) (sample_rate v) (tx_sin_table_len v).
Definition set_fsk_confidence_threshold (v : main_vars) (x : float) : main_vars :=
  mk_main_vars (TX_mode v) (quiet_mode v) (band_width v) (bfsk_mark_f v)
    (bfsk_space_f v) (bfsk_txstopbits v) (bfsk_n_data_bits v) (filename v)
    (carrier_autodetect_threshold v) x (fsk_confidence_search_limit v)
    (sa_backend v) (sample_format v) (sample_rate v) (tx_sin_table_len v).
Definition set_fsk_confidence_search_limit (v : main_vars) (x : float) : main_vars :=
  mk_main_vars (TX_mode v) (quiet_mode v) (band_width v) (bfsk_mark_f v)
    (bfsk_space_f v) (bfsk_txstopbits v) (bfsk_n_data_bits v) (filename v)
    (carrier_autodetect_threshold v) (fsk_confidence_threshold v) x
    (sa_backend v) (sample_format v) (sample_rate v) (tx_sin_table_len v).
Definition set_sa_backend (v : main_vars) (x : sa_backend_t) : main_vars :=
  mk_main_vars (TX_mode v) (quiet_mode v) (band_width v) (bfsk_mark_f v)
    (bfsk_space_f v) (bfsk_txstopbits v) (bfsk_n_data_bits v) (filename v)
    (carrier_autodetect_threshold v) (fsk_confidence_threshold v)
    (fsk_confidence_search_limit v) x (sample_format v) (sample_rate v)
    (tx_sin_table_len v).
Definition set_sample_format (v : main_vars) (x : sa_format_t) : main_vars :=
  mk_main_vars (TX_mode v) (quiet_mode v) (band_width v) (bfsk_mark_f v)
    (bfsk_space_f v) (bfsk_txstopbits v) (bfsk_n_data_bits v) (filename v)
    (carrier_autodetect_threshold v) (fsk_confidence_threshold v)
    (fsk_confidence_search_limit v) (sa_backend v) x (sample_rate v)
    (tx_sin_table_len v).
Definition set_sample_rate (v : main_vars) (x : Z) : main_vars :=
  mk_main_vars (TX_mode v) (quiet_mode v) (band_width v) (bfsk_mark_f v)
    (bfsk_space_f v) (bfsk_txstopbits v) (bfsk_n_data_bits v) (filename v)
    (carrier_autodetect_threshold v) (fsk_confidence_threshold v)
    (fsk_confidence_search_limit v) (sa_backend v) (sample_format v) x
    (tx_sin_table_len v).
Definition set_tx_sin_table_len (v : main_vars) (x : Z) : main_vars :=
  mk_main_vars (TX_mode v) (quiet_mode v) (band_width v) (bfsk_mark_f v)
    (bfsk_space_f v) (bfsk_txstopbits v) (bfsk_n_data_bits v) (filename v)
    (carrier_autodetect_threshold v) (fsk_confidence_threshold v)
    (fsk_confidence_search_limit v) (sa_backend v) (sample_format v)
    (sample_rate v) x.

(** The initialisers of the declarations at the top of [main]. *)
Definition main_vars_init : main_vars :=
  mk_main_vars (-1) false f_zero 0 0 f_zero 0 None f_zero
    (float_of_Z 2) (float_lit 23 1) SA_BACKEND_SYSDEFAULT
    SA_SAMPLE_FORMAT_S16 48000 4096.

(** How [main] comes to an end before it reads the baud mode. *)
Inductive stop : Type :=
| ExitVersion           (* version(); exit(0) *)
| ExitBenchmarks        (* benchmarks(); exit(0) *)
| ExitUsage             (* usage(): exit(1) *)
| ExitNoAlsa            (* built without alsa: exit(1) *)
| ExitNoSndfile         (* --file, built without sndfile: exit(1) *)
| ExitNoSystemAudio     (* no --file, built without system audio: exit(1) *)
| AssertFailed (expr : string).

(** A character constant, and the values of the anonymous [enum]. *)
Definition chr (a : ascii) : Z := Z.of_N (N_of_ascii a).
Definition MINIMODEM_OPT_UNUSED : Z := 256.
Definition MINIMODEM_OPT_LUT : Z := 257.
Definition MINIMODEM_OPT_FLOAT_SAMPLES : Z := 258.
Definition MINIMODEM_OPT_BENCHMARKS : Z := 259.

(** The [switch( c )] of the option loop. *)
Definition option_switch (b : build) (v : main_vars) (g : getopt_answer)
    : main_vars + stop :=
  let c := opt_c g in
  if c =? chr "V" then inr ExitVersion
  else if c =? chr "t" then
    if TX_mode v =? 0 then inr ExitUsage else inl (set_TX_mode v 1)
  else if c =? chr "r" then
    if TX_mode v =? 1 then inr ExitUsage else inl (set_TX_mode v 0)
  else if c =? chr "c" then
    inl (set_fsk_confidence_threshold v (float_of_double (optarg_atof g)))
  else if c =? chr "l" then
    inl (set_fsk_confidence_search_limit v (float_of_double (optarg_atof g)))
  else if c =? chr "a" then
    inl (set_carrier_autodetect_threshold v (float_lit 1 3))
  else if c =? chr "f" then inl (set_filename v (Some (optarg g)))
  else if c =? chr "8" then inl (set_bfsk_n_data_bits v 8)
  else if c =? chr "5" then inl (set_bfsk_n_data_bits v 5)
  else if c =? chr "b" then
    let x := float_of_double (optarg_atof g) in
    if feq x f_zero then inr (AssertFailed "band_width != 0")
    else inl (set_band_width v x)
  else if c =? chr "M" then
    let x := uint (optarg_atoi g) in
    if 0 <? x then inl (set_bfsk_mark_f v x)
    else inr (AssertFailed "bfsk_mark_f > 0")
  else if c =? chr "S" then
    let x := uint (optarg_atoi g) in
    if 0 <? x then inl (set_bfsk_space_f v x)
    else inr (AssertFailed "bfsk_space_f > 0")
  else if c =? chr "T" then
    let x := float_of_double (optarg_atof g) in
    if fgt x f_zero then inl (set_bfsk_txstopbits v x)
    else inr (AssertFailed "bfsk_txstopbits > 0")
  else if c =? chr "q" then inl (set_quiet_mode v true)
  else if c =? chr "R" then
    let x := uint (optarg_atoi g) in
    if 0 <? x then inl (set_sample_rate v x)
    else inr (AssertFailed "sample_rate > 0")
  else if c =? chr "A" then
    if USE_ALSA b then inl (set_sa_backend v SA_BACKEND_ALSA)
    else inr ExitNoAlsa
  else if c =? MINIMODEM_OPT_LUT then
    inl (set_tx_sin_table_len v (uint (optarg_atoi g)))
  else if c =? MINIMODEM_OPT_FLOAT_SAMPLES then
    inl (set_sample_format v SA_SAMPLE_FORMAT_FLOAT)
  else if c =? MINIMODEM_OPT_BENCHMARKS then inr ExitBenchmarks
  else inr ExitUsage.

(** The option loop, on the answers of [getopt_long] that come before its
    -1. *)
Fixpoint option_loop (b : build) (answers : list getopt_answer)
    (v : main_vars) : main_vars + stop :=
  match answers with
  | [] => inl v
  | g :: rest =>
      match option_switch b v g with
      | inl v' => option_loop b rest v'
      | inr e => inr e
      end
  end.

(** [main] from its first statement to [modem_mode = argv[optind++]], lines
    352 to 551: [answers] is what [getopt_long] answers before its -1 and
    [args] the arguments from [argv[optind]] on, each as the baud mode that
    lines 560 and 567 read from it. *)
Definition main_options (b : build) (answers : list getopt_answer)
    (args : list baudmode) : (main_vars * baudmode) + stop :=
  match option_loop b answers main_vars_init with
  | inr e => inr e
  | inl v =>
      let v := if TX_mode v =? -1 then set_TX_mode v 0 else v in
      let v := if TX_mode v =? 0
               then set_sample_format v SA_SAMPLE_FORMAT_FLOAT else v in
      match filename v with
      | Some _ => if USE_SNDFILE b then
                    match args with
                    | [mode] => inl (v, mode)
                    | _ => inr ExitUsage
                    end
                  else inr ExitNoSndfile
      | None => if USE_PULSEAUDIO b || USE_ALSA b then
                  match args with
                  | [mode] => inl (v, mode)
                  | _ => inr ExitUsage
                  end
                else inr ExitNoSystemAudio
      end
  end.

(** The variables as lines 554 to 630 read them. *)
Definition options_of (v : main_vars) (mode : baudmode) : options :=
  mk_options (quiet_mode v) (band_width v) (bfsk_mark_f v) (bfsk_space_f v)
    (bfsk_txstopbits v) (bfsk_n_data_bits v)
    (carrier_autodetect_threshold v) (fsk_confidence_threshold v)
    (fsk_confidence_search_limit v) (sample_rate v) mode.

(** Whether [getopt_long] has answered [c]. *)
Definition given (c : Z) (answers : list getopt_answer) : bool :=
  existsb (fun g => opt_c g =? c) answers.

(** Whether an answer in [answers] assigns the variable that [sets]
    describes, and the value the last such answer leaves in it. *)
Definition assigns {A : Type} (sets : getopt_answer -> option A)
    (answers : list getopt_answer) : bool :=
  existsb (fun g => match sets g with Some _ => true | None => false end)
          answers.

Definition last_set {A : Type} (sets : getopt_answer -> option A)
    (answers : list getopt_answer) (d : A) : A :=
  fold_left (fun acc g => match sets g with Some x => x | None => acc end)
            answers d.

(** An assignment under [case c]. *)
Definition on {A : Type} (c : Z) (val : getopt_answer -> A)
    (g : getopt_answer) : option A :=
  if opt_c g =? c then Some (val g) else None.

(** [case '8'] and [case '5']. *)
Definition data_bits_option (g : getopt_answer) : option Z :=
  if opt_c g =? chr "8" then Some 8
  else if opt_c g =? chr "5" then Some 5 else None.

End Cmdline.

(** ** Instances of the interfaces, to run the program on *)

Module Bench.
Import Rx.

(** A stream is the samples still to come and whether the read after the
    last one fails. *)
Definition stream : Type := (list float * bool)%type.

Definition bench_read (st : stream) (n : Z) : Z * list float * stream :=
  let '(samples, fails) := st in
  match samples with
  | [] => ((if fails then -1 else 0), [], st)
  | _ =>
      let got := firstn (Z.to_nat n) samples in
      (Z.of_nat (List.length got), got, (skipn (Z.to_nat n) samples, fails))
  end.

Definition bench_audio : SimpleAudio stream :=
  {| simpleaudio_read := bench_read |}.

(** A frame locator whose confidence is the sample at [try_first_sample],
    whose bits are those of the letter A between a stop, a start and a
    stop bit, and which finds the frame where the search starts. *)
Definition bench_frame_bits : Z := 1 + Z.shiftl 65 2 + Z.shiftl 1 10.

Definition bench_find_frame (plan : fsk_plan) (samples : list float)
    (frame_nsamples try_first_sample try_max_nsamples try_step_nsamples : Z)
    (limit : float) : frame :=
  mk_frame (nth (Z.to_nat try_first_sample) samples f_zero)
           bench_frame_bits try_first_sample.

Definition bench_fsk : FskLib :=
  {| fsk_find_frame := bench_find_frame;
     fsk_detect_carrier := fun _ _ _ _ => -1;
     fsk_set_tones_by_bandshift := fun plan _ _ => plan |}.

(** A Baudot module that decodes every code to itself. *)
Definition bench_baudot : BaudotLib unit :=
  {| baudot_reset := fun sh => sh;
     baudot_decode := fun sh bits => ([bits], sh);
     baudot_encode := fun sh ch => ([Z.land ch 31], sh) |}.

(** [minimodem --rx 300], and the plan of Bell 103 at 48000 samples per
    second. *)
Definition bell103 : settings :=
  match main_setup (default_options (Bps (float_of_Z 300))) with
  | inl c => c
  | inr _ => mk_settings false f_zero 0 0 f_zero 0 0 f_zero f_zero f_zero 0
                         f_zero Ascii8
  end.

Definition bell103_plan : fsk_plan :=
  mk_fsk_plan 48000 (float_of_Z 50) 25 21 8 10 1024.

Definition three : float := float_of_Z 3.

(** One sample worth a confidence of 3, then silence. *)
Definition one_frame_then_silence (n : nat) : stream :=
  (three :: repeat f_zero n, false).

Definition bench_init (st : stream) : @rx_state stream unit :=
  rx_init bell103 st bell103_plan tt (repeat f_zero (Z.to_nat 2080)).

Abbreviation bench_body :=
  (loop_body (FL := bench_fsk) (SA := bench_audio) (BL := bench_baudot)
     bell103).

Abbreviation bench_iterate n :=
  (rx_iterate (FL := bench_fsk) (SA := bench_audio) (BL := bench_baudot)
     n bell103).

Abbreviation bench_low_run k :=
  (low_confidence_run (FL := bench_fsk) (SA := bench_audio) (shift := unit)
     k bell103).

Abbreviation bench_locate :=
  (locate_frame (FL := bench_fsk) (SA := bench_audio) (shift := unit)
     bell103).

Definition or_else {A : Type} (x : option A) (d : A) : A :=
  match x with Some a => a | None => d end.

(** The start of a run on one good frame followed by silence, the state
    once that frame is accepted, and the states 20 and 21 low-confidence
    attempts later. *)
Definition s_start : @rx_state stream unit := bench_init (one_frame_then_silence (Z.to_nat 9000)).
Definition s_acquired : @rx_state stream unit := or_else (bench_iterate 1 s_start) s_start.
Definition s_after_20 : @rx_state stream unit := or_else (bench_low_run 20 s_acquired) s_start.
Definition s_after_21 : @rx_state stream unit := or_else (bench_low_run 21 s_acquired) s_start.

(** What the frame search of the first and of the second iteration
    return, with the state at that point. *)
Definition located (s : @rx_state stream unit)
    : @rx_state stream unit * frame :=
  match bench_locate s with
  | Next x => x
  | _ => (s, mk_frame f_zero 0 0)
  end.

Definition s_located : @rx_state stream unit := fst (located s_start).
Definition fr_located : frame := snd (located s_start).
Definition s_located' : @rx_state stream unit := fst (located s_acquired).
Definition fr_located' : frame := snd (located s_acquired).

(** A stream whose first read fails. *)
Definition s_broken : @rx_state stream unit := bench_init ([], true).

(** [minimodem --rx --limit 1 300]: a search limit below the threshold. *)
Definition low_limit_options : options :=
  mk_options false f_zero 0 0 f_zero 0 f_zero
             (float_of_Z 2) (float_of_Z 1) 48000 (Bps (float_of_Z 300)).

Definition low_limit : settings :=
  match main_setup low_limit_options with
  | inl c => c
  | inr _ => bell103
  end.

(** [minimodem --tx 300] on the system audio: interactive, Bell 103. *)
Definition bell103_tx : Tx.tx_params :=
  Tx.mk_tx_params 48000 true (float_of_Z 300) (float_of_Z 1270)
                  (float_of_Z 1070) 8 (float_of_Z 1) Ascii8.

(** [P] on every integer from 0 up to [n - 1]. *)
Fixpoint all_below (n : nat) (P : Z -> bool) : bool :=
  match n with
  | O => true
  | S n' => P (Z.of_nat n') && all_below n' P
  end.

(** The run on one good frame followed by silence, to the end of the
    stream, and the run on the stream whose first read fails. *)
Abbreviation bench_main_rx fuel :=
  (main_rx (FL := bench_fsk) (SA := bench_audio) (BL := bench_baudot)
     fuel bell103).

Definition s_end : @rx_state stream unit :=
  or_else (option_map snd (bench_main_rx 60 s_start)) s_start.
Definition s_broken_end : @rx_state stream unit :=
  or_else (option_map snd (bench_main_rx 1 s_broken)) s_broken.

(** A build with everything, and the answers of [getopt_long] and the
    variables of [main] for [minimodem -t -5 -M 1500 --float-samples 300]. *)
Definition full_build : Cmdline.build := Cmdline.mk_build true true true.

Definition answer (c : Z) (optarg : string) (atof : double) (atoi : Z)
    : Cmdline.getopt_answer :=
  Cmdline.mk_getopt_answer c optarg atof atoi.

Definition tx_answers : list Cmdline.getopt_answer :=
  [answer (Cmdline.chr "t") EmptyString f_zero 0;
   answer (Cmdline.chr "5") EmptyString f_zero 0;
   answer (Cmdline.chr "M") "1500" (double_of_Z 1500) 1500;
   answer Cmdline.MINIMODEM_OPT_FLOAT_SAMPLES EmptyString f_zero 0].

Definition tx_vars : Cmdline.main_vars :=
  match Cmdline.main_options full_build tx_answers [Bps (float_of_Z 300)] with
  | inl (v, _) => v
  | inr _ => Cmdline.main_vars_init
  end.

End Bench.

(* ================================================================== *)
(** * Part II: properties                                              *)
(* ================================================================== *)

Import Rx.

Ltac break_if :=
  match goal with
  | |- context [if ?b then _ else _] => destruct b eqn:?
  end.

(** ** Comparisons of floating-point numbers *)

Lemma SFcompare_swap (x y : spec_float) :
  SFcompare y x = option_map CompOpp (SFcompare x y).
Proof.
  destruct x as [sx|sx| |sx mx ex], y as [sy|sy| |sy my ey]; simpl;
    try reflexivity;
    try (destruct sx; reflexivity); try (destruct sy; reflexivity);
    try (destruct sx, sy; reflexivity).
  pose proof (Pos.compare_cont_antisym mx my Eq) as Hm. simpl in Hm.
  destruct sx, sy; simpl; try reflexivity;
    rewrite (Z.compare_antisym ex ey);
    destruct (ex ?= ey) eqn:E; simpl; try reflexivity;
    rewrite <- Hm; try reflexivity.
Qed.

Lemma SFcompare_not_nan (x y : spec_float) :
  is_nan x = false -> is_nan y = false -> SFcompare x y <> None.
Proof.
  destruct x, y; simpl; intros; congruence.
Qed.

(** Between two numbers, [x <= y] fails exactly when [y < x]. *)
Lemma fle_false_iff_flt (x y : spec_float) :
  is_nan x = false -> is_nan y = false ->
  (fle x y = false <-> flt y x = true).
Proof.
  intros Hx Hy. unfold fle, flt, SFleb, SFltb.
  rewrite (SFcompare_swap x y).
  pose proof (SFcompare_not_nan x y Hx Hy) as Hc.
  destruct (SFcompare x y) as [[]|]; simpl; split; congruence.
Qed.

(** With a NaN on either side, [x <= y] is false. *)
Lemma fle_nan (x y : spec_float) :
  is_nan x = true \/ is_nan y = true -> fle x y = false.
Proof.
  intros [H|H]; destruct x, y; simpl in *; try discriminate; reflexivity.
Qed.

Lemma fle_refl (x : spec_float) : is_nan x = false -> fle x x = true.
Proof.
  destruct x as [s|s| |s m e]; simpl; intros H; try discriminate;
    try (destruct s; reflexivity).
  unfold fle, SFleb. simpl.
  rewrite Z.compare_refl, Pos.compare_cont_refl. destruct s; reflexivity.
Qed.

Lemma flt_irrefl (x : spec_float) : flt x x = false.
Proof.
  destruct x as [s|s| |s m e]; try reflexivity;
    try (destruct s; reflexivity).
  unfold flt, SFltb. simpl.
  rewrite Z.compare_refl, Pos.compare_cont_refl. destruct s; reflexivity.
Qed.

(** ** The settings *)

Lemma main_setup_fields (o : options) (c : settings) :
  main_setup o = inl c ->
  fsk_confidence_threshold c = opt_fsk_confidence_threshold o /\
  fsk_confidence_search_limit c =
    (if flt (opt_fsk_confidence_search_limit o) (opt_fsk_confidence_threshold o)
     then opt_fsk_confidence_threshold o
     else opt_fsk_confidence_search_limit o) /\
  sample_rate c = opt_sample_rate o /\
  bfsk_data_rate c = rate_of_mode (opt_modem_mode o) /\
  quiet_mode c = opt_quiet_mode o /\
  (bfsk_n_data_bits c = 5 \/ bfsk_n_data_bits c = 8).
Proof.
  unfold main_setup, rate_of_mode.
  destruct (opt_modem_mode o) as [|rate]; cbv zeta beta iota;
    (destruct (feq _ f_zero); [intros [=]|]);
    (destruct (_ =? 8) eqn:E8;
     [|destruct (_ =? 5) eqn:E5; [|intros [=]]]);
    match goal with
    | |- context [match ?x with pair _ _ => _ end] =>
        destruct x as [[shift dflt_mark] dflt_bw]
    end;
    intros [= <-];
    cbn [fsk_confidence_threshold fsk_confidence_search_limit sample_rate
         bfsk_data_rate quiet_mode bfsk_n_data_bits];
    repeat split; auto;
    solve [ right; apply Z.eqb_eq; exact E8
          | left; apply Z.eqb_eq; exact E5 ].
Qed.

(** ** The pieces of the loop body and the carrier state *)

Section ReceiverLemmas.
Context {stream shift : Type}.
Context {FL : FskLib} {SA : SimpleAudio stream} {BL : BaudotLib shift}.

#[local] Abbreviation state := (@rx_state stream shift).

Lemma same_carrier_side_refl (s : state) : same_carrier_side s s.
Proof. repeat split. Qed.

Lemma same_carrier_side_trans (s1 s2 s3 : state) :
  same_carrier_side s1 s2 -> same_carrier_side s2 s3 ->
  same_carrier_side s1 s3.
Proof.
  unfold same_carrier_side. intuition congruence.
Qed.

Lemma shift_samples_side (c : settings) (s : state) :
  match shift_samples c s with
  | Next s' | Continue s' | Break s' => same_carrier_side s s'
  | _ => True
  end.
Proof.
  unfold shift_samples.
  repeat break_if; simpl; auto; repeat split.
Qed.

Lemma read_samples_side (c : settings) (s : state) :
  match read_samples c s with
  | Next s' | Continue s' => same_carrier_side s s'
  | Break s' =>
      stats s' = stats s /\ noconfidence s' = noconfidence s /\
      baudot s' = baudot s /\ stdout s' = stdout s
  | _ => True
  end.
Proof.
  unfold read_samples.
  destruct (negb (0 <? read_nsamples (window s))); auto.
  destruct (negb (size_t _ <=? _)); auto.
  destruct (simpleaudio_read _ _) as [[r data] sa'].
  repeat break_if; simpl; auto; repeat split.
Qed.

Lemma autodetect_carrier_side (c : settings) (s : state) :
  match autodetect_carrier c s with
  | Next s' | Continue s' | Break s' => same_carrier_side s s'
  | _ => True
  end.
Proof.
  unfold autodetect_carrier.
  destruct (fgt _ _ && _); [|apply same_carrier_side_refl].
  destruct (scan_carrier _ _ _ _ _ _ _ _) as [[i band]|]; auto.
  repeat break_if; simpl; auto; repeat split.
Qed.

Lemma find_frame_cases (c : settings) (s : state) :
  (find_frame c s = Break s /\
   (samples_nvalid (window s) <? frame_nsamples c s) = true) \/
  (find_frame c s =
     Next (fsk_find_frame (fskp s) (samplebuf (window s))
             (frame_nsamples c s) (try_first_sample c s)
             (try_max_nsamples c) (try_step_nsamples c)
             (try_confidence_search_limit c s)) /\
   (samples_nvalid (window s) <? frame_nsamples c s) = false).
Proof.
  unfold find_frame. destruct (_ <? _); auto.
Qed.

(** The statements up to the frame search change neither the carrier
    statistics, nor the run counter, nor what has been printed. *)
Lemma locate_frame_side (c : settings) (s : state) :
  match locate_frame c s with
  | Next (s1, fr) => same_carrier_side s s1 /\ find_frame c s1 = Next fr
  | Continue s' => same_carrier_side s s'
  | Break s' =>
      stats s' = stats s /\ noconfidence s' = noconfidence s /\
      baudot s' = baudot s /\ stdout s' = stdout s
  | _ => True
  end.
Proof.
  unfold locate_frame.
  pose proof (shift_samples_side c s) as S1.
  destruct (shift_samples c s) as [s1|s1|s1| |]; simpl; auto;
    try (unfold same_carrier_side in *; intuition congruence).
  pose proof (read_samples_side c s1) as S2.
  destruct (read_samples c s1) as [s2|s2|s2| |]; simpl; auto;
    try (unfold same_carrier_side in *; intuition congruence).
  pose proof (autodetect_carrier_side c s2) as S3.
  destruct (autodetect_carrier c s2) as [s3|s3|s3| |]; simpl; auto;
    try (unfold same_carrier_side in *; intuition congruence).
  destruct (find_frame_cases c s3) as [[E _]|[E _]]; rewrite E; simpl;
    unfold same_carrier_side in *; intuition congruence.
Qed.

(** *** The low-confidence branch *)

Lemma uint_small (z : Z) : 0 <= z < 2 ^ 32 -> uint z = z.
Proof. intros H. unfold uint. apply Z.mod_small. exact H. Qed.

Lemma no_confidence_fields (c : settings) (s : state) :
  noconfidence (no_confidence c s) = uint (noconfidence s + 1) /\
  advance (no_confidence c s) = try_max_nsamples c /\
  stdout (no_confidence c s) = stdout s /\
  baudot (no_confidence c s) = baudot s /\
  ret (no_confidence c s) = ret s.
Proof.
  unfold no_confidence; simpl.
  repeat break_if; simpl; repeat split.
Qed.

(** Up to a run of 20 nothing else changes. *)
Lemma no_confidence_below (c : settings) (s : state) :
  uint (noconfidence s + 1) <= FSK_MAX_NOCONFIDENCE_BITS ->
  stats (no_confidence c s) = stats s /\
  stderr (no_confidence c s) = stderr s /\
  carrier_band (no_confidence c s) = carrier_band s.
Proof.
  intros H. unfold no_confidence; simpl.
  destruct (FSK_MAX_NOCONFIDENCE_BITS <? uint (noconfidence s + 1)) eqn:E.
  - apply Z.ltb_lt in E. lia.
  - simpl. repeat split.
Qed.

(** Past 20 the carrier is given up, and reported if there was one. *)
Lemma no_confidence_above (c : settings) (s : state) :
  FSK_MAX_NOCONFIDENCE_BITS < uint (noconfidence s + 1) ->
  carrier_band (no_confidence c s) = -1 /\
  (if carrier (stats s)
   then stats (no_confidence c s) = no_carrier /\
        stderr (no_confidence c s) =
          stderr s ++ (if quiet_mode c then [] else [nocarrier_line c s])
   else stats (no_confidence c s) = stats s /\
        stderr (no_confidence c s) = stderr s).
Proof.
  intros H. unfold no_confidence; simpl.
  apply Z.ltb_lt in H. rewrite H. simpl.
  destruct (carrier (stats s)) eqn:C; simpl.
  - destruct (quiet_mode c); simpl; repeat split.
    symmetry. apply app_nil_r.
  - repeat split.
Qed.

Lemma low_confidence_attempt_inv (c : settings) (s s' : state) :
  low_confidence_attempt c s = Some s' ->
  exists s1 fr,
    locate_frame c s = Next (s1, fr) /\
    fle (frame_confidence fr) (fsk_confidence_threshold c) = true /\
    same_carrier_side s s1 /\
    s' = no_confidence c s1.
Proof.
  unfold low_confidence_attempt. intros H.
  pose proof (locate_frame_side c s) as L.
  destruct (locate_frame c s) as [[s1 fr]|?|?| |]; try discriminate.
  destruct (fle _ _) eqn:E; try discriminate.
  exists s1, fr. destruct L as [L _]. inversion H. auto.
Qed.

(** A low-confidence attempt is one iteration of the loop, which ends in
    [continue]. *)
Lemma low_confidence_attempt_iteration (c : settings) (s s' : state) :
  low_confidence_attempt c s = Some s' -> loop_body c s = Continue s'.
Proof.
  intros H. destruct (low_confidence_attempt_inv c s s' H)
    as (s1 & fr & L & E & _ & ->).
  unfold loop_body. rewrite L. simpl. unfold judge_frame. rewrite E.
  reflexivity.
Qed.

Lemma low_confidence_run_iterations (k : nat) (c : settings) (s s' : state) :
  low_confidence_run k c s = Some s' -> rx_iterate k c s = Some s'.
Proof.
  revert s. induction k as [|k IH]; simpl; intros s H; [exact H|].
  destruct (low_confidence_attempt c s) as [s2|] eqn:A; try discriminate.
  rewrite (low_confidence_attempt_iteration c s s2 A). auto.
Qed.

Lemma low_confidence_run_split (j k : nat) (c : settings) (s : state) :
  low_confidence_run (j + k) c s =
  match low_confidence_run j c s with
  | Some s1 => low_confidence_run k c s1
  | None => None
  end.
Proof.
  revert s. induction j as [|j IH]; simpl; intros s; [reflexivity|].
  destruct (low_confidence_attempt c s); auto.
Qed.

(** While the run stays within 20, the carrier statistics and stderr are
    as they were and the counter has counted the attempts. *)
Lemma low_confidence_run_keeps (k : nat) (c : settings) (s s' : state) :
  0 <= noconfidence s ->
  noconfidence s + Z.of_nat k <= FSK_MAX_NOCONFIDENCE_BITS ->
  low_confidence_run k c s = Some s' ->
  stats s' = stats s /\ stderr s' = stderr s /\
  noconfidence s' = noconfidence s + Z.of_nat k.
Proof.
  revert s. induction k as [|k IH]; intros s H0 Hk H.
  - simpl in H. inversion H. subst. repeat split. simpl. lia.
  - simpl in H.
    destruct (low_confidence_attempt c s) as [s2|] eqn:A; try discriminate.
    destruct (low_confidence_attempt_inv c s s2 A)
      as (s1 & fr & _ & _ & (St & Nc & _ & _ & Er & _) & ->).
    unfold FSK_MAX_NOCONFIDENCE_BITS in *.
    assert (U : uint (noconfidence s1 + 1) = noconfidence s + 1).
    { rewrite Nc. apply uint_small. lia. }
    destruct (no_confidence_fields c s1) as (N & _).
    destruct (no_confidence_below c s1) as (S1 & E1 & _).
    { unfold FSK_MAX_NOCONFIDENCE_BITS. lia. }
    destruct (IH (no_confidence c s1)) as (S2 & E2 & N2); auto; try lia.
    repeat split; try congruence. lia.
Qed.

(** *** The accepting branch *)

Lemma chop_framing_bits_fits (plan : fsk_plan) (bits : Z) :
  Z.land (chop_framing_bits plan bits) (Z.lnot 255) = 0 /\
  (n_data_bits plan = 5 ->
   Z.land (chop_framing_bits plan bits) (Z.lnot 31) = 0).
Proof.
  unfold chop_framing_bits. split.
  - destruct (n_data_bits plan =? 5); rewrite <- Z.land_assoc.
    + change (Z.land 31 (Z.lnot 255)) with 0. apply Z.land_0_r.
    + change (Z.land 255 (Z.lnot 255)) with 0. apply Z.land_0_r.
  - intros ->. simpl. rewrite <- Z.land_assoc.
    change (Z.land 31 (Z.lnot 31)) with 0. apply Z.land_0_r.
Qed.

(** The asserts of the decoders hold on chopped bits. *)
Lemma decode_chopped (c : settings) (plan : fsk_plan) (sh : shift) (bits : Z) :
  plan_fits c plan ->
  exists bytes sh',
    framebits_decode (bfsk_framebits c) sh (Some tt) 4096
      (chop_framing_bits plan bits) = Some (bytes, sh').
Proof.
  intros F. destruct (chop_framing_bits_fits plan bits) as [A B].
  unfold framebits_decode, framebits_decode_ascii8, framebits_decode_baudot.
  destruct (bfsk_framebits c) eqn:E.
  - rewrite A. simpl. eauto.
  - rewrite (B (F E)). simpl.
    destruct (baudot_decode sh (chop_framing_bits plan bits)) as [bytes sh'].
    eauto.
Qed.

Lemma decoder_reset (c : settings) (sh : shift) :
  exists sh', framebits_decode (bfsk_framebits c) sh None 0 0 = Some ([], sh').
Proof.
  unfold framebits_decode. destruct (bfsk_framebits c); simpl; eauto.
Qed.

Lemma accept_frame_accepts (c : settings) (s : state) (fr : frame) :
  plan_fits c (fskp s) ->
  exists s',
    accept_frame c s fr (chop_framing_bits (fskp s) (frame_bits fr)) = Next s' /\
    accepted c s fr s' /\
    ret s' = ret s /\
    stderr s' =
      stderr s ++ (if carrier (stats s) || quiet_mode c then []
                   else [carrier_line c (fskp s)]).
Proof.
  intros F. unfold accept_frame, accepted.
  destruct (carrier (stats s)) eqn:C; simpl.
  - destruct (decode_chopped c (fskp s) (baudot s) (frame_bits fr) F)
      as (bytes & sh' & D).
    rewrite D. eexists. split; [reflexivity|]. simpl.
    repeat split; try (symmetry; apply app_nil_r).
    exists (baudot s), bytes. auto.
  - destruct (quiet_mode c) eqn:Q; simpl.
    + destruct (decoder_reset c (baudot s)) as (sh0 & R). rewrite R. simpl.
      destruct (decode_chopped c (fskp s) sh0 (frame_bits fr) F)
        as (bytes & sh' & D).
      rewrite D. eexists. split; [reflexivity|]. simpl.
      repeat split; try (symmetry; apply app_nil_r).
      exists sh0, bytes. auto.
    + destruct (decoder_reset c (baudot s)) as (sh0 & R). rewrite R. simpl.
      destruct (decode_chopped c (fskp s) sh0 (frame_bits fr) F)
        as (bytes & sh' & D).
      rewrite D. eexists. split; [reflexivity|]. simpl.
      repeat split.
      exists sh0, bytes. auto.
Qed.

Lemma accept_frame_flow (c : settings) (s : state) (fr : frame) (bits : Z) :
  match accept_frame c s fr bits with
  | Next s' =>
      noconfidence s' = 0 /\ carrier (stats s') = true /\ ret s' = ret s
  | Abort => True
  | _ => False
  end.
Proof.
  unfold accept_frame.
  destruct (carrier (stats s)); simpl.
  - destruct (framebits_decode _ _ _ _ _) as [[bytes sh]|]; simpl; auto.
  - destruct (framebits_decode _ _ None _ _) as [[b0 sh0]|]; simpl; auto.
    destruct (framebits_decode _ _ _ _ _) as [[bytes sh]|]; simpl; auto.
    destruct (quiet_mode c); simpl; auto.
Qed.

Lemma no_confidence_rejects (c : settings) (s : state) :
  rejected c s (no_confidence c s).
Proof.
  destruct (no_confidence_fields c s) as (N & A & O & _).
  unfold rejected. repeat split; auto.
  unfold no_confidence; simpl.
  repeat break_if; simpl; auto.
Qed.

(** The three ways through the loop body. *)
Lemma loop_body_cases (c : settings) (s : state) :
  match loop_body c s with
  | Next s' =>
      exists s1 fr,
        locate_frame c s = Next (s1, fr) /\
        fle (frame_confidence fr) (fsk_confidence_threshold c) = false /\
        accept_frame c s1 fr (chop_framing_bits (fskp s1) (frame_bits fr))
          = Next s'
  | Continue s' =>
      locate_frame c s = Continue s' \/
      exists s1 fr,
        locate_frame c s = Next (s1, fr) /\
        fle (frame_confidence fr) (fsk_confidence_threshold c) = true /\
        s' = no_confidence c s1
  | Break s' => locate_frame c s = Break s'
  | _ => True
  end.
Proof.
  unfold loop_body.
  destruct (locate_frame c s) as [[s1 fr]|?|?| |]; simpl; auto.
  unfold judge_frame.
  destruct (fle _ _) eqn:E.
  - right. exists s1, fr. auto.
  - pose proof (accept_frame_flow c s1 fr
                  (chop_framing_bits (fskp s1) (frame_bits fr))) as A.
    destruct (accept_frame _ _ _ _) eqn:AF; try contradiction; auto.
    exists s1, fr. auto.
Qed.

(** *** Loss of carrier *)

(** C1 (as amended).  Once the carrier has been acquired and a frame has
    cleared the run counter, a run of up to 20 consecutive low-confidence
    attempts ([confidence <= fsk_confidence_threshold]) leaves the carrier
    acquired and prints nothing; it is the 21st attempt in a row, when the
    counter exceeds [FSK_MAX_NOCONFIDENCE_BITS = 20], that resets the
    carrier state to unacquired with its counters at zero and prints the
    NOCARRIER report (nothing in quiet mode).  Every accepted frame leaves
    the run counter at zero. *)
Theorem C1_carrier_reset_on_21st_attempt
    (c : settings) (s s' : state) (k : nat) :
  carrier (stats s) = true ->
  noconfidence s = 0 ->
  low_confidence_run k c s = Some s' ->
  ((k <= 20)%nat ->
     stats s' = stats s /\ stderr s' = stderr s /\
     noconfidence s' = Z.of_nat k) /\
  (k = 21%nat ->
     stats s' = no_carrier /\ noconfidence s' = 21 /\
     exists s1 : state, stats s1 = stats s /\
       stderr s' =
         stderr s ++ (if quiet_mode c then [] else [nocarrier_line c s1])) /\
  (forall t t' : state, loop_body c t = Next t' -> noconfidence t' = 0).
Proof.
  intros C N R. split; [|split].
  - intros K.
    destruct (low_confidence_run_keeps k c s s') as (S1 & E1 & N1); auto.
    + lia.
    + unfold FSK_MAX_NOCONFIDENCE_BITS. lia.
    + repeat split; auto. lia.
  - intros ->.
    change 21%nat with (20 + 1)%nat in R.
    rewrite low_confidence_run_split in R.
    destruct (low_confidence_run 20 c s) as [s20|] eqn:R20; try discriminate.
    destruct (low_confidence_run_keeps 20 c s s20) as (S1 & E1 & N1); auto.
    { lia. }
    { unfold FSK_MAX_NOCONFIDENCE_BITS. lia. }
    simpl in R.
    destruct (low_confidence_attempt c s20) as [s21|] eqn:A; try discriminate.
    inversion R; subst s21.
    destruct (low_confidence_attempt_inv c s20 s' A)
      as (s1 & fr & _ & _ & (St & Nc & _ & _ & Er & _) & ->).
    assert (U : uint (noconfidence s1 + 1) = 21).
    { rewrite Nc, N1, N. reflexivity. }
    destruct (no_confidence_fields c s1) as (NF & _).
    destruct (no_confidence_above c s1) as (_ & Ab).
    { rewrite U. reflexivity. }
    assert (C1 : carrier (stats s1) = true) by congruence.
    rewrite C1 in Ab. destruct Ab as (Ab1 & Ab2).
    repeat split; auto; try congruence.
    exists s1. split; congruence.
  - intros t t' B.
    pose proof (loop_body_cases c t) as L. rewrite B in L.
    destruct L as (s1 & fr & _ & _ & A).
    pose proof (accept_frame_flow c s1 fr
                  (chop_framing_bits (fskp s1) (frame_bits fr))) as F.
    rewrite A in F. tauto.
Qed.

(** *** Acceptance *)

(** C2.  A located frame is accepted -- the carrier statistics are updated,
    the frame is counted, its data bits are decoded and the bytes printed to
    stdout -- if and only if the test [confidence <= threshold] fails, which
    for a confidence and a threshold that are numbers is to say: if and only
    if the confidence is strictly greater than the threshold.  With
    [confidence <= threshold] the iteration prints nothing to stdout and
    counts no frame. *)
Theorem C2_accepted_iff_confidence_above_threshold
    (c : settings) (s0 s : state) (fr : frame) :
  locate_frame c s0 = Next (s, fr) ->
  plan_fits c (fskp s) ->
  (fle (frame_confidence fr) (fsk_confidence_threshold c) = false <->
   exists s', loop_body c s0 = Next s' /\ accepted c s fr s') /\
  (fle (frame_confidence fr) (fsk_confidence_threshold c) = true ->
   exists s', loop_body c s0 = Continue s' /\ rejected c s s') /\
  (is_nan (frame_confidence fr) = false ->
   is_nan (fsk_confidence_threshold c) = false ->
   (fgt (frame_confidence fr) (fsk_confidence_threshold c) = true <->
    exists s', loop_body c s0 = Next s' /\ accepted c s fr s')).
Proof.
  intros L F.
  assert (Core : fle (frame_confidence fr) (fsk_confidence_threshold c) = false
                 <-> exists s', loop_body c s0 = Next s' /\ accepted c s fr s').
  { unfold loop_body. rewrite L. simpl. unfold judge_frame. split.
    - intros E. rewrite E.
      destruct (accept_frame_accepts c s fr F) as (s' & A & Acc & _).
      exists s'. auto.
    - intros (s' & B & _).
      destruct (fle _ _) eqn:E; [discriminate|reflexivity]. }
  split; [exact Core|]. split.
  - intros E. unfold loop_body. rewrite L. simpl. unfold judge_frame.
    rewrite E. exists (no_confidence c s).
    split; [reflexivity|apply no_confidence_rejects].
  - intros Nc Nt. rewrite <- Core. unfold fgt.
    symmetry. apply fle_false_iff_flt; assumption.
Qed.

(** *** The advance *)

(** C3.  In an iteration that reaches the frame search, a rejected
    attempt leaves [advance = try_max_nsamples = nsamples_per_bit +
    nsamples_overscan], and an accepted frame leaves [advance =
    frame_start_sample + nsamples_per_bit * (n_data_bits + 2) -
    nsamples_overscan], both computed in [float] and stored in an
    [unsigned int]. *)
Theorem C3_advance_of_an_iteration
    (c : settings) (s0 s : state) (fr : frame) :
  locate_frame c s0 = Next (s, fr) ->
  plan_fits c (fskp s) ->
  (fle (frame_confidence fr) (fsk_confidence_threshold c) = true ->
   exists s',
     loop_body c s0 = Continue s' /\
     advance s' =
       uint_of_float
         (fadd (nsamples_per_bit c) (float_of_Z (nsamples_overscan c)))) /\
  (fle (frame_confidence fr) (fsk_confidence_threshold c) = false ->
   exists s',
     loop_body c s0 = Next s' /\
     advance s' =
       uint_of_float
         (fsub (fadd (float_of_Z (frame_start_sample fr))
                     (fmul (nsamples_per_bit c)
                           (float_of_Z (uint (n_data_bits (fskp s) + 2)))))
               (float_of_Z (nsamples_overscan c)))).
Proof.
  intros L F.
  unfold loop_body. rewrite L. simpl. unfold judge_frame.
  split; intros E; rewrite E.
  - exists (no_confidence c s). split; [reflexivity|].
    destruct (no_confidence_fields c s) as (_ & A & _). exact A.
  - destruct (accept_frame_accepts c s fr F) as (s' & A & Acc & _).
    exists s'. split; [exact A|].
    destruct Acc as (_ & _ & _ & _ & _ & Adv & _). exact Adv.
Qed.

(** *** The carrier-state invariant *)

Lemma loop_body_counters_zeroed (c : settings) (s : state) :
  counters_zeroed s ->
  match loop_body c s with
  | Next s' | Continue s' | Break s' => counters_zeroed s'
  | _ => True
  end.
Proof.
  intros I. unfold counters_zeroed in *.
  pose proof (loop_body_cases c s) as B.
  pose proof (locate_frame_side c s) as L.
  destruct (loop_body c s) as [s'|s'|s'| |]; auto.
  - destruct B as (s1 & fr & _ & _ & A).
    pose proof (accept_frame_flow c s1 fr
                  (chop_framing_bits (fskp s1) (frame_bits fr))) as F.
    rewrite A in F. destruct F as (_ & F & _). congruence.
  - destruct B as [B|(s1 & fr & B & _ & ->)]; rewrite B in L.
    + destruct L as (St & _). rewrite St. exact I.
    + destruct L as ((St & _) & _).
      destruct (no_confidence_rejects c s1) as (_ & [R|R] & _);
        rewrite R; auto.
      rewrite St. exact I.
  - rewrite B in L. destruct L as (St & _). rewrite St. exact I.
Qed.

Lemma rx_iterate_counters_zeroed (n : nat) (c : settings) (s0 s : state) :
  counters_zeroed s0 -> rx_iterate n c s0 = Some s -> counters_zeroed s.
Proof.
  revert s0. induction n as [|n IH]; simpl; intros s0 I R.
  - inversion R. subst. exact I.
  - pose proof (loop_body_counters_zeroed c s0 I) as B.
    destruct (loop_body c s0) as [s1|s1|s1| |]; try discriminate; eauto.
Qed.

Lemma counters_zeroed_invariant (s : state) :
  counters_zeroed s ->
  carrier_invariant s /\
  (carrier (stats s) = false -> nframes_decoded (stats s) = 0).
Proof.
  unfold counters_zeroed, carrier_invariant. intros I.
  destruct (carrier (stats s)) eqn:C.
  - repeat split; intros; discriminate.
  - rewrite (I eq_refl). simpl. repeat split; auto. intros H. lia.
Qed.

(** C5.  From the start of the receiver on, after every iteration of the
    loop (the one that leaves it included) [nframes_decoded > 0] implies
    that the carrier is acquired, and without a carrier
    [confidence_total], [carrier_nsamples] and [nframes_decoded] are all
    zero. *)
Theorem C5_carrier_state_invariant
    (c : settings) (sa0 : stream) (plan : fsk_plan) (sh : shift)
    (contents : list float) (n : nat) (s : state) :
  rx_iterate n c (rx_init c sa0 plan sh contents) = Some s ->
  (carrier_invariant s /\
   (carrier (stats s) = false -> nframes_decoded (stats s) = 0)) /\
  (forall s' : state, loop_body c s = Break s' ->
     carrier_invariant s' /\
     (carrier (stats s') = false -> nframes_decoded (stats s') = 0)).
Proof.
  intros R.
  assert (I : counters_zeroed s).
  { eapply rx_iterate_counters_zeroed; [|exact R].
    intros _. reflexivity. }
  split.
  - apply counters_zeroed_invariant. exact I.
  - intros s' B. apply counters_zeroed_invariant.
    pose proof (loop_body_counters_zeroed c s I) as L.
    rewrite B in L. exact L.
Qed.

(** *** The data bits *)

(** C8.  With 5 or 8 data bits, the value the loop takes out of the bits
    of a located frame is [(bits >> 2) & mask] with [mask = (1 << D) - 1],
    that is [0x1F] for 5 and [0xFF] for 8 data bits, and this is what the
    decoder of an accepted frame is called on. *)
Theorem C8_data_bits_extraction
    (c : settings) (s0 s : state) (fr : frame) :
  locate_frame c s0 = Next (s, fr) ->
  n_data_bits (fskp s) = 5 \/ n_data_bits (fskp s) = 8 ->
  plan_fits c (fskp s) ->
  let D := n_data_bits (fskp s) in
  let mask := Z.shiftl 1 D - 1 in
  let data := Z.land (Z.shiftr (frame_bits fr) 2) mask in
  chop_framing_bits (fskp s) (frame_bits fr) = data /\
  (D = 5 -> mask = 31) /\ (D = 8 -> mask = 255) /\
  (fle (frame_confidence fr) (fsk_confidence_threshold c) = false ->
   exists (s' : state) (sh : shift) (bytes : list Z),
     loop_body c s0 = Next s' /\
     framebits_decode (bfsk_framebits c) sh (Some tt) 4096 data
       = Some (bytes, baudot s') /\
     stdout s' = stdout s0 ++ map printable_char bytes).
Proof.
  intros L HD F D mask data.
  assert (E : chop_framing_bits (fskp s) (frame_bits fr) = data).
  { unfold chop_framing_bits, data, mask, D.
    destruct HD as [-> | ->]; reflexivity. }
  split; [exact E|].
  split; [intros ->; reflexivity|].
  split; [intros ->; reflexivity|].
  intros C.
  pose proof (locate_frame_side c s0) as Side. rewrite L in Side.
  destruct Side as ((_ & _ & _ & Out & _) & _).
  unfold loop_body. rewrite L. simpl. unfold judge_frame. rewrite C.
  destruct (accept_frame_accepts c s fr F) as (s' & A & Acc & _).
  destruct Acc as (_ & _ & _ & _ & _ & _ & sh & bytes & Dec & O).
  exists s', sh, bytes. rewrite <- E, <- Out. auto.
Qed.

(** *** Leaving the loop *)

Lemma loop_body_ret (c : settings) (s : state) :
  match loop_body c s with
  | Next s' | Continue s' => ret s' = ret s
  | _ => True
  end.
Proof.
  pose proof (loop_body_cases c s) as B.
  pose proof (locate_frame_side c s) as L.
  destruct (loop_body c s) as [s'|s'|s'| |]; auto.
  - destruct B as (s1 & fr & B & _ & A). rewrite B in L.
    destruct L as ((_ & _ & _ & _ & _ & R) & _).
    pose proof (accept_frame_flow c s1 fr
                  (chop_framing_bits (fskp s1) (frame_bits fr))) as F.
    rewrite A in F. destruct F as (_ & _ & F). congruence.
  - destruct B as [B|(s1 & fr & B & _ & ->)]; rewrite B in L.
    + destruct L as (_ & _ & _ & _ & _ & R). exact R.
    + destruct L as ((_ & _ & _ & _ & _ & R) & _).
      destruct (no_confidence_fields c s1) as (_ & _ & _ & _ & R1).
      congruence.
Qed.

Lemma rx_iterate_ret (n : nat) (c : settings) (s0 s : state) :
  rx_iterate n c s0 = Some s -> ret s = ret s0.
Proof.
  revert s0. induction n as [|n IH]; simpl; intros s0 R.
  - inversion R. reflexivity.
  - pose proof (loop_body_ret c s0) as B.
    destruct (loop_body c s0) as [s1|s1|s1| |]; try discriminate;
      rewrite (IH s1 R); exact B.
Qed.

Lemma rx_loop_after (n m : nat) (c : settings) (s0 s : state) :
  rx_iterate n c s0 = Some s -> rx_loop (n + m) c s0 = rx_loop m c s.
Proof.
  revert s0. induction n as [|n IH]; simpl; intros s0 R.
  - inversion R. reflexivity.
  - destruct (loop_body c s0) as [s1|s1|s1| |]; try discriminate; auto.
Qed.

(** A failed read: the message, [ret = -1], [break]. *)
Lemma read_samples_error (c : settings) (s1 : state) (r : Z)
    (data : list float) (sa' : stream) :
  0 < read_nsamples (window s1) ->
  size_t (samples_nvalid (window s1) + read_nsamples (window s1))
    <= samplebuf_size c ->
  simpleaudio_read (sa s1) (read_nsamples (window s1)) = (r, data, sa') ->
  r < 0 ->
  exists s' : state,
    read_samples c s1 = Break s' /\ ret s' = -1 /\
    stderr s' = stderr s1 ++ [Text read_error_message] /\
    stats s' = stats s1.
Proof.
  intros A1 A2 R N. unfold read_samples.
  apply Z.ltb_lt in A1. apply Z.leb_le in A2. rewrite A1, A2, R. simpl.
  apply Z.ltb_lt in N. rewrite N.
  eexists. split; [reflexivity|]. simpl. auto.
Qed.

(** The end of the stream with no sample left: [break], nothing printed,
    [ret] as it was. *)
Lemma read_samples_eof (c : settings) (s1 : state)
    (data : list float) (sa' : stream) :
  0 < read_nsamples (window s1) ->
  size_t (samples_nvalid (window s1) + read_nsamples (window s1))
    <= samplebuf_size c ->
  simpleaudio_read (sa s1) (read_nsamples (window s1)) = (0, data, sa') ->
  samples_nvalid (window s1) = 0 ->
  exists s' : state,
    read_samples c s1 = Break s' /\ ret s' = ret s1 /\
    stderr s' = stderr s1 /\ stats s' = stats s1.
Proof.
  intros A1 A2 R N. unfold read_samples.
  apply Z.ltb_lt in A1. apply Z.leb_le in A2. rewrite A1, A2, R. simpl.
  rewrite N. simpl.
  eexists. split; [reflexivity|]. simpl. auto.
Qed.

Lemma rx_finish_stderr (c : settings) (s : state) :
  stderr (rx_finish c s) =
  stderr s ++ (if carrier (stats s) && negb (quiet_mode c)
               then [nocarrier_line c s] else []).
Proof.
  unfold rx_finish.
  destruct (carrier (stats s)), (quiet_mode c); simpl;
    try reflexivity; symmetry; apply app_nil_r.
Qed.

(** C9.  In an iteration whose read fails, the loop prints
    "simpleaudio_read: error" to stderr and is left, and [main] returns
    -1; in an iteration whose read meets the end of the stream with no
    sample left in the buffer, the loop is left with nothing printed and
    [main] returns 0.  In both cases the NOCARRIER report is printed
    after the loop exactly when the carrier is acquired and quiet mode is
    off. *)
Theorem C9_read_error_and_end_of_stream
    (c : settings) (s0 s s1 : state) (n fuel : nat) (r : Z)
    (data : list float) (sa' : stream) :
  ret s0 = 0 ->
  rx_iterate n c s0 = Some s ->
  shift_samples c s = Next s1 ->
  0 < read_nsamples (window s1) ->
  size_t (samples_nvalid (window s1) + read_nsamples (window s1))
    <= samplebuf_size c ->
  simpleaudio_read (sa s1) (read_nsamples (window s1)) = (r, data, sa') ->
  (r < 0 ->
   exists s' : state,
     loop_body c s = Break s' /\
     stderr s' = stderr s ++ [Text read_error_message] /\
     main_rx (n + S fuel) c s0 = Some (-1, rx_finish c s') /\
     stderr (rx_finish c s') =
       stderr s' ++ (if carrier (stats s) && negb (quiet_mode c)
                     then [nocarrier_line c s'] else [])) /\
  (r = 0 -> samples_nvalid (window s1) = 0 ->
   exists s' : state,
     loop_body c s = Break s' /\
     stderr s' = stderr s /\
     main_rx (n + S fuel) c s0 = Some (0, rx_finish c s') /\
     stderr (rx_finish c s') =
       stderr s ++ (if carrier (stats s) && negb (quiet_mode c)
                    then [nocarrier_line c s'] else [])).
Proof.
  intros R0 It Sh A1 A2 Rd.
  pose proof (shift_samples_side c s) as Side. rewrite Sh in Side.
  destruct Side as (St & _ & _ & _ & Er & Rt).
  pose proof (rx_iterate_ret n c s0 s It) as Rs.
  assert (Body : forall s' : state,
             read_samples c s1 = Break s' -> loop_body c s = Break s').
  { intros s' E. unfold loop_body, locate_frame. rewrite Sh. simpl.
    rewrite E. reflexivity. }
  assert (Main : forall s' : state,
             loop_body c s = Break s' ->
             main_rx (n + S fuel) c s0 = Some (ret s', rx_finish c s')).
  { intros s' E. unfold main_rx.
    rewrite (rx_loop_after n (S fuel) c s0 s It). simpl. rewrite E.
    reflexivity. }
  split.
  - intros N.
    destruct (read_samples_error c s1 r data sa' A1 A2 Rd N)
      as (s' & E & Rt' & Er' & St').
    exists s'. split; [auto|]. split; [congruence|].
    split; [rewrite (Main s' (Body s' E)), Rt'; reflexivity|].
    rewrite rx_finish_stderr. rewrite St', St. reflexivity.
  - intros -> N.
    destruct (read_samples_eof c s1 data sa' A1 A2 Rd N)
      as (s' & E & Rt' & Er' & St').
    exists s'. split; [auto|]. split; [congruence|].
    split.
    + rewrite (Main s' (Body s' E)). repeat f_equal. congruence.
    + rewrite rx_finish_stderr. rewrite St', St, Er', Er. reflexivity.
Qed.

(** *** The search limit *)

(** C10.  Before the loop a search limit below the threshold is raised to
    the threshold, so that the limit handed to the frame search once the
    carrier is acquired is never below the threshold; between numbers
    this says that it is greater than or equal to the threshold. *)
Theorem C10_search_limit_not_below_threshold
    (o : options) (c : settings) (s : state) :
  main_setup o = inl c ->
  carrier (stats s) = true ->
  (flt (opt_fsk_confidence_search_limit o) (opt_fsk_confidence_threshold o)
     = true ->
   fsk_confidence_search_limit c = opt_fsk_confidence_threshold o) /\
  fsk_confidence_threshold c = opt_fsk_confidence_threshold o /\
  flt (try_confidence_search_limit c s) (fsk_confidence_threshold c) = false /\
  (is_nan (opt_fsk_confidence_search_limit o) = false ->
   is_nan (opt_fsk_confidence_threshold o) = false ->
   fge (try_confidence_search_limit c s) (fsk_confidence_threshold c) = true).
Proof.
  intros M C.
  destruct (main_setup_fields o c M) as (T & L & _).
  unfold try_confidence_search_limit. rewrite C, T, L.
  destruct (flt (opt_fsk_confidence_search_limit o)
                (opt_fsk_confidence_threshold o)) eqn:E.
  - repeat split; auto.
    + apply flt_irrefl.
    + intros _ Nt. apply fle_refl. exact Nt.
  - repeat split; auto; try discriminate.
    intros Nl Nt. unfold fge.
    destruct (fle (opt_fsk_confidence_threshold o)
                  (opt_fsk_confidence_search_limit o)) eqn:G; auto.
    apply (fle_false_iff_flt _ _ Nt Nl) in G. congruence.
Qed.

End ReceiverLemmas.

(** ** The sample buffer *)

(** C4 (as amended).  The sample buffer holds [ceilf(nsamples_per_bit) *
    (12+1)] samples, with [nsamples_per_bit = sample_rate /
    bfsk_data_rate]: 13 bit widths, whatever the number of data bits. *)
Theorem C4_samplebuf_size_is_13_bit_widths (o : options) (c : settings) :
  main_setup o = inl c ->
  samplebuf_size c =
    size_t_of_float
      (fmul (ceilf (fdiv (float_of_Z (opt_sample_rate o))
                         (rate_of_mode (opt_modem_mode o))))
            (float_of_Z 13)).
Proof.
  intros M. destruct (main_setup_fields o c M) as (_ & _ & R & D & _).
  unfold samplebuf_size, nsamples_per_bit. rewrite R, D. reflexivity.
Qed.

(** ** The NOCARRIER report *)

Lemma binary_round_aux_sign (prec emax : Z) (sx : bool) (mx ex : Z)
    (lx : location) :
  is_nan (binary_round_aux prec emax sx mx ex lx) = false ->
  signbit (binary_round_aux prec emax sx mx ex lx) = sx.
Proof.
  unfold binary_round_aux.
  destruct (shr_fexp prec emax mx ex lx) as [mrs' e'].
  destruct (shr_fexp prec emax _ e' loc_Exact) as [mrs'' e''].
  destruct (shr_m mrs''); simpl; try discriminate; auto.
  destruct (_ <=? _); reflexivity.
Qed.

(** Dividing by a positive number keeps the sign. *)
Lemma fdiv_sign (x : float) (m : positive) (e : Z) :
  is_nan (fdiv x (S754_finite false m e)) = false ->
  signbit (fdiv x (S754_finite false m e)) = signbit x.
Proof.
  unfold fdiv. destruct x as [s|s| |s mx ex]; simpl; intros H;
    try discriminate; try apply xorb_false_r.
  destruct (SFdiv_core_binary fprec femax (Z.pos mx) ex (Z.pos m) e)
    as [[mz ez] lz].
  rewrite (binary_round_aux_sign _ _ _ _ _ _ H). apply xorb_false_r.
Qed.

(** C6.  The NOCARRIER report prints [ndata = nframes_decoded], the
    confidence [confidence_total / nframes_decoded] and the throughput
    [nbits_total * sample_rate / carrier_nsamples] with [nbits_total =
    nframes_decoded * (n_data_bits + 2)]; it says "rate perfect" exactly
    when [nbits_total * nsamples_per_bit + 0.5], cut to an integer, is
    [carrier_nsamples], and otherwise, for a positive configured rate,
    "slow" when [throughput - rate] is negative and "fast" when it is
    not. *)
Theorem C6_nocarrier_report
    (plan : fsk_plan) (sample_rate : Z) (nsamples_per_bit : float)
    (nframes_decoded carrier_nsamples : Z) (confidence_total : float)
    (m : positive) (e : Z) :
  let rate := S754_finite false m e in
  let r := report_no_carrier plan sample_rate rate nsamples_per_bit
             nframes_decoded carrier_nsamples confidence_total in
  let nbits_total := uint (nframes_decoded * (n_data_bits plan + 2)) in
  let rounded :=
    size_t_of_float
      (dadd (double_of_float (fmul (float_of_Z nbits_total) nsamples_per_bit))
            d_half) in
  ndata r = nframes_decoded /\
  report_confidence r = fdiv confidence_total (float_of_Z nframes_decoded) /\
  throughput r =
    fdiv (float_of_Z (ullong (nbits_total * sample_rate)))
         (float_of_Z carrier_nsamples) /\
  (0 <= nframes_decoded * (n_data_bits plan + 2) < 2 ^ 32 ->
   0 <= nframes_decoded * (n_data_bits plan + 2) * sample_rate < 2 ^ 64 ->
   throughput r =
     fdiv (float_of_Z (nframes_decoded * (n_data_bits plan + 2) * sample_rate))
          (float_of_Z carrier_nsamples)) /\
  (note r = RatePerfect <-> rounded = carrier_nsamples) /\
  (rounded <> carrier_nsamples ->
   is_nan (fdiv (fsub (throughput r) rate) rate) = false ->
   exists percent,
     note r =
       RateSkew percent
         (if signbit (fsub (throughput r) rate) then slow else fast)).
Proof.
  intros rate r nbits_total rounded.
  unfold r, report_no_carrier.
  cbn [ndata report_confidence throughput note].
  fold nbits_total. fold rounded.
  repeat split.
  - intros H1 H2. unfold nbits_total, uint, ullong.
    rewrite (Z.mod_small _ _ H1), (Z.mod_small _ _ H2). reflexivity.
  - destruct (rounded =? carrier_nsamples) eqn:E.
    + intros _. apply Z.eqb_eq. exact E.
    + discriminate.
  - intros H. apply Z.eqb_eq in H. rewrite H. reflexivity.
  - intros H N. apply Z.eqb_neq in H. rewrite H.
    eexists. unfold rate in *. rewrite (fdiv_sign _ m e N). reflexivity.
Qed.

(** ** The transmitter *)

Section TransmitterLemmas.
Import Tx.
Context {shift : Type} {BL : BaudotLib shift}.

#[local] Abbreviation tstate := (@tx_state shift).

Lemma data_bit_is_testbit (word i : Z) :
  0 <= i -> (Z.land (Z.shiftr word i) 1 =? 1) = Z.testbit word i.
Proof.
  intros H.
  change 1 with (Z.ones 1) at 1.
  rewrite Z.land_ones by lia.
  rewrite Z.shiftr_div_pow2 by exact H.
  change (2 ^ 1) with 2.
  rewrite <- (Z.testbit_spec' word i H).
  destruct (Z.testbit word i); reflexivity.
Qed.

Lemma data_bit_tones_spec (p : tx_params) (word : Z) (count a : nat) :
  data_bit_tones p word (Z.of_nat a) count =
  map (fun i => spec_bit_tone p (Z.testbit word (Z.of_nat i))) (seq a count).
Proof.
  revert a. induction count as [|count IH]; intros a; simpl; [reflexivity|].
  rewrite data_bit_is_testbit by lia.
  replace (Z.of_nat a + 1) with (Z.of_nat (S a)) by lia.
  rewrite IH. reflexivity.
Qed.

Lemma word_tones_spec (p : tx_params) (word : Z) :
  word_tones p word = spec_word_frame p word.
Proof.
  unfold word_tones, spec_word_frame.
  rewrite (data_bit_tones_spec p word _ 0). reflexivity.
Qed.

Lemma words_tones_spec (p : tx_params) (words : list Z) :
  words_tones p words = List.concat (map (spec_word_frame p) words).
Proof.
  induction words as [|w words IH]; [reflexivity|].
  cbn [words_tones map List.concat].
  rewrite word_tones_spec, IH. reflexivity.
Qed.

Lemma tx_loop_app (p : tx_params) (evs1 evs2 : list stdin_event) (s : tstate) :
  tx_loop p (evs1 ++ evs2) s = tx_loop p evs2 (tx_loop p evs1 s).
Proof.
  revert s. induction evs1 as [|ev evs1 IH]; simpl; auto.
Qed.

Lemma tx_char_spec (p : tx_params) (c : Z) (s : tstate) :
  tx_out (tx_char p c s) =
    tx_out s
      ++ (if tx_transmitting s then [] else spec_leader p)
      ++ List.concat
           (map (spec_word_frame p)
                (fst (framebits_encode (framebits_encoder p) (tx_shift s) c)))
  /\ tx_transmitting (tx_char p c s) = true.
Proof.
  unfold tx_char. cbn [tx_shift tx_transmitting timer_armed tx_out].
  destruct (framebits_encode (framebits_encoder p) (tx_shift s) c)
    as [bits sh0].
  cbn [fst]. rewrite <- words_tones_spec.
  destruct (tx_transmitting s); cbn; split; try reflexivity.
  rewrite <- app_assoc. reflexivity.
Qed.

(** C7.  For a byte read from stdin at any point of a transmission, the
    transmitter emits, for each data word the encoder makes of it: one bit
    of space tone, then [n_data_bits] bits taken from the word from the
    least significant one up, mark for 1 and space for 0, then a mark tone
    of [bfsk_txstopbits] bit lengths; before the first of these words it
    emits 2 bits of mark tone exactly when it was idle, which it is at the
    start and after the timer has stopped the transmission. *)
Theorem C7_transmitted_frames
    (p : tx_params) (sh : shift) (before : list stdin_event) (c : Z) :
  let s := tx_loop p before (mk_tx_state false false sh []) in
  let words := fst (framebits_encode (framebits_encoder p) (tx_shift s) c) in
  let s' := tx_loop p (before ++ [Getchar c]) (mk_tx_state false false sh []) in
  tx_out s' =
    tx_out s
      ++ (if tx_transmitting s then [] else spec_leader p)
      ++ List.concat (map (spec_word_frame p) words) /\
  tx_transmitting s' = true /\
  tx_transmitting (tx_loop p [] (mk_tx_state false false sh [])) = false /\
  (timer_armed s' = true ->
   tx_transmitting (tx_event p Sigalrm s') = false).
Proof.
  intros s words s'. unfold s', words. rewrite tx_loop_app. fold s.
  cbn [tx_loop tx_event].
  destruct (tx_char_spec p c s) as (O & T).
  repeat split; auto.
  intros H. unfold tx_event. rewrite H. reflexivity.
Qed.

End TransmitterLemmas.

(* ================================================================== *)
(** * Part III: the properties on runs of the program                  *)
(* ================================================================== *)

Module Runs.
Import Bench.

Lemma bell103_setup :
  main_setup (default_options (Bps (float_of_Z 300))) = inl bell103.
Proof. vm_compute. reflexivity. Defined.

Lemma acquired_facts :
  carrier (stats s_acquired) = true /\ noconfidence s_acquired = 0.
Proof. vm_compute. split; reflexivity. Defined.

Lemma run_of_20 : bench_low_run 20 s_acquired = Some s_after_20.
Proof. vm_compute. reflexivity. Defined.

Lemma run_of_21 : bench_low_run 21 s_acquired = Some s_after_21.
Proof. vm_compute. reflexivity. Defined.

(** After 20 low-confidence attempts in a row the carrier is still
    acquired: the statement that 20 attempts reset it fails. *)
Lemma C1_counterexample_20_attempts :
  ~ (forall s s' : @rx_state stream unit,
       carrier (stats s) = true ->
       noconfidence s = 0 ->
       bench_low_run 20 s = Some s' ->
       carrier (stats s') = false).
Proof.
  intros H.
  destruct acquired_facts as [C N].
  pose proof (H s_acquired s_after_20 C N run_of_20) as F.
  vm_compute in F. discriminate F.
Qed.

Lemma C1_witness :
  (carrier (stats s_acquired) = true /\ noconfidence s_acquired = 0 /\
   bench_low_run 21 s_acquired = Some s_after_21) /\
  stats s_after_21 = no_carrier.
Proof.
  destruct acquired_facts as [C N].
  split; [split; [exact C|split; [exact N|exact run_of_21]]|].
  destruct (C1_carrier_reset_on_21st_attempt
              (FL := bench_fsk) (SA := bench_audio) (BL := bench_baudot)
              bell103 s_acquired s_after_21 21 C N run_of_21)
    as (_ & R & _).
  destruct (R eq_refl) as (S & _). exact S.
Defined.

Lemma first_frame_located :
  bench_locate s_start = Next (s_located, fr_located).
Proof. vm_compute. reflexivity. Defined.

Lemma second_frame_located :
  bench_locate s_acquired = Next (s_located', fr_located').
Proof. vm_compute. reflexivity. Defined.

Lemma bell103_plan_fits (s : @rx_state stream unit) : plan_fits bell103 (fskp s).
Proof. intros H. vm_compute in H. discriminate H. Defined.

Lemma C2_witness :
  (bench_locate s_start = Next (s_located, fr_located) /\
   plan_fits bell103 (fskp s_located) /\
   is_nan (frame_confidence fr_located) = false /\
   is_nan (fsk_confidence_threshold bell103) = false) /\
  fgt (frame_confidence fr_located) (fsk_confidence_threshold bell103) = true /\
  exists s', bench_body s_start = Next s' /\ carrier (stats s') = true.
Proof.
  assert (Nc : is_nan (frame_confidence fr_located) = false)
    by (vm_compute; reflexivity).
  assert (Nt : is_nan (fsk_confidence_threshold bell103) = false)
    by (vm_compute; reflexivity).
  assert (G : fgt (frame_confidence fr_located)
                  (fsk_confidence_threshold bell103) = true)
    by (vm_compute; reflexivity).
  split; [split; [exact first_frame_located|split;
            [apply bell103_plan_fits|split; [exact Nc|exact Nt]]]|].
  split; [exact G|].
  destruct (C2_accepted_iff_confidence_above_threshold
              (FL := bench_fsk) (SA := bench_audio) (BL := bench_baudot)
              bell103 s_start s_located fr_located first_frame_located
              (bell103_plan_fits s_located)) as (_ & _ & A).
  destruct (A Nc Nt) as (A1 & _).
  destruct (A1 G) as (s' & B & Acc).
  exists s'. split; [exact B|].
  destruct Acc as (C & _). exact C.
Defined.

Lemma C3_witness :
  (bench_locate s_acquired = Next (s_located', fr_located') /\
   plan_fits bell103 (fskp s_located')) /\
  fle (frame_confidence fr_located') (fsk_confidence_threshold bell103) = true /\
  exists s', bench_body s_acquired = Continue s' /\ advance s' = 240.
Proof.
  assert (G : fle (frame_confidence fr_located')
                  (fsk_confidence_threshold bell103) = true)
    by (vm_compute; reflexivity).
  split; [split; [exact second_frame_located|apply bell103_plan_fits]|].
  split; [exact G|].
  destruct (C3_advance_of_an_iteration
              (FL := bench_fsk) (SA := bench_audio) (BL := bench_baudot)
              bell103 s_acquired s_located' fr_located' second_frame_located
              (bell103_plan_fits s_located')) as (R & _).
  destruct (R G) as (s' & B & A).
  exists s'. split; [exact B|]. rewrite A. vm_compute. reflexivity.
Defined.

Lemma one_iteration :
  bench_iterate 1
    (rx_init bell103 (one_frame_then_silence (Z.to_nat 9000)) bell103_plan tt
             (repeat f_zero (Z.to_nat 2080)))
  = Some s_acquired.
Proof. vm_compute. reflexivity. Defined.

Lemma C5_witness :
  bench_iterate 1
    (rx_init bell103 (one_frame_then_silence (Z.to_nat 9000)) bell103_plan tt
             (repeat f_zero (Z.to_nat 2080)))
  = Some s_acquired /\
  carrier_invariant s_acquired.
Proof.
  split; [exact one_iteration|].
  destruct (C5_carrier_state_invariant
              (FL := bench_fsk) (SA := bench_audio) (BL := bench_baudot)
              bell103 (one_frame_then_silence (Z.to_nat 9000)) bell103_plan tt
              (repeat f_zero (Z.to_nat 2080)) 1 s_acquired one_iteration)
    as ((I & _) & _).
  exact I.
Defined.

Lemma C8_witness :
  (bench_locate s_start = Next (s_located, fr_located) /\
   (n_data_bits (fskp s_located) = 5 \/ n_data_bits (fskp s_located) = 8) /\
   plan_fits bell103 (fskp s_located)) /\
  chop_framing_bits (fskp s_located) (frame_bits fr_located) = 65.
Proof.
  assert (D : n_data_bits (fskp s_located) = 5 \/
              n_data_bits (fskp s_located) = 8)
    by (right; vm_compute; reflexivity).
  split; [split; [exact first_frame_located|split;
            [exact D|apply bell103_plan_fits]]|].
  destruct (C8_data_bits_extraction
              (FL := bench_fsk) (SA := bench_audio) (BL := bench_baudot)
              bell103 s_start s_located fr_located first_frame_located D
              (bell103_plan_fits s_located)) as (E & _).
  rewrite E. vm_compute. reflexivity.
Defined.

Lemma C9_witness :
  (ret s_broken = 0 /\
   rx_iterate (FL := bench_fsk) (SA := bench_audio) (BL := bench_baudot)
     0 bell103 s_broken = Some s_broken /\
   shift_samples bell103 s_broken = Next s_broken /\
   0 < read_nsamples (window s_broken) /\
   size_t (samples_nvalid (window s_broken) + read_nsamples (window s_broken))
     <= samplebuf_size bell103 /\
   simpleaudio_read (SimpleAudio := bench_audio) (sa s_broken)
     (read_nsamples (window s_broken)) = (-1, [], ([], true))) /\
  exists s',
    main_rx (FL := bench_fsk) (SA := bench_audio) (BL := bench_baudot)
      1 bell103 s_broken = Some (-1, s') /\
    stderr s' = [Text read_error_message].
Proof.
  assert (H1 : ret s_broken = 0) by reflexivity.
  assert (H2 : rx_iterate (FL := bench_fsk) (SA := bench_audio)
                 (BL := bench_baudot) 0 bell103 s_broken = Some s_broken)
    by reflexivity.
  assert (H3 : shift_samples bell103 s_broken = Next s_broken)
    by (vm_compute; reflexivity).
  assert (H4 : 0 < read_nsamples (window s_broken))
    by (vm_compute; reflexivity).
  assert (H5 : size_t (samples_nvalid (window s_broken)
                       + read_nsamples (window s_broken))
               <= samplebuf_size bell103)
    by (vm_compute; intros H; discriminate H).
  assert (H6 : simpleaudio_read (SimpleAudio := bench_audio) (sa s_broken)
                 (read_nsamples (window s_broken)) = (-1, [], ([], true)))
    by (vm_compute; reflexivity).
  split; [repeat split; assumption|].
  destruct (C9_read_error_and_end_of_stream
              (FL := bench_fsk) (SA := bench_audio) (BL := bench_baudot)
              bell103 s_broken s_broken s_broken 0 0 (-1) [] ([], true)
              H1 H2 H3 H4 H5 H6) as (E & _).
  destruct (E eq_refl) as (s' & B & Er & M & Fin).
  exists (rx_finish bell103 s'). split; [exact M|].
  rewrite Fin, Er. reflexivity.
Defined.

Lemma low_limit_setup : main_setup low_limit_options = inl low_limit.
Proof. vm_compute. reflexivity. Defined.

Lemma C10_witness :
  (main_setup low_limit_options = inl low_limit /\
   carrier (stats s_acquired) = true) /\
  fsk_confidence_search_limit low_limit = float_of_Z 2 /\
  fge (try_confidence_search_limit low_limit s_acquired)
      (fsk_confidence_threshold low_limit) = true.
Proof.
  destruct acquired_facts as [C _].
  split; [split; [exact low_limit_setup|exact C]|].
  destruct (C10_search_limit_not_below_threshold low_limit_options low_limit
              s_acquired low_limit_setup C) as (R & _ & _ & G).
  split.
  - rewrite R; reflexivity.
  - apply G; reflexivity.
Defined.

(** With the defaults of [minimodem --rx 300] the buffer holds 2080
    samples and not the 1920 of 12 bit widths. *)
Lemma C4_counterexample_bell103 :
  ~ (forall (o : options) (c : settings),
       main_setup o = inl c ->
       samplebuf_size c =
         size_t_of_float
           (fmul (ceilf (nsamples_per_bit c))
                 (float_of_Z (bfsk_n_data_bits c + 2 + 2)))).
Proof.
  intros H.
  pose proof (H _ _ bell103_setup) as F.
  vm_compute in F. discriminate F.
Qed.

Lemma C4_witness :
  main_setup (default_options (Bps (float_of_Z 300))) = inl bell103 /\
  samplebuf_size bell103 = 2080.
Proof.
  split; [exact bell103_setup|].
  rewrite (C4_samplebuf_size_is_13_bit_widths _ _ bell103_setup).
  vm_compute. reflexivity.
Defined.

(** One frame of ten bits measured over 1610 samples instead of 1600. *)
Lemma C6_witness :
  let rate := S754_finite false 9830400 (-15) in
  let r := report_no_carrier bell103_plan 48000 rate (float_of_Z 160)
             1 1610 three in
  (1600 <> 1610 /\
   is_nan (fdiv (fsub (throughput r) rate) rate) = false) /\
  exists percent, note r = RateSkew percent slow.
Proof.
  intros rate r.
  assert (N : is_nan (fdiv (fsub (throughput r) rate) rate) = false)
    by (vm_compute; reflexivity).
  split; [split; [intros H; discriminate H|exact N]|].
  destruct (C6_nocarrier_report bell103_plan 48000 (float_of_Z 160)
              1 1610 three 9830400 (-15)) as (_ & _ & _ & _ & _ & S).
  destruct S as (percent & E).
  - vm_compute. intros H; discriminate H.
  - exact N.
  - exists percent. unfold r, rate. rewrite E. vm_compute. reflexivity.
Defined.

Lemma C7_witness :
  let s' := Tx.tx_loop (BL := bench_baudot) bell103_tx [Tx.Getchar 65]
              (Tx.mk_tx_state false false tt []) in
  Tx.timer_armed s' = true /\
  Tx.tx_transmitting
    (Tx.tx_event (BL := bench_baudot) bell103_tx Tx.Sigalrm s') = false /\
  map Tx.tone_nsamples (Tx.tx_out s') = repeat 160 12 /\
  map (fun t => feq (Tx.tone_freq t) (float_of_Z 1270)) (Tx.tx_out s') =
    [true; true; false; true; false; false; false; false; false; true; false;
     true].
Proof.
  intros s'.
  assert (A : Tx.timer_armed s' = true) by (vm_compute; reflexivity).
  destruct (C7_transmitted_frames (BL := bench_baudot) bell103_tx tt [] 65)
    as (O & _ & _ & I).
  split; [exact A|]. split; [exact (I A)|].
  cbn [app] in O. unfold s'. rewrite O. vm_compute. split; reflexivity.
Defined.

(** *** The formulas in integers, at 48000 samples per second and 300 bps *)

Lemma all_below_spec (n : nat) (P : Z -> bool) :
  all_below n P = true -> forall z, 0 <= z < Z.of_nat n -> P z = true.
Proof.
  induction n as [|n IH]; simpl; intros H z Hz; [lia|].
  apply andb_prop in H. destruct H as [H1 H2].
  destruct (Z.eq_dec z (Z.of_nat n)) as [->|Ne]; [exact H1|].
  apply IH; [exact H2|lia].
Qed.

(** With 160 samples per bit the overscan is 80 samples, a rejected attempt
    advances by 160 + 80 samples and an accepted frame found at
    [frame_start_sample] by [frame_start_sample + 160 * 10 - 80]. *)
Lemma bell103_advances :
  nsamples_per_bit bell103 = float_of_Z 160 /\
  nsamples_overscan bell103 = 80 /\
  try_max_nsamples bell103 = 160 + 80 /\
  forall frame_start_sample,
    0 <= frame_start_sample < 2080 ->
    frame_advance bell103 bell103_plan frame_start_sample
    = frame_start_sample + 160 * (8 + 2) - 80.
Proof.
  split; [vm_compute; reflexivity|].
  split; [vm_compute; reflexivity|].
  split; [vm_compute; reflexivity|].
  intros z Hz. apply Z.eqb_eq.
  apply (all_below_spec (Z.to_nat 2080)
           (fun z => frame_advance bell103 bell103_plan z =? z + 160 * (8 + 2) - 80));
    [vm_compute; reflexivity|].
  rewrite Z2Nat.id; lia.
Qed.

End Runs.

(* ================================================================== *)
(** * Part IV: further properties of the code                          *)
(* ================================================================== *)

(** ** The transmitter as a whole *)

Section TransmitterRuns.
Import Tx.
Context {shift : Type} {BL : BaudotLib shift}.

#[local] Abbreviation txs := (@tx_state shift).

Lemma tx_char_shift (p : tx_params) (c : Z) (s : txs) :
  tx_shift (tx_char p c s) =
  snd (framebits_encode (framebits_encoder p) (tx_shift s) c).
Proof.
  unfold tx_char. cbn [tx_shift tx_transmitting timer_armed tx_out].
  destruct (framebits_encode (framebits_encoder p) (tx_shift s) c)
    as [bits sh0].
  destruct (tx_transmitting s); reflexivity.
Qed.

(** Bytes that follow one another without the timer going off. *)
Lemma tx_loop_bytes (p : tx_params) (cs : list Z) (s : txs) :
  cs <> [] ->
  let s' := tx_loop p (map Getchar cs) s in
  tx_transmitting s' = true /\
  tx_out s' =
    tx_out s
      ++ (if tx_transmitting s then [] else spec_leader p)
      ++ List.concat
           (map (spec_word_frame p)
                (encode_all (framebits_encoder p) (tx_shift s) cs)).
Proof.
  revert s. induction cs as [|c cs IH]; intros s Hne; [congruence|].
  cbn [map tx_loop tx_event encode_all].
  destruct (tx_char_spec p c s) as (O & T).
  pose proof (tx_char_shift p c s) as Sh.
  destruct (framebits_encode (framebits_encoder p) (tx_shift s) c)
    as [words sh0] eqn:E.
  cbn [fst snd] in O, Sh.
  destruct cs as [|c' cs'].
  - cbn [map tx_loop encode_all]. rewrite app_nil_r. auto.
  - destruct (IH (tx_char p c s)) as (T' & O'); [congruence|].
    split; [exact T'|].
    rewrite O', T, O, Sh.
    rewrite map_app, concat_app.
    cbn [app]. rewrite <- !app_assoc. reflexivity.
Qed.

(** X1.  When no byte arrives on stdin -- the input is empty, or only the
    timer goes off -- [fsk_transmit_stdin] sends no tone at all, not even
    the trailer and the silence. *)
Theorem transmit_nothing (p : tx_params) (sh : shift)
    (input : list stdin_event) :
  forallb (fun ev => negb (is_getchar ev)) input = true ->
  tx_out (fsk_transmit_stdin p sh input) = [] /\
  tx_transmitting (fsk_transmit_stdin p sh input) = false.
Proof.
  intros H.
  assert (L : forall s : txs,
             timer_armed s = false ->
             tx_loop p input s = s).
  { induction input as [|ev input IH]; intros s A; [reflexivity|].
    cbn [forallb] in H. apply andb_prop in H. destruct H as [H1 H2].
    destruct ev as [c|]; [discriminate|].
    cbn [tx_loop tx_event]. rewrite A. apply IH; assumption. }
  unfold fsk_transmit_stdin. rewrite L by reflexivity.
  cbn [tx_transmitting]. destruct (tx_interactive p); split; reflexivity.
Qed.

(** X2.  A transmission of at least one byte in which the idle timer never
    goes off consists of the two leader bits, once, then the frames of all
    the data words of all the bytes in order, then the two trailer bits of
    mark tone and half a second of silence; the transmitter is idle
    afterwards. *)
Theorem transmit_bytes (p : tx_params) (sh : shift) (cs : list Z) :
  cs <> [] ->
  tx_out (fsk_transmit_stdin p sh (map Getchar cs)) =
    spec_leader p
      ++ List.concat
           (map (spec_word_frame p) (encode_all (framebits_encoder p) sh cs))
      ++ spec_trailer p ++ [spec_flush p] /\
  tx_transmitting (fsk_transmit_stdin p sh (map Getchar cs)) = false.
Proof.
  intros Hne.
  destruct (tx_loop_bytes p cs (mk_tx_state false false sh []) Hne) as (T & O).
  cbn [tx_transmitting tx_out tx_shift app] in O.
  unfold fsk_transmit_stdin.
  destruct (tx_interactive p);
    cbn [tx_transmitting]; rewrite T; cbn [negb];
    unfold tx_stop_transmit_sighandler; cbn [tx_out tx_transmitting];
    rewrite O; rewrite <- !app_assoc; split; reflexivity.
Qed.

(** The last tone sent, if any. *)
Lemma last_app_singleton (ts : list tone) (t d : tone) :
  last (ts ++ [t]) d = t.
Proof.
  induction ts as [|a ts IH]; [reflexivity|].
  cbn [app]. destruct (ts ++ [t]) eqn:E.
  - destruct ts; discriminate.
  - cbn [last]. exact IH.
Qed.

(** X3.  Whatever arrives on stdin and whenever the idle timer goes off,
    [fsk_transmit_stdin] returns with the transmitter idle, and if it has
    sent anything the last tone it has sent is the half second of
    silence. *)
Theorem transmit_ends_with_silence (p : tx_params) (sh : shift)
    (input : list stdin_event) :
  let s := fsk_transmit_stdin p sh input in
  tx_transmitting s = false /\
  (tx_out s = [] \/ last (tx_out s) (spec_flush p) = spec_flush p).
Proof.
  assert (I : forall (evs : list stdin_event) (s : txs),
             (tx_transmitting s = false ->
              tx_out s = [] \/ last (tx_out s) (spec_flush p) = spec_flush p) ->
             tx_transmitting (tx_loop p evs s) = false ->
             tx_out (tx_loop p evs s) = [] \/
             last (tx_out (tx_loop p evs s)) (spec_flush p) = spec_flush p).
  { induction evs as [|ev evs IH]; intros s Hs; [exact Hs|].
    cbn [tx_loop]. apply IH.
    destruct ev as [c|]; cbn [tx_event].
    - destruct (tx_char_spec p c s) as (_ & T). congruence.
    - destruct (timer_armed s); [|exact Hs].
      intros _. right.
      unfold tx_stop_transmit_sighandler. cbn [tx_out].
      rewrite !app_assoc. apply last_app_singleton. }
  intros s. unfold s, fsk_transmit_stdin.
  set (s1 := tx_loop p input (mk_tx_state false false sh [])).
  assert (I1 : tx_transmitting s1 = false ->
               tx_out s1 = [] \/ last (tx_out s1) (spec_flush p) = spec_flush p).
  { apply I. intros _. left. reflexivity. }
  destruct (tx_interactive p); cbn [tx_transmitting tx_out];
    destruct (tx_transmitting s1) eqn:T; cbn [negb];
    unfold tx_stop_transmit_sighandler; cbn [tx_transmitting tx_out];
    (split; [first [reflexivity|exact T]|]);
    try (apply I1; reflexivity);
    right; rewrite !app_assoc; apply last_app_singleton.
Qed.

Lemma uint_char_low_bits (c : Z) :
  0 <= c < 256 -> uint (to_char c) mod 2 ^ 8 = c.
Proof.
  intros H. unfold uint, to_char.
  rewrite (Z.mod_small c 256) by lia.
  destruct (c <? 128) eqn:E.
  - rewrite (Z.mod_small c (2 ^ 32)) by lia. apply Z.mod_small. lia.
  - replace ((c - 256) mod 2 ^ 32) with (c + (2 ^ 32 - 256)).
    + replace (c + (2 ^ 32 - 256)) with (c + 16777215 * 2 ^ 8) by lia.
      rewrite Z_mod_plus_full. apply Z.mod_small. lia.
    + apply Z.mod_unique with (q := -1); lia.
Qed.

(** X4.  With 8 data bits the ASCII encoder is 8-bit clean: a byte [c] of
    0..255 is sent as one frame that carries the eight bits of [c], also
    when [c >= 128] and the [char] the encoder stores is negative. *)
Theorem ascii8_frame_carries_byte (p : tx_params) (sh : shift) (c : Z) :
  framebits_encoder p = Ascii8 ->
  tx_n_data_bits p = 8 ->
  0 <= c < 256 ->
  map (spec_word_frame p) (fst (framebits_encode (framebits_encoder p) sh c))
  = [spec_word_frame p c].
Proof.
  intros E D H. rewrite E. cbn [framebits_encode fst framebits_encode_ascii8 map].
  f_equal. unfold spec_word_frame. rewrite D. f_equal. f_equal.
  apply map_ext_in. intros i Hi. apply in_seq in Hi.
  f_equal.
  rewrite <- (Z.mod_pow2_bits_low (uint (to_char c)) 8) by lia.
  rewrite uint_char_low_bits by exact H. reflexivity.
Qed.

End TransmitterRuns.

(** ** The test tones *)

Lemma test_tone_loop_total (count : nat) (nframes : Z) :
  Tx.total_nsamples (Tx.test_tone_loop count nframes)
    = Z.of_nat count * (2 * (nframes / 2)) /\
  List.length (Tx.test_tone_loop count nframes) = (2 * count)%nat.
Proof.
  induction count as [|count [IH1 IH2]]; [split; reflexivity|].
  cbn [Tx.test_tone_loop Tx.total_nsamples Tx.tone_nsamples List.length].
  rewrite IH1, IH2. split; lia.
Qed.

(** X5.  At a sample rate that is a multiple of 20, and for fewer than
    2^31 turns of its loop, [generate_test_tones] sends [20 * duration_sec]
    tones that add up to exactly [duration_sec] seconds of samples; at a
    sample rate below 10 it divides by zero. *)
Theorem test_tones_last_duration_sec (sample_rate duration_sec k : Z) :
  0 < k ->
  sample_rate = 20 * k ->
  sample_rate < 2 ^ 32 ->
  0 <= duration_sec ->
  10 * duration_sec < 2 ^ 31 ->
  (exists ts,
     Tx.generate_test_tones sample_rate duration_sec = Some ts /\
     Tx.total_nsamples ts = sample_rate * duration_sec /\
     Z.of_nat (List.length ts) = 20 * duration_sec) /\
  (forall low, 0 <= low < 10 -> Tx.generate_test_tones low duration_sec = None).
Proof.
  intros Hk -> Hs Hd Hb. split.
  - unfold Tx.generate_test_tones.
    assert (N : 20 * k / 10 = 2 * k).
    { replace (20 * k) with (2 * k * 10) by lia. apply Z.div_mul. lia. }
    rewrite N.
    assert (U : uint (2 * k) = 2 * k) by (apply uint_small; lia).
    rewrite U. cbv zeta.
    assert (Q : 20 * k / (2 * k) = 10).
    { replace (20 * k) with (10 * (2 * k)) by lia. apply Z.div_mul. lia. }
    rewrite Q.
    assert (U10 : uint 10 = 10) by reflexivity.
    rewrite U10.
    assert (Ud : uint (10 * duration_sec) = 10 * duration_sec)
      by (apply uint_small; lia).
    rewrite Ud.
    destruct (2 * k =? 0) eqn:Z0; [apply Z.eqb_eq in Z0; lia|].
    destruct (2 ^ 31 <=? 10 * duration_sec) eqn:O;
      [apply Z.leb_le in O; lia|].
    eexists. split; [reflexivity|].
    destruct (test_tone_loop_total (Z.to_nat (10 * duration_sec)) (2 * k))
      as [T L].
    rewrite T, L.
    replace (2 * k / 2) with k by (symmetry; rewrite Z.mul_comm; apply Z.div_mul; lia).
    rewrite Nat2Z.inj_mul, Z2Nat.id by lia. split; lia.
  - intros low Hl. unfold Tx.generate_test_tones.
    rewrite (Z.div_small low 10) by lia. reflexivity.
Qed.

(** ** The ASCII decoder *)

Lemma printable_char_printable (ch : Z) : printable (printable_char ch) = true.
Proof.
  unfold printable_char. fold (printable ch).
  destruct (printable ch) eqn:E; [exact E|reflexivity].
Qed.

Lemma data_bits_of_frame (bits c : Z) :
  0 <= c < 256 ->
  (forall i, 0 <= i < 8 -> Z.testbit bits (i + 2) = Z.testbit c i) ->
  Z.land (Z.shiftr bits 2) 255 = c.
Proof.
  intros Hc Hb.
  change 255 with (Z.ones 8). rewrite Z.land_ones by lia.
  transitivity (c mod 2 ^ 8); [|apply Z.mod_small; lia].
  apply Z.bits_inj'. intros n Hn.
  destruct (Z.lt_ge_cases n 8) as [Lt|Ge].
  - rewrite !Z.mod_pow2_bits_low by lia.
    rewrite Z.shiftr_spec by lia. apply Hb. lia.
  - rewrite !Z.mod_pow2_bits_high by lia. reflexivity.
Qed.

(** X6.  The ASCII round trip: whatever the framing bits and the bits above
    them, when the eight data bits of a located frame (bits 2 to 9, the
    least significant first) are those of a byte [c] of 0..255 and the plan
    is not one of 5 data bits, the decoder is called on [c] itself, no
    assert fails, and it stores the one [char] of value [c]. *)
Theorem ascii8_decodes_the_byte_sent (plan : fsk_plan) (bits c : Z) :
  n_data_bits plan <> 5 ->
  0 <= c < 256 ->
  (forall i, 0 <= i < 8 -> Z.testbit bits (i + 2) = Z.testbit c i) ->
  chop_framing_bits plan bits = c /\
  framebits_decode_ascii8 (Some tt) 4096 (chop_framing_bits plan bits)
    = Some [to_char c].
Proof.
  intros D Hc Hb.
  assert (E : chop_framing_bits plan bits = c).
  { unfold chop_framing_bits.
    destruct (n_data_bits plan =? 5) eqn:E5; [apply Z.eqb_eq in E5; congruence|].
    apply data_bits_of_frame; assumption. }
  split; [exact E|]. rewrite E.
  unfold framebits_decode_ascii8.
  replace (Z.land c (Z.lnot 255)) with 0; [reflexivity|].
  rewrite <- E. symmetry.
  apply (proj1 (chop_framing_bits_fits plan bits)).
Qed.

(** ** The receive loop over a run *)

Section ReceiverRuns.
Context {stream shift : Type}.
Context {FL : FskLib} {SA : SimpleAudio stream} {BL : BaudotLib shift}.

#[local] Abbreviation rstate := (@rx_state stream shift).

(** What holds at the start and is kept by every complete iteration holds
    after any number of iterations. *)
Lemma rx_iterate_invariant (P : rstate -> Prop) (c : settings) :
  (forall s s' : rstate,
     P s -> loop_body c s = Next s' \/ loop_body c s = Continue s' -> P s') ->
  forall (n : nat) (s0 s : rstate),
    P s0 -> rx_iterate n c s0 = Some s -> P s.
Proof.
  intros Step n. induction n as [|n IH]; intros s0 s H0 R.
  - inversion R. subst. exact H0.
  - cbn [rx_iterate] in R.
    destruct (loop_body c s0) as [s1|s1|s1| |] eqn:B; try discriminate;
      apply (IH s1 s); auto; apply (Step s0 s1 H0); auto.
Qed.

(** A loop that is left is left by the [break] of some iteration. *)
Lemma rx_loop_left (fuel : nat) (c : settings) (s0 s' : rstate) :
  rx_loop fuel c s0 = Left s' ->
  exists (n : nat) (s : rstate),
    rx_iterate n c s0 = Some s /\ loop_body c s = Break s'.
Proof.
  revert s0. induction fuel as [|fuel IH]; intros s0 R; [discriminate|].
  cbn [rx_loop] in R.
  destruct (loop_body c s0) as [s1|s1|s1| |] eqn:B; try discriminate.
  - destruct (IH s1 R) as (n & s & I & L).
    exists (S n), s. cbn [rx_iterate]. rewrite B. auto.
  - destruct (IH s1 R) as (n & s & I & L).
    exists (S n), s. cbn [rx_iterate]. rewrite B. auto.
  - inversion R. subst. exists O, s0. auto.
Qed.

Lemma uint_of_float_nonneg (x : spec_float) : 0 <= uint_of_float x < 2 ^ 32.
Proof. unfold uint_of_float, uint. apply Z.mod_pos_bound. reflexivity. Qed.

(** The accepting branch, without an assumption on the plan. *)
Lemma accept_frame_effects (c : settings) (s s' : rstate) (fr : frame)
    (bits : Z) :
  accept_frame c s fr bits = Next s' ->
  carrier (stats s') = true /\
  stderr s' =
    stderr s ++ (if carrier (stats s) || quiet_mode c then []
                 else [carrier_line c (fskp s)]) /\
  (exists (sh : shift) (bytes : list Z),
     framebits_decode (bfsk_framebits c) sh (Some tt) 4096 bits
       = Some (bytes, baudot s') /\
     stdout s' = stdout s ++ map printable_char bytes) /\
  fskp s' = fskp s /\ window s' = window s /\
  carrier_band s' = carrier_band s /\ ret s' = ret s /\
  0 <= advance s'.
Proof.
  unfold accept_frame.
  destruct (carrier (stats s)) eqn:C; cbn [bind].
  - cbn [baudot set_stats set_noconfidence set_advance].
    destruct (framebits_decode (bfsk_framebits c) (baudot s) (Some tt) 4096 bits)
      as [[bytes sh]|] eqn:D; [|discriminate].
    intros [= <-]. cbn.
    repeat split; auto; try (symmetry; apply app_nil_r);
      try apply uint_of_float_nonneg.
    exists (baudot s), bytes. auto.
  - destruct (framebits_decode (bfsk_framebits c) _ None 0 0)
      as [[b0 sh0]|] eqn:R; [|discriminate].
    cbn [bind baudot set_stats set_noconfidence set_advance set_baudot].
    destruct (framebits_decode (bfsk_framebits c) sh0 (Some tt) 4096 bits)
      as [[bytes sh]|] eqn:D; [|discriminate].
    intros [= <-].
    destruct (quiet_mode c); cbn;
      repeat split; auto; try (symmetry; apply app_nil_r);
      try apply uint_of_float_nonneg;
      exists sh0, bytes; auto.
Qed.

Lemma loop_body_stdout (c : settings) (s : rstate) :
  match loop_body c s with
  | Next s' =>
      exists (s1 : rstate) (fr : frame) (sh : shift) (bytes : list Z),
        locate_frame c s = Next (s1, fr) /\
        framebits_decode (bfsk_framebits c) sh (Some tt) 4096
          (chop_framing_bits (fskp s1) (frame_bits fr)) = Some (bytes, baudot s') /\
        stdout s' = stdout s ++ map printable_char bytes
  | Continue s' | Break s' => stdout s' = stdout s
  | _ => True
  end.
Proof.
  pose proof (loop_body_cases c s) as B.
  pose proof (locate_frame_side c s) as L.
  destruct (loop_body c s) as [s'|s'|s'| |]; auto.
  - destruct B as (s1 & fr & B & _ & A). rewrite B in L.
    destruct L as ((_ & _ & _ & O & _) & _).
    destruct (accept_frame_effects c s1 s' fr _ A)
      as (_ & _ & (sh & bytes & D & O') & _).
    exists s1, fr, sh, bytes. rewrite <- O. auto.
  - destruct B as [B|(s1 & fr & B & _ & ->)]; rewrite B in L.
    + destruct L as (_ & _ & _ & O & _). exact O.
    + destruct L as ((_ & _ & _ & O & _) & _).
      destruct (no_confidence_fields c s1) as (_ & _ & O1 & _). congruence.
  - rewrite B in L. destruct L as (_ & _ & _ & O). exact O.
Qed.

(** X7.  Every byte the receiver has written to stdout, after any number of
    iterations and in the iteration that leaves the loop, is printable or
    white space ([isprint] or [isspace]): what the decoder yields is
    replaced by a dot otherwise. *)
Theorem stdout_is_printable
    (c : settings) (sa0 : stream) (plan : fsk_plan) (sh : shift)
    (contents : list float) (n : nat) (s : rstate) :
  rx_iterate n c (rx_init c sa0 plan sh contents) = Some s ->
  Forall (fun ch => printable ch = true) (stdout s) /\
  (forall s' : rstate,
     loop_body c s = Break s' ->
     Forall (fun ch => printable ch = true) (stdout s')).
Proof.
  intros R.
  assert (I : Forall (fun ch => printable ch = true) (stdout s)).
  { apply (rx_iterate_invariant
             (fun s => Forall (fun ch => printable ch = true) (stdout s))
             c) with (n := n) (s0 := rx_init c sa0 plan sh contents);
      [|constructor|exact R].
    intros t t' Ht Hb.
    pose proof (loop_body_stdout c t) as O.
    destruct Hb as [Hb|Hb]; rewrite Hb in O.
    - destruct O as (_ & _ & _ & bytes & _ & _ & ->).
      apply Forall_app. split; [exact Ht|].
      apply Forall_forall. intros ch Hin. apply in_map_iff in Hin.
      destruct Hin as (b & <- & _). apply printable_char_printable.
    - rewrite O. exact Ht. }
  split; [exact I|].
  intros s' Hb. pose proof (loop_body_stdout c s) as O. rewrite Hb in O.
  rewrite O. exact I.
Qed.

(** X8.  With the ASCII decoder every accepted frame prints exactly one
    character, the data bits of the frame as a [char] or a dot in its
    place, and an iteration that accepts no frame prints none. *)
Theorem ascii8_one_character_per_frame (c : settings) (s : rstate) :
  bfsk_framebits c = Ascii8 ->
  match loop_body c s with
  | Next s' =>
      exists (s1 : rstate) (fr : frame),
        locate_frame c s = Next (s1, fr) /\
        stdout s' =
          stdout s
            ++ [printable_char
                  (to_char (chop_framing_bits (fskp s1) (frame_bits fr)))]
  | Continue s' | Break s' => stdout s' = stdout s
  | _ => True
  end.
Proof.
  intros E. pose proof (loop_body_stdout c s) as O.
  destruct (loop_body c s) as [s'|s'|s'| |]; auto.
  destruct O as (s1 & fr & sh & bytes & L & D & O).
  exists s1, fr. split; [exact L|].
  rewrite E in D. cbn [framebits_decode] in D.
  unfold framebits_decode_ascii8 in D.
  destruct (negb (Z.land _ _ =? 0)); [discriminate|].
  cbn in D. inversion D. subst. exact O.
Qed.

(** *** What goes to stderr, and the value [main] returns *)

Lemma count_lines_app (f : stderr_line -> bool) (a b : list stderr_line) :
  count_lines f (a ++ b) = count_lines f a + count_lines f b.
Proof.
  unfold count_lines. rewrite filter_app, length_app. lia.
Qed.

Lemma carrier_line_is_carrier (c : settings) (plan : fsk_plan) :
  is_carrier_line (carrier_line c plan) = true /\
  is_nocarrier_line (carrier_line c plan) = false /\
  is_text (carrier_line c plan) = false.
Proof.
  unfold carrier_line. destruct (fge _ _); repeat split.
Qed.

Lemma read_samples_break (c : settings) (s s' : rstate) :
  read_samples c s = Break s' ->
  (ret s' = ret s /\ stderr s' = stderr s) \/
  (ret s' = -1 /\ stderr s' = stderr s ++ [Text read_error_message]).
Proof.
  unfold read_samples.
  destruct (negb (0 <? read_nsamples (window s))); [discriminate|].
  destruct (negb (size_t _ <=? _)); [discriminate|].
  destruct (simpleaudio_read _ _) as [[r data] sa'].
  destruct (r <? 0).
  - intros [= <-]. right. split; reflexivity.
  - destruct (0 <? r);
      (destruct (samples_nvalid _ =? 0); [|discriminate]);
      intros [= <-]; left; split; reflexivity.
Qed.

Lemma locate_frame_break (c : settings) (s s' : rstate) :
  locate_frame c s = Break s' ->
  (ret s' = ret s /\ stderr s' = stderr s) \/
  (ret s' = -1 /\ stderr s' = stderr s ++ [Text read_error_message]).
Proof.
  unfold locate_frame.
  pose proof (shift_samples_side c s) as S1.
  destruct (shift_samples c s) as [s1|s1|s1| |]; cbn [bind]; try discriminate.
  2:{ intros [= <-]. left. destruct S1 as (_ & _ & _ & _ & E & R). auto. }
  destruct S1 as (_ & _ & _ & _ & E1 & R1).
  pose proof (read_samples_side c s1) as S2.
  destruct (read_samples c s1) as [s2|s2|s2| |] eqn:Rd; cbn [bind];
    try discriminate.
  2:{ intros [= <-]. destruct (read_samples_break c s1 s2 Rd) as [[A B]|[A B]];
        [left|right]; split; congruence. }
  destruct S2 as (_ & _ & _ & _ & E2 & R2).
  pose proof (autodetect_carrier_side c s2) as S3.
  destruct (autodetect_carrier c s2) as [s3|s3|s3| |]; cbn [bind];
    try discriminate.
  2:{ intros [= <-]. left. destruct S3 as (_ & _ & _ & _ & E3 & R3).
      split; congruence. }
  destruct S3 as (_ & _ & _ & _ & E3 & R3).
  destruct (find_frame_cases c s3) as [[E _]|[E _]]; rewrite E; cbn [bind];
    [|discriminate].
  intros [= <-]. left. split; congruence.
Qed.

(** What one iteration does to [ret], to the carrier flag and to stderr. *)
Lemma loop_body_stderr (c : settings) (s : rstate) :
  match loop_body c s with
  | Next s' =>
      ret s' = ret s /\ carrier (stats s') = true /\
      exists l, is_carrier_line l = true /\
        stderr s' =
          stderr s ++ (if carrier (stats s) || quiet_mode c then [] else [l])
  | Continue s' =>
      ret s' = ret s /\
      ((stats s' = stats s /\ stderr s' = stderr s) \/
       (carrier (stats s) = true /\ stats s' = no_carrier /\
        exists l, is_nocarrier_line l = true /\
          stderr s' = stderr s ++ (if quiet_mode c then [] else [l])))
  | Break s' =>
      stats s' = stats s /\
      ((ret s' = ret s /\ stderr s' = stderr s) \/
       (ret s' = -1 /\ stderr s' = stderr s ++ [Text read_error_message]))
  | _ => True
  end.
Proof.
  pose proof (loop_body_cases c s) as B.
  pose proof (locate_frame_side c s) as L.
  pose proof (loop_body_ret c s) as R.
  destruct (loop_body c s) as [s'|s'|s'| |]; auto.
  - destruct B as (s1 & fr & B & _ & A). rewrite B in L.
    destruct L as ((St & _ & _ & _ & Er & _) & _).
    destruct (accept_frame_effects c s1 s' fr _ A) as (C & E & _).
    split; [exact R|]. split; [exact C|].
    exists (carrier_line c (fskp s1)).
    split; [apply carrier_line_is_carrier|].
    rewrite E, St, Er. reflexivity.
  - split; [exact R|].
    destruct B as [B|(s1 & fr & B & _ & ->)]; rewrite B in L.
    + left. destruct L as (St & _ & _ & _ & Er & _). auto.
    + destruct L as ((St & Nc & _ & _ & Er & _) & _).
      destruct (Z_le_gt_dec (uint (noconfidence s1 + 1))
                            FSK_MAX_NOCONFIDENCE_BITS) as [Le|Gt].
      * destruct (no_confidence_below c s1 Le) as (S1 & E1 & _).
        left. split; congruence.
      * destruct (no_confidence_above c s1) as (_ & Ab); [lia|].
        destruct (carrier (stats s1)) eqn:C.
        -- right. destruct Ab as (S1 & E1).
           split; [congruence|]. split; [exact S1|].
           exists (nocarrier_line c s1). split; [reflexivity|]. congruence.
        -- left. destruct Ab as (S1 & E1). split; congruence.
  - pose proof (locate_frame_break c s s' B) as K. rewrite B in L.
    destruct L as (St & _). auto.
Qed.

Lemma stderr_in_step_kept (c : settings) (s s' : rstate) :
  stderr_in_step c s ->
  loop_body c s = Next s' \/ loop_body c s = Continue s' ->
  stderr_in_step c s'.
Proof.
  intros (R & T & Q & A) Hb.
  pose proof (loop_body_stderr c s) as E.
  unfold stderr_in_step.
  destruct Hb as [Hb|Hb]; rewrite Hb in E.
  - destruct E as (R' & C' & l & Hl & ->).
    rewrite !count_lines_app, C', R'.
    destruct (carrier (stats s)), (quiet_mode c), l; try discriminate;
      cbn in *; repeat split; try lia; try (intros; lia); auto;
      try discriminate.
  - destruct E as (R' & [(S' & ->)|(C & S' & l & Hl & ->)]).
    + rewrite S', R'. auto.
    + rewrite !count_lines_app, S', R'. rewrite C in A.
      destruct (quiet_mode c), l; try discriminate;
        cbn in *; repeat split; try lia; try (intros; lia); auto;
        try discriminate.
Qed.

Lemma stderr_in_step_run
    (c : settings) (sa0 : stream) (plan : fsk_plan) (sh : shift)
    (contents : list float) (n : nat) (s : rstate) :
  rx_iterate n c (rx_init c sa0 plan sh contents) = Some s ->
  stderr_in_step c s.
Proof.
  intros I.
  eapply rx_iterate_invariant; [apply stderr_in_step_kept| |exact I].
  unfold stderr_in_step. cbn. repeat split; auto.
Qed.

(** X9.  When [main] returns from the receiver, stderr holds as many
    NOCARRIER reports as CARRIER lines: every carrier announced has been
    reported lost, the last one after the loop; in quiet mode it holds
    neither. *)
Theorem carrier_lines_are_paired
    (c : settings) (sa0 : stream) (plan : fsk_plan) (sh : shift)
    (contents : list float) (fuel : nat) (rv : Z) (s : rstate) :
  main_rx fuel c (rx_init c sa0 plan sh contents) = Some (rv, s) ->
  count_lines is_carrier_line (stderr s)
    = count_lines is_nocarrier_line (stderr s) /\
  (quiet_mode c = true -> count_lines is_carrier_line (stderr s) = 0).
Proof.
  unfold main_rx. intros M.
  destruct (rx_loop fuel c _) as [s'| | |] eqn:L; try discriminate.
  inversion M. subst rv s. clear M.
  destruct (rx_loop_left fuel c _ s' L) as (n & sk & I & B).
  pose proof (stderr_in_step_run c sa0 plan sh contents n sk I) as K.
  destruct K as (R & T & Q & A).
  pose proof (loop_body_stderr c sk) as E. rewrite B in E.
  destruct E as (St & E).
  assert (Cs : count_lines is_carrier_line (stderr s')
               = count_lines is_carrier_line (stderr sk) /\
               count_lines is_nocarrier_line (stderr s')
               = count_lines is_nocarrier_line (stderr sk)).
  { destruct E as [(_ & ->)|(_ & ->)]; [auto|].
    rewrite !count_lines_app. cbn. split; lia. }
  destruct Cs as (Cc & Cn).
  rewrite rx_finish_stderr, !count_lines_app, Cc, Cn, St.
  destruct (carrier (stats sk)), (quiet_mode c); cbn in *;
    split; try lia; try (intros; lia); auto; try discriminate.
Qed.

(** X10.  The receiver returns 0 or -1, and it returns -1 exactly when it
    has printed "simpleaudio_read: error", which it prints at most
    once. *)
Theorem return_value_tells_read_error
    (c : settings) (sa0 : stream) (plan : fsk_plan) (sh : shift)
    (contents : list float) (fuel : nat) (rv : Z) (s : rstate) :
  main_rx fuel c (rx_init c sa0 plan sh contents) = Some (rv, s) ->
  (rv = 0 /\ count_lines is_text (stderr s) = 0) \/
  (rv = -1 /\ count_lines is_text (stderr s) = 1 /\
   In (Text read_error_message) (stderr s)).
Proof.
  unfold main_rx. intros M.
  destruct (rx_loop fuel c _) as [s'| | |] eqn:L; try discriminate.
  inversion M. subst rv s. clear M.
  destruct (rx_loop_left fuel c _ s' L) as (n & sk & I & B).
  pose proof (stderr_in_step_run c sa0 plan sh contents n sk I) as K.
  destruct K as (R & T & _).
  pose proof (loop_body_stderr c sk) as E. rewrite B in E.
  destruct E as (St & E).
  rewrite rx_finish_stderr, count_lines_app.
  assert (Z0 : count_lines is_text
                 (if carrier (stats s') && negb (quiet_mode c)
                  then [nocarrier_line c s'] else []) = 0).
  { destruct (carrier (stats s') && negb (quiet_mode c)); reflexivity. }
  rewrite Z0.
  destruct E as [(R' & E')|(R' & E')].
  - left. rewrite E', T. split; [congruence|lia].
  - right. rewrite E', count_lines_app, T. cbn.
    split; [exact R'|]. split; [reflexivity|].
    apply in_or_app. left. apply in_or_app. right. left. reflexivity.
Qed.

(** *** The sample buffer *)

Lemma samplebuf_size_range (c : settings) : 0 <= samplebuf_size c < 2 ^ 64.
Proof.
  unfold samplebuf_size, size_t_of_float, size_t.
  apply Z.mod_pos_bound. reflexivity.
Qed.

Lemma overwrite_length (buf data : list float) :
  List.length (overwrite buf data) = List.length buf.
Proof.
  revert data. induction buf as [|x buf IH]; intros [|d data]; cbn; auto.
Qed.

Lemma store_length (buf : list float) (off : Z) (data : list float) :
  List.length (store buf off data) = List.length buf.
Proof.
  unfold store. rewrite length_app, overwrite_length, <- length_app.
  rewrite firstn_skipn. reflexivity.
Qed.

Lemma shift_samples_buffer (c : settings) (s : rstate) :
  buffer_ok c s ->
  match shift_samples c s with
  | Next s' | Continue s' | Break s' =>
      buffer_ok c s' /\ fskp s' = fskp s /\ carrier_band s' = carrier_band s /\
      sa s' = sa s
  | _ => True
  end.
Proof.
  intros ((Len & Rp & Rn & Sum & Nv) & Adv).
  pose proof (samplebuf_size_range c) as Sz.
  unfold shift_samples.
  destruct (negb (advance s <=? samplebuf_size c)) eqn:A0; auto.
  apply negb_false_iff, Z.leb_le in A0.
  destruct (advance s =? samplebuf_size c) eqn:A1.
  - cbn. unfold buffer_ok, window_ok. cbn. repeat split; auto; lia.
  - destruct (advance s =? 0) eqn:A2.
    + unfold buffer_ok, window_ok. repeat split; auto; lia.
    + destruct (samples_nvalid (window s) <? advance s) eqn:A3.
      * unfold buffer_ok, window_ok. repeat split; auto; lia.
      * apply Z.eqb_neq in A1, A2. apply Z.ltb_ge in A3.
        unfold buffer_ok, window_ok. cbn.
        repeat split; auto; try lia.
        rewrite length_app, length_firstn, !length_skipn, Len. lia.
Qed.

Lemma read_samples_buffer (c : settings) (s : rstate) :
  read_contract ->
  samplebuf_size c < 2 ^ 63 ->
  buffer_ok c s ->
  match read_samples c s with
  | Next s' | Continue s' | Break s' =>
      buffer_ok c s' /\ fskp s' = fskp s /\ carrier_band s' = carrier_band s
  | _ => True
  end.
Proof.
  intros RC Sz ((Len & Rp & Rn & Sum & Nv) & Adv).
  unfold read_samples.
  destruct (negb (0 <? read_nsamples (window s))) eqn:A0; auto.
  destruct (negb (size_t _ <=? _)) eqn:A1; auto.
  apply negb_false_iff, Z.leb_le in A1.
  unfold size_t in A1. rewrite Z.mod_small in A1 by lia.
  apply negb_false_iff, Z.ltb_lt in A0.
  pose proof (RC (sa s) (read_nsamples (window s)) A0) as Le.
  destruct (simpleaudio_read (sa s) (read_nsamples (window s)))
    as [[r data] sa'].
  cbn [fst snd] in Le.
  destruct (r <? 0) eqn:R0.
  - unfold buffer_ok, window_ok. cbn.
    rewrite store_length. repeat split; auto; lia.
  - apply Z.ltb_ge in R0.
    destruct (0 <? r) eqn:R1; cbn [window set_window set_sa samples_nvalid].
    + assert (E : size_t (samples_nvalid (window s) + r)
                  = samples_nvalid (window s) + r)
        by (unfold size_t; apply Z.mod_small; lia).
      destruct (size_t (samples_nvalid (window s) + r) =? 0);
        unfold buffer_ok, window_ok; cbn; rewrite store_length, E;
        repeat split; auto; lia.
    + destruct (samples_nvalid (window s) =? 0);
        unfold buffer_ok, window_ok; cbn; rewrite store_length;
        repeat split; auto; lia.
Qed.

(** What the auto-detection does. *)
Lemma autodetect_carrier_cases (c : settings) (s : rstate) :
  match autodetect_carrier c s with
  | Next s' =>
      window s' = window s /\
      ((autodetect_runs c s = false /\ s' = s) \/
       (autodetect_runs c s = true /\
        0 <= carrier_band s' /\
        1 <= carrier_band s' + autodetect_b_shift c (fskp s) /\
        fskp s' =
          fsk_set_tones_by_bandshift (fskp s) (carrier_band s')
            (autodetect_b_shift c (fskp s)) /\
        0 <= advance s'))
  | Continue s' =>
      window s' = window s /\ autodetect_runs c s = true /\
      carrier_band s' < 0 /\ fskp s' = fskp s /\ 0 <= advance s'
  | Hang => autodetect_runs c s = true
  | _ => False
  end.
Proof.
  unfold autodetect_carrier. fold (autodetect_runs c s).
  destruct (autodetect_runs c s) eqn:Run; [|auto].
  destruct (scan_carrier _ _ _ _ _ _ _ _) as [[i band]|]; [|reflexivity].
  fold (autodetect_b_shift c (fskp s)).
  assert (A : 0 <= (if samples_nvalid (window s)
                       <? uint_of_float
                            (fadd (float_of_Z i)
                               (if fgt (nsamples_per_bit c)
                                       (float_of_Z (fftsize (fskp s)))
                                then float_of_Z (fftsize (fskp s))
                                else nsamples_per_bit c))
                    then uint (samples_nvalid (window s))
                    else uint_of_float
                           (fadd (float_of_Z i)
                              (if fgt (nsamples_per_bit c)
                                      (float_of_Z (fftsize (fskp s)))
                               then float_of_Z (fftsize (fskp s))
                               else nsamples_per_bit c)))).
  { destruct (_ <? _).
    - unfold uint. apply Z.mod_pos_bound. reflexivity.
    - apply uint_of_float_nonneg. }
  destruct (band <? 0) eqn:B0.
  - apply Z.ltb_lt in B0. cbn. repeat split; auto.
  - apply Z.ltb_ge in B0.
    destruct (band + autodetect_b_shift c (fskp s) <? 1) eqn:B1.
    + cbn. repeat split; auto; try lia.
    + apply Z.ltb_ge in B1. cbn. split; [reflexivity|]. right.
      repeat split; auto; try lia.
Qed.

Lemma shift_samples_rest (c : settings) (s : rstate) :
  match shift_samples c s with
  | Next s' | Continue s' | Break s' =>
      fskp s' = fskp s /\ carrier_band s' = carrier_band s
  | _ => True
  end.
Proof.
  unfold shift_samples. repeat break_if; cbn; auto.
Qed.

Lemma read_samples_rest (c : settings) (s : rstate) :
  match read_samples c s with
  | Next s' | Continue s' | Break s' =>
      fskp s' = fskp s /\ carrier_band s' = carrier_band s
  | _ => True
  end.
Proof.
  unfold read_samples.
  destruct (negb (0 <? read_nsamples (window s))); auto.
  destruct (negb (size_t _ <=? _)); auto.
  destruct (simpleaudio_read _ _) as [[r data] sa'].
  repeat break_if; cbn; auto.
Qed.

Lemma no_confidence_rest (c : settings) (s : rstate) :
  window (no_confidence c s) = window s /\
  fskp (no_confidence c s) = fskp s /\
  0 <= advance (no_confidence c s).
Proof.
  unfold no_confidence.
  repeat break_if; cbn; repeat split; apply uint_of_float_nonneg.
Qed.

Lemma autodetect_runs_same (c : settings) (s s' : rstate) :
  carrier_band s' = carrier_band s ->
  autodetect_runs c s' = autodetect_runs c s.
Proof. unfold autodetect_runs. intros ->. reflexivity. Qed.

(** The plan and the detected band up to the frame search. *)
Lemma locate_frame_plan (c : settings) (s : rstate) :
  match locate_frame c s with
  | Next (s1, fr) =>
      (autodetect_runs c s = false /\
       fskp s1 = fskp s /\ carrier_band s1 = carrier_band s) \/
      rebound c s s1
  | Continue s' =>
      autodetect_runs c s = true /\ carrier_band s' < 0 /\ fskp s' = fskp s
  | Break s' =>
      (fskp s' = fskp s /\ carrier_band s' = carrier_band s) \/
      rebound c s s'
  | _ => True
  end.
Proof.
  unfold locate_frame.
  pose proof (shift_samples_rest c s) as S1.
  destruct (shift_samples c s) as [s1|s1|s1| |] eqn:Sh; cbn [bind]; auto.
  2:{ pose proof (shift_samples_side c s) as X. rewrite Sh in X.
      unfold shift_samples in Sh. revert Sh. repeat break_if; discriminate. }
  destruct S1 as (F1 & B1).
  pose proof (read_samples_rest c s1) as S2.
  destruct (read_samples c s1) as [s2|s2|s2| |] eqn:Rd; cbn [bind]; auto.
  2:{ unfold read_samples in Rd. revert Rd.
      destruct (negb (0 <? read_nsamples (window s1))); [discriminate|].
      destruct (negb (size_t _ <=? _)); [discriminate|].
      destruct (simpleaudio_read _ _) as [[r data] sa'].
      repeat break_if; discriminate. }
  2:{ destruct S2 as (F2 & B2). left. split; congruence. }
  destruct S2 as (F2 & B2).
  assert (Run : autodetect_runs c s2 = autodetect_runs c s)
    by (apply autodetect_runs_same; congruence).
  pose proof (autodetect_carrier_cases c s2) as S3.
  destruct (autodetect_carrier c s2) as [s3|s3|s3| |]; cbn [bind]; auto;
    try contradiction.
  - assert (K : (autodetect_runs c s = false /\
                 fskp s3 = fskp s /\ carrier_band s3 = carrier_band s) \/
                rebound c s s3).
    { destruct S3 as (_ & [(R & ->)|(R & B & Sp & F & _)]).
      - left. repeat split; congruence.
      - right. unfold rebound. rewrite <- Run, <- F1, <- F2.
        repeat split; auto. }
    destruct (find_frame_cases c s3) as [[E _]|[E _]]; rewrite E; cbn [bind].
    + destruct K as [(_ & K)|K]; auto.
    + exact K.
  - destruct S3 as (_ & R & B & F & _).
    repeat split; try congruence.
Qed.

Lemma locate_frame_buffer (c : settings) (s : rstate) :
  read_contract ->
  samplebuf_size c < 2 ^ 63 ->
  buffer_ok c s ->
  match locate_frame c s with
  | Next (s', _) | Continue s' | Break s' => buffer_ok c s'
  | _ => True
  end.
Proof.
  intros RC Sz Ok. unfold locate_frame.
  pose proof (shift_samples_buffer c s Ok) as S1.
  destruct (shift_samples c s) as [s1|s1|s1| |]; cbn [bind]; auto;
    try (destruct S1 as (S1 & _); exact S1).
  destruct S1 as (Ok1 & _).
  pose proof (read_samples_buffer c s1 RC Sz Ok1) as S2.
  destruct (read_samples c s1) as [s2|s2|s2| |]; cbn [bind]; auto;
    try (destruct S2 as (S2 & _); exact S2).
  destruct S2 as (Ok2 & _).
  pose proof (autodetect_carrier_cases c s2) as S3.
  destruct (autodetect_carrier c s2) as [s3|s3|s3| |]; cbn [bind]; auto;
    try contradiction.
  - assert (Ok3 : buffer_ok c s3).
    { destruct S3 as (W & [(_ & ->)|(_ & _ & _ & _ & A)]); [exact Ok2|].
      destruct Ok2 as (Ok2 & _). split; [rewrite W; exact Ok2|exact A]. }
    destruct (find_frame_cases c s3) as [[E _]|[E _]]; rewrite E; cbn [bind];
      exact Ok3.
  - destruct S3 as (W & _ & _ & _ & A).
    destruct Ok2 as (Ok2 & _). split; [rewrite W; exact Ok2|exact A].
Qed.

Lemma loop_body_buffer (c : settings) (s s' : rstate) :
  read_contract ->
  samplebuf_size c < 2 ^ 63 ->
  buffer_ok c s ->
  loop_body c s = Next s' \/ loop_body c s = Continue s' ->
  buffer_ok c s'.
Proof.
  intros RC Sz Ok Hb.
  pose proof (loop_body_cases c s) as B.
  pose proof (locate_frame_buffer c s RC Sz Ok) as L.
  destruct Hb as [Hb|Hb]; rewrite Hb in B.
  - destruct B as (s1 & fr & B & _ & A). rewrite B in L.
    destruct (accept_frame_effects c s1 s' fr _ A)
      as (_ & _ & _ & _ & W & _ & _ & Adv).
    destruct L as (L & _). split; [rewrite W; exact L|exact Adv].
  - destruct B as [B|(s1 & fr & B & _ & ->)]; rewrite B in L; [exact L|].
    destruct (no_confidence_rest c s1) as (W & _ & Adv).
    destruct L as (L & _). split; [rewrite W; exact L|exact Adv].
Qed.

(** X11.  When [simpleaudio_read] never returns more than it was asked for
    and the buffer is smaller than 2^63 samples, then after every iteration
    the number of valid samples is within the size of the buffer, the
    samples the next read asks for end exactly at the end of the buffer,
    and so what that read stores, once past the assert [read_nsamples > 0],
    lies inside the buffer. *)
Theorem sample_buffer_stays_in_bounds
    (c : settings) (sa0 : stream) (plan : fsk_plan) (sh : shift)
    (contents : list float) (n : nat) (s : rstate) :
  read_contract ->
  samplebuf_size c < 2 ^ 63 ->
  List.length contents = Z.to_nat (samplebuf_size c) ->
  rx_iterate n c (rx_init c sa0 plan sh contents) = Some s ->
  window_ok c (window s) /\
  (forall s1 : rstate,
     shift_samples c s = Next s1 ->
     window_ok c (window s1) /\
     (0 < read_nsamples (window s1) ->
      samples_readptr (window s1)
        + fst (fst (simpleaudio_read (sa s1) (read_nsamples (window s1))))
        <= samplebuf_size c)).
Proof.
  intros RC Sz Len R.
  pose proof (samplebuf_size_range c) as Rg.
  assert (Ok : buffer_ok c s).
  { eapply rx_iterate_invariant; [|  |exact R].
    - intros t t' Ht Hb. exact (loop_body_buffer c t t' RC Sz Ht Hb).
    - unfold buffer_ok, window_ok. cbn. repeat split; auto; lia. }
  split; [exact (proj1 Ok)|].
  intros s1 Sh.
  pose proof (shift_samples_buffer c s Ok) as S1. rewrite Sh in S1.
  destruct S1 as ((W & _) & _). split; [exact W|].
  destruct W as (_ & _ & _ & Sum & _).
  intros Pos.
  pose proof (RC (sa s1) (read_nsamples (window s1)) Pos) as Le. lia.
Qed.

(** X12.  A shift by [advance] samples, with [0 < advance < samplebuf_size]
    and [advance <= samples_nvalid], leaves [samples_nvalid - advance] valid
    samples and has the next read store its samples [samplebuf_size -
    samples_nvalid] places behind the last valid one: right behind it when
    the buffer was full, and with that many stale samples in between when
    it was not. *)
Theorem shift_places_the_read (c : settings) (s : rstate) :
  0 < advance s < samplebuf_size c ->
  advance s <= samples_nvalid (window s) ->
  exists s1 : rstate,
    shift_samples c s = Next s1 /\
    samples_nvalid (window s1) = samples_nvalid (window s) - advance s /\
    read_nsamples (window s1) = advance s /\
    samples_readptr (window s1) - samples_nvalid (window s1)
      = samplebuf_size c - samples_nvalid (window s).
Proof.
  intros A V. unfold shift_samples.
  assert (E0 : negb (advance s <=? samplebuf_size c) = false).
  { apply negb_false_iff, Z.leb_le. lia. }
  assert (E1 : (advance s =? samplebuf_size c) = false)
    by (apply Z.eqb_neq; lia).
  assert (E2 : (advance s =? 0) = false) by (apply Z.eqb_neq; lia).
  assert (E3 : (samples_nvalid (window s) <? advance s) = false)
    by (apply Z.ltb_ge; lia).
  rewrite E0, E1, E2, E3.
  eexists. split; [reflexivity|]. cbn. repeat split; lia.
Qed.

(** X13.  The tones of the plan are bound anew only by the auto-detection,
    only in an iteration that starts with no band detected, and only to a
    detected band [>= 0] whose space band [band + b_shift] is at least 1;
    when auto-detection is off the plan is the same after any number of
    iterations. *)
Theorem plan_rebound_only_by_autodetect (c : settings) (s0 : rstate) :
  (forall s' : rstate,
     loop_body c s0 = Next s' \/ loop_body c s0 = Continue s' \/
     loop_body c s0 = Break s' ->
     fskp s' = fskp s0 \/
     (autodetect_runs c s0 = true /\
      exists band,
        0 <= band /\ 1 <= band + autodetect_b_shift c (fskp s0) /\
        fskp s' =
          fsk_set_tones_by_bandshift (fskp s0) band
            (autodetect_b_shift c (fskp s0)))) /\
  (fgt (carrier_autodetect_threshold c) f_zero = false ->
   forall (n : nat) (s : rstate),
     rx_iterate n c s0 = Some s -> fskp s = fskp s0).
Proof.
  assert (Step : forall (s s' : rstate),
             loop_body c s = Next s' \/ loop_body c s = Continue s' \/
             loop_body c s = Break s' ->
             fskp s' = fskp s \/
             (autodetect_runs c s = true /\
              exists band,
                0 <= band /\ 1 <= band + autodetect_b_shift c (fskp s) /\
                fskp s' =
                  fsk_set_tones_by_bandshift (fskp s) band
                    (autodetect_b_shift c (fskp s)))).
  { intros s s' Hb.
    pose proof (loop_body_cases c s) as B.
    pose proof (locate_frame_plan c s) as L.
    assert (Via : forall s1 : rstate,
               (autodetect_runs c s = false /\
                fskp s1 = fskp s /\ carrier_band s1 = carrier_band s) \/
               (fskp s1 = fskp s /\ carrier_band s1 = carrier_band s) \/
               rebound c s s1 ->
               fskp s' = fskp s1 ->
               fskp s' = fskp s \/
               (autodetect_runs c s = true /\
                exists band,
                  0 <= band /\ 1 <= band + autodetect_b_shift c (fskp s) /\
                  fskp s' =
                    fsk_set_tones_by_bandshift (fskp s) band
                      (autodetect_b_shift c (fskp s)))).
    { intros s1 [(_ & F & _)|[(F & _)|(R & Bd & Sp & F)]] E.
      - left. congruence.
      - left. congruence.
      - right. split; [exact R|]. exists (carrier_band s1).
        repeat split; auto. congruence. }
    destruct Hb as [Hb|[Hb|Hb]]; rewrite Hb in B.
    - destruct B as (s1 & fr & B & _ & A). rewrite B in L.
      destruct (accept_frame_effects c s1 s' fr _ A) as (_ & _ & _ & F & _).
      apply (Via s1); [tauto|exact F].
    - destruct B as [B|(s1 & fr & B & _ & ->)]; rewrite B in L.
      + left. tauto.
      + destruct (no_confidence_rest c s1) as (_ & F & _).
        apply (Via s1); [tauto|exact F].
    - rewrite B in L. apply (Via s'); [tauto|reflexivity]. }
  split; [apply Step|].
  intros Off n s R.
  eapply (rx_iterate_invariant (fun s => fskp s = fskp s0));
    [|reflexivity|exact R].
  intros t t' Ht Hb.
  destruct (Step t t') as [F|(Run & _)]; [tauto|congruence|].
  unfold autodetect_runs in Run. rewrite Off in Run. discriminate.
Qed.

(** X14.  With auto-detection on, a carrier is only ever held on a detected
    band: after any number of iterations from the start, if the carrier is
    acquired then [carrier_band >= 0], so that the scan for a carrier does
    not run and the plan is not bound anew while the carrier lasts. *)
Theorem carrier_keeps_the_band
    (c : settings) (sa0 : stream) (plan : fsk_plan) (sh : shift)
    (contents : list float) (n : nat) (s : rstate) :
  rx_iterate n c (rx_init c sa0 plan sh contents) = Some s ->
  carrier (stats s) = true ->
  autodetect_runs c s = false /\
  (fgt (carrier_autodetect_threshold c) f_zero = true -> 0 <= carrier_band s).
Proof.
  intros R C.
  assert (P : band_pinned c s).
  { eapply rx_iterate_invariant; [| |exact R].
    - intros t t' Ht Hb. unfold band_pinned in *. intros On C'.
      pose proof (loop_body_cases c t) as B.
      pose proof (locate_frame_plan c t) as L.
      pose proof (locate_frame_side c t) as Sd.
      assert (Via : forall s1 : rstate,
                 (autodetect_runs c t = false /\
                  fskp s1 = fskp t /\ carrier_band s1 = carrier_band t) \/
                 rebound c t s1 ->
                 0 <= carrier_band s1).
      { intros s1 [(Run & _ & Bd)|(_ & Bd & _)]; [|exact Bd].
        unfold autodetect_runs in Run. rewrite On in Run. cbn in Run.
        apply Z.ltb_ge in Run. lia. }
      destruct Hb as [Hb|Hb]; rewrite Hb in B.
      + destruct B as (s1 & fr & B & _ & A). rewrite B in L.
        destruct (accept_frame_effects c s1 t' fr _ A)
          as (_ & _ & _ & _ & _ & Bd & _).
        rewrite Bd. apply Via. exact L.
      + destruct B as [B|(s1 & fr & B & _ & ->)]; rewrite B in L, Sd.
        * destruct L as (Run & Bd & _). destruct Sd as (St & _).
          unfold autodetect_runs in Run. rewrite On in Run. cbn in Run.
          apply Z.ltb_lt in Run. rewrite St in C'.
          specialize (Ht On C'). lia.
        * destruct (Z_le_gt_dec (uint (noconfidence s1 + 1))
                                FSK_MAX_NOCONFIDENCE_BITS) as [Le|Gt].
          -- destruct (no_confidence_below c s1 Le) as (_ & _ & Bd).
             rewrite Bd. apply Via. exact L.
          -- destruct (no_confidence_above c s1) as (_ & Ab); [lia|].
             destruct (carrier (stats s1)) eqn:C1.
             ++ destruct Ab as (S1 & _). rewrite S1 in C'. discriminate.
             ++ destruct Ab as (S1 & _). congruence.
    - intros _ C0. discriminate C0. }
  split.
  - unfold autodetect_runs.
    destruct (fgt (carrier_autodetect_threshold c) f_zero) eqn:On;
      [|reflexivity].
    cbn. apply Z.ltb_ge. apply P; auto.
  - intros On. apply P; auto.
Qed.

End ReceiverRuns.

(** ** The settings of [main] *)

Lemma inl_injective {A B : Type} (a b : A) : @inl A B a = inl b -> a = b.
Proof. intros H. inversion H. reflexivity. Qed.

(** What [main] has set when it gets past its checks. *)
Lemma main_setup_shape (o : options) (c : settings) :
  main_setup o = inl c ->
  let rate := rate_of_mode (opt_modem_mode o) in
  let mark := if opt_bfsk_mark_f o =? 0
              then snd (fst (band_defaults rate)) else opt_bfsk_mark_f o in
  let bw := if feq (opt_band_width o) f_zero
            then snd (band_defaults rate) else opt_band_width o in
  feq rate f_zero = false /\
  bfsk_data_rate c = rate /\
  bfsk_n_data_bits c = data_bits_of o /\
  (data_bits_of o = 8 /\ bfsk_framebits c = Ascii8 \/
   data_bits_of o = 5 /\ bfsk_framebits c = Baudot) /\
  autodetect_shift c = fst (fst (band_defaults rate)) /\
  bfsk_mark_f c = mark /\
  bfsk_space_f c =
    (if opt_bfsk_space_f o =? 0
     then uint (mark - fst (fst (band_defaults rate)))
     else opt_bfsk_space_f o) /\
  rx_band_width c = (if fgt bw rate then rate else bw) /\
  feq (bfsk_txstopbits c) f_zero = false.
Proof.
  unfold main_setup, rate_of_mode, data_bits_of, band_defaults.
  destruct (opt_modem_mode o) as [|rate]; cbv zeta beta iota;
    (destruct (feq _ f_zero) eqn:Z0; [intros H; discriminate H|]);
    (destruct (_ =? 8) eqn:E8;
     [|destruct (_ =? 5) eqn:E5; [|intros H; discriminate H]]);
    (destruct (fge _ (float_of_Z 400));
     [|try destruct (fge _ (float_of_Z 100))]);
    cbv beta iota;
    intros H; apply inl_injective in H; subst c;
    cbn [bfsk_data_rate bfsk_n_data_bits bfsk_framebits autodetect_shift
         bfsk_mark_f bfsk_space_f rx_band_width bfsk_txstopbits fst snd];
    try apply Z.eqb_eq in E8; try apply Z.eqb_eq in E5;
    repeat split; auto;
    try (destruct (feq (opt_bfsk_txstopbits o) f_zero) eqn:T;
         rewrite ?T; reflexivity).
Qed.

(** X15.  When [main] gets past its checks the number of data bits is 8
    with the ASCII decoder or 5 with the Baudot decoder, so that with a plan
    of that many data bits no assert of a decoder can fail on the data bits
    the loop chops out of a frame. *)
Theorem setup_decoder_fits_data_bits (o : options) (c : settings) :
  main_setup o = inl c ->
  (bfsk_n_data_bits c = 8 /\ bfsk_framebits c = Ascii8 \/
   bfsk_n_data_bits c = 5 /\ bfsk_framebits c = Baudot) /\
  (forall plan : fsk_plan,
     n_data_bits plan = bfsk_n_data_bits c ->
     plan_fits c plan /\
     forall (shift : Type) (BL : BaudotLib shift) (sh : shift) (bits : Z),
     exists bytes sh',
       framebits_decode (bfsk_framebits c) sh (Some tt) 4096
         (chop_framing_bits plan bits) = Some (bytes, sh')).
Proof.
  intros M.
  destruct (main_setup_shape o c M) as (_ & _ & N & K & _).
  rewrite <- N in K. split; [exact K|].
  intros plan E.
  assert (F : plan_fits c plan).
  { intros B. destruct K as [(_ & A)|(D & _)]; congruence. }
  split; [exact F|].
  intros shift BL sh bits. apply decode_chopped. exact F.
Qed.

Lemma main_setup_cases (o : options) :
  let rate := rate_of_mode (opt_modem_mode o) in
  feq rate f_zero = true /\ main_setup o = inr Usage \/
  (feq rate f_zero = false /\ data_bits_of o <> 8 /\ data_bits_of o <> 5) /\
    main_setup o = inr AssertDataBits \/
  (feq rate f_zero = false /\ (data_bits_of o = 8 \/ data_bits_of o = 5)) /\
    exists c, main_setup o = inl c.
Proof.
  unfold main_setup, rate_of_mode, data_bits_of.
  destruct (opt_modem_mode o) as [|rate]; cbv zeta beta iota.
  - destruct (feq (float_lit 4545 2) f_zero) eqn:Z0; [left; split; reflexivity|].
    right.
    destruct (_ =? 8) eqn:E8.
    { apply Z.eqb_eq in E8. right. split; [auto|].
      match goal with
      | |- context [match ?x with pair _ _ => _ end] =>
          destruct x as [[shift dflt_mark] dflt_bw]
      end.
      eexists; reflexivity. }
    apply Z.eqb_neq in E8.
    destruct (_ =? 5) eqn:E5.
    { apply Z.eqb_eq in E5. right. split; [auto|].
      match goal with
      | |- context [match ?x with pair _ _ => _ end] =>
          destruct x as [[shift dflt_mark] dflt_bw]
      end.
      eexists; reflexivity. }
    apply Z.eqb_neq in E5. left. auto.
  - destruct (feq rate f_zero) eqn:Z0; [left; split; reflexivity|].
    right.
    destruct (_ =? 8) eqn:E8.
    { apply Z.eqb_eq in E8. right. split; [auto|].
      match goal with
      | |- context [match ?x with pair _ _ => _ end] =>
          destruct x as [[shift dflt_mark] dflt_bw]
      end.
      eexists; reflexivity. }
    apply Z.eqb_neq in E8.
    destruct (_ =? 5) eqn:E5.
    { apply Z.eqb_eq in E5. right. split; [auto|].
      match goal with
      | |- context [match ?x with pair _ _ => _ end] =>
          destruct x as [[shift dflt_mark] dflt_bw]
      end.
      eexists; reflexivity. }
    apply Z.eqb_neq in E5. left. auto.
Qed.

(** X16.  [main] stops in [usage] exactly when the data rate is zero, it
    fails its assert on the data bits exactly when the rate is not zero and
    the number of data bits is neither 8 nor 5, and it goes on in all other
    cases. *)
Theorem setup_errors (o : options) :
  let rate := rate_of_mode (opt_modem_mode o) in
  (main_setup o = inr Usage <-> feq rate f_zero = true) /\
  (main_setup o = inr AssertDataBits <->
   feq rate f_zero = false /\ data_bits_of o <> 8 /\ data_bits_of o <> 5) /\
  ((exists c, main_setup o = inl c) <->
   feq rate f_zero = false /\ (data_bits_of o = 8 \/ data_bits_of o = 5)).
Proof.
  pose proof (main_setup_cases o) as K. cbv zeta in K |- *.
  destruct K as [(Z0 & M)|[((Z0 & A) & M)|((Z0 & A) & c & M)]]; rewrite M;
    (split; [|split]); split; intros H;
    try congruence; try tauto; eauto;
    try (destruct H as (H1 & H2); congruence);
    destruct H as (H1 & [H2|H2]); tauto.
Qed.

(** X17.  When [main] gets past its checks the data rate is not zero, the
    number of stop bits is not zero, and the band width is not greater than
    the data rate. *)
Theorem setup_is_sane (o : options) (c : settings) :
  main_setup o = inl c ->
  feq (bfsk_data_rate c) f_zero = false /\
  feq (bfsk_txstopbits c) f_zero = false /\
  fgt (rx_band_width c) (bfsk_data_rate c) = false.
Proof.
  intros M.
  destruct (main_setup_shape o c M) as (Z0 & R & _ & _ & _ & _ & _ & W & T).
  rewrite R. repeat split; auto.
  rewrite W.
  match goal with |- context [if ?b then _ else _] => destruct b eqn:G end.
  - unfold fgt. apply flt_irrefl.
  - exact G.
Qed.


(** X19.  Whatever the settings, the overscan is at least one sample and
    the step of the frame search at least one sample. *)
Theorem overscan_and_step_at_least_one (c : settings) :
  1 <= nsamples_overscan c < 2 ^ 32 /\
  1 <= try_step_nsamples c < 2 ^ 32.
Proof.
  unfold nsamples_overscan, try_step_nsamples. split.
  - match goal with
    | |- context [uint_of_float ?x] =>
        pose proof (uint_of_float_nonneg x) as B;
        destruct (uint_of_float x =? 0) eqn:E
    end.
    + rewrite andb_true_r.
      change (fgt fsk_frame_overscan f_zero) with true. cbv iota. lia.
    + apply Z.eqb_neq in E. rewrite andb_false_r. lia.
  - match goal with
    | |- context [uint_of_float ?x] =>
        pose proof (uint_of_float_nonneg x) as B;
        destruct (uint_of_float x =? 0) eqn:E
    end.
    + lia.
    + apply Z.eqb_neq in E. lia.
Qed.

(** ** The command line *)

Section CommandLine.
Import Cmdline.

Ltac switch_leaves :=
  unfold option_switch; cbv zeta;
  repeat match goal with
         | |- (if ?b then _ else _) = _ -> _ => destruct b eqn:?
         end;
  try discriminate;
  intros [= <-];
  repeat match goal with
         | H : Z.eqb _ _ = true |- _ => apply Z.eqb_eq in H
         | H : Z.eqb _ _ = false |- _ => apply Z.eqb_neq in H
         | H : Z.ltb _ _ = true |- _ => apply Z.ltb_lt in H
         end.

Ltac switch_code g :=
  repeat match goal with
         | H : opt_c g = _ |- _ => rewrite H
         | H : opt_c g <> ?k |- context [opt_c g =? ?k] =>
             apply Z.eqb_neq in H; rewrite H
         end.

(** What a pass through the [switch] does to [TX_mode]. *)
Lemma option_switch_TX_mode (b : build) (v v' : main_vars)
    (g : getopt_answer) :
  option_switch b v g = inl v' ->
  (opt_c g = chr "t" /\ TX_mode v <> 0 /\ TX_mode v' = 1) \/
  (opt_c g = chr "r" /\ TX_mode v <> 1 /\ TX_mode v' = 0) \/
  (opt_c g <> chr "t" /\ opt_c g <> chr "r" /\ TX_mode v' = TX_mode v).
Proof.
  switch_leaves; cbn [TX_mode set_TX_mode]; auto;
    right; right; repeat split; auto.
Qed.

Lemma given_cons (c : Z) (g : getopt_answer) (rest : list getopt_answer) :
  given c (g :: rest) = (opt_c g =? c) || given c rest.
Proof. reflexivity. Qed.

Lemma option_loop_TX_mode (b : build) (answers : list getopt_answer) :
  forall v0 v : main_vars,
  option_loop b answers v0 = inl v ->
  (TX_mode v0 = -1 ->
   (TX_mode v = -1 /\ given (chr "t") answers = false /\
    given (chr "r") answers = false) \/
   (TX_mode v = 1 /\ given (chr "t") answers = true /\
    given (chr "r") answers = false) \/
   (TX_mode v = 0 /\ given (chr "r") answers = true /\
    given (chr "t") answers = false)) /\
  (TX_mode v0 = 1 ->
   TX_mode v = 1 /\ given (chr "r") answers = false) /\
  (TX_mode v0 = 0 ->
   TX_mode v = 0 /\ given (chr "t") answers = false).
Proof.
  induction answers as [|g rest IH]; intros v0 v L.
  - injection L as <-. cbn. intuition auto.
  - cbn [option_loop] in L.
    destruct (option_switch b v0 g) as [v1|e] eqn:S1; [|discriminate].
    destruct (IH v1 v L) as (I1 & I2 & I3).
    rewrite !given_cons.
    destruct (option_switch_TX_mode b v0 v1 g S1)
      as [(C & N & T)|[(C & N & T)|(C1 & C2 & T)]].
    + rewrite C. change (chr "t" =? chr "t") with true.
      change (chr "t" =? chr "r") with false. cbn [orb].
      specialize (I2 T). intuition auto; congruence.
    + rewrite C. change (chr "r" =? chr "r") with true.
      change (chr "r" =? chr "t") with false. cbn [orb].
      specialize (I3 T). intuition auto; congruence.
    + apply Z.eqb_neq in C1, C2. rewrite C1, C2. cbn [orb].
      rewrite T in *. auto.
Qed.

(** A variable that the [switch] assigns only where [sets] says so, with
    values that [P] holds of, is at the end of the loop what the last such
    answer has set it to, and [P] holds of it or it was never assigned. *)
Lemma option_loop_field {A : Type} (f : main_vars -> A)
    (sets : getopt_answer -> option A) (P : A -> Prop) (b : build) :
  (forall v g v', option_switch b v g = inl v' ->
     match sets g with
     | Some x => f v' = x /\ P x
     | None => f v' = f v
     end) ->
  forall answers v0 v, option_loop b answers v0 = inl v ->
    f v = last_set sets answers (f v0) /\
    (if assigns sets answers then P (f v) else f v = f v0).
Proof.
  intros St. induction answers as [|g rest IH]; intros v0 v L.
  - injection L as <-. split; reflexivity.
  - cbn [option_loop] in L.
    destruct (option_switch b v0 g) as [v1|e] eqn:S1; [|discriminate].
    specialize (St v0 g v1 S1). specialize (IH v1 v L).
    destruct IH as (I1 & I2).
    unfold last_set, assigns in *. cbn [fold_left existsb].
    destruct (sets g) as [x|].
    + destruct St as (E & Px). rewrite E in *. split; [exact I1|].
      cbn [orb].
      destruct (existsb _ rest); [exact I2|]. rewrite I2. exact Px.
    + rewrite St in *. split; [exact I1|exact I2].
Qed.

Lemma assigns_on {A : Type} (c : Z) (val : getopt_answer -> A)
    (answers : list getopt_answer) :
  assigns (on c val) answers = given c answers.
Proof.
  unfold assigns, given, on. induction answers as [|g rest IH]; [reflexivity|].
  cbn [existsb]. rewrite IH. destruct (opt_c g =? c); reflexivity.
Qed.

Lemma option_switch_mark (b : build) (v : main_vars) (g : getopt_answer)
    (v' : main_vars) :
  option_switch b v g = inl v' ->
  match on (chr "M") (fun g => uint (optarg_atoi g)) g with
  | Some x => bfsk_mark_f v' = x /\ 0 < x
  | None => bfsk_mark_f v' = bfsk_mark_f v
  end.
Proof.
  unfold on.
  switch_leaves; cbn [bfsk_mark_f set_bfsk_mark_f]; switch_code g;
    try reflexivity.
  split; auto.
Qed.

Lemma option_switch_space (b : build) (v : main_vars) (g : getopt_answer)
    (v' : main_vars) :
  option_switch b v g = inl v' ->
  match on (chr "S") (fun g => uint (optarg_atoi g)) g with
  | Some x => bfsk_space_f v' = x /\ 0 < x
  | None => bfsk_space_f v' = bfsk_space_f v
  end.
Proof.
  unfold on.
  switch_leaves; cbn [bfsk_space_f set_bfsk_space_f]; switch_code g;
    try reflexivity.
  split; auto.
Qed.

Lemma option_switch_band_width (b : build) (v : main_vars)
    (g : getopt_answer) (v' : main_vars) :
  option_switch b v g = inl v' ->
  match on (chr "b") (fun g => float_of_double (optarg_atof g)) g with
  | Some x => band_width v' = x /\ feq x f_zero = false
  | None => band_width v' = band_width v
  end.
Proof.
  unfold on.
  switch_leaves; cbn [band_width set_band_width]; switch_code g;
    try reflexivity.
  split; auto.
Qed.

Lemma option_switch_txstopbits (b : build) (v : main_vars)
    (g : getopt_answer) (v' : main_vars) :
  option_switch b v g = inl v' ->
  match on (chr "T") (fun g => float_of_double (optarg_atof g)) g with
  | Some x => bfsk_txstopbits v' = x /\ fgt x f_zero = true
  | None => bfsk_txstopbits v' = bfsk_txstopbits v
  end.
Proof.
  unfold on.
  switch_leaves; cbn [bfsk_txstopbits set_bfsk_txstopbits]; switch_code g;
    try reflexivity.
  split; auto.
Qed.

Lemma option_switch_sample_format (b : build) (v : main_vars)
    (g : getopt_answer) (v' : main_vars) :
  option_switch b v g = inl v' ->
  match on MINIMODEM_OPT_FLOAT_SAMPLES (fun _ => SA_SAMPLE_FORMAT_FLOAT) g with
  | Some x => sample_format v' = x /\ x = SA_SAMPLE_FORMAT_FLOAT
  | None => sample_format v' = sample_format v
  end.
Proof.
  unfold on.
  switch_leaves; cbn [sample_format set_sample_format]; switch_code g;
    try reflexivity.
  split; reflexivity.
Qed.

Lemma option_switch_data_bits (b : build) (v : main_vars)
    (g : getopt_answer) (v' : main_vars) :
  option_switch b v g = inl v' ->
  match data_bits_option g with
  | Some x => bfsk_n_data_bits v' = x /\ (x = 8 \/ x = 5)
  | None => bfsk_n_data_bits v' = bfsk_n_data_bits v
  end.
Proof.
  unfold data_bits_option.
  switch_leaves; cbn [bfsk_n_data_bits set_bfsk_n_data_bits]; switch_code g;
    try reflexivity.
  - split; [reflexivity|left; reflexivity].
  - split; [reflexivity|right; reflexivity].
Qed.

(** What the statements after the loop keep. *)
Lemma main_options_loop (b : build) (answers : list getopt_answer)
    (args : list baudmode) (v : main_vars) (mode : baudmode) :
  main_options b answers args = inl (v, mode) ->
  exists v1 : main_vars,
    option_loop b answers main_vars_init = inl v1 /\
    args = [mode] /\
    TX_mode v = (if TX_mode v1 =? -1 then 0 else TX_mode v1) /\
    sample_format v =
      (if TX_mode v =? 0 then SA_SAMPLE_FORMAT_FLOAT else sample_format v1) /\
    options_of v mode = options_of v1 mode /\
    filename v = filename v1 /\
    match filename v with
    | Some _ => USE_SNDFILE b
    | None => USE_PULSEAUDIO b || USE_ALSA b
    end = true.
Proof.
  unfold main_options.
  destruct (option_loop b answers main_vars_init) as [v1|e]; [|discriminate].
  cbv zeta. intros H. exists v1. split; [reflexivity|].
  destruct (TX_mode v1 =? -1) eqn:T1;
    cbn [TX_mode set_TX_mode Z.eqb] in H |- *;
    [|destruct (TX_mode v1 =? 0) eqn:T0];
    cbn [filename set_sample_format set_TX_mode] in H;
    (destruct (filename v1) eqn:F;
     [destruct (USE_SNDFILE b) eqn:U
     |destruct (USE_PULSEAUDIO b || USE_ALSA b) eqn:U];
     [destruct args as [|m [|]]; try discriminate;
      injection H as <- <-; cbn; rewrite ?T0, ?F; auto 10
     |discriminate
     |destruct args as [|m [|]]; try discriminate;
      injection H as <- <-; cbn; rewrite ?T0, ?F; auto 10
     |discriminate]).
Qed.

(** X20.  [-t] and [-r] exclude one another: when [main] gets past its
    options, either it transmits, [-t] was given and [-r] was not, or it
    receives and [-t] was not given. *)
Theorem transmit_and_receive_exclude (b : build)
    (answers : list getopt_answer) (args : list baudmode)
    (v : main_vars) (mode : baudmode) :
  main_options b answers args = inl (v, mode) ->
  (TX_mode v = 1 /\ given (chr "t") answers = true /\
   given (chr "r") answers = false) \/
  (TX_mode v = 0 /\ given (chr "t") answers = false).
Proof.
  intros M.
  destruct (main_options_loop b answers args v mode M)
    as (v1 & L & _ & T & _).
  destruct (option_loop_TX_mode b answers _ _ L) as (I & _).
  specialize (I eq_refl). rewrite T.
  destruct I as [(E & A & B)|[(E & A & B)|(E & A & B)]]; rewrite E; cbn; auto.
Qed.

(** X21.  The receiver always takes floating-point samples; the transmitter
    does so exactly when [--float-samples] was given. *)
Theorem sample_format_of_the_stream (b : build)
    (answers : list getopt_answer) (args : list baudmode)
    (v : main_vars) (mode : baudmode) :
  main_options b answers args = inl (v, mode) ->
  (TX_mode v = 0 -> sample_format v = SA_SAMPLE_FORMAT_FLOAT) /\
  (TX_mode v <> 0 ->
   (sample_format v = SA_SAMPLE_FORMAT_FLOAT <->
    given MINIMODEM_OPT_FLOAT_SAMPLES answers = true)).
Proof.
  intros M.
  destruct (main_options_loop b answers args v mode M)
    as (v1 & L & _ & _ & F & _).
  destruct (option_loop_field sample_format _ _ b
              (option_switch_sample_format b) answers _ _ L) as (_ & A).
  rewrite assigns_on in A. rewrite F. split.
  - intros ->. reflexivity.
  - intros N. apply Z.eqb_neq in N. rewrite N.
    destruct (given _ answers).
    + tauto.
    + rewrite A. cbn. split; discriminate.
Qed.

Lemma fgt_zero_not_zero (x : float) :
  fgt x f_zero = true -> feq x f_zero = false.
Proof. destruct x as [[]|[]| |[] m e]; cbn; congruence. Qed.

(** X22.  The zero that lines 554 to 630 take for "not given" cannot come
    from the command line: after the option loop the mark tone, the space
    tone, the band width and the stop bits are zero exactly when [-M], [-S],
    [-b] and [-T] were not given. *)
Theorem zero_means_not_given (b : build)
    (answers : list getopt_answer) (args : list baudmode)
    (v : main_vars) (mode : baudmode) :
  main_options b answers args = inl (v, mode) ->
  let o := options_of v mode in
  (opt_bfsk_mark_f o = 0 <-> given (chr "M") answers = false) /\
  (opt_bfsk_space_f o = 0 <-> given (chr "S") answers = false) /\
  (feq (opt_band_width o) f_zero = true <->
   given (chr "b") answers = false) /\
  (feq (opt_bfsk_txstopbits o) f_zero = true <->
   given (chr "T") answers = false).
Proof.
  intros M.
  destruct (main_options_loop b answers args v mode M)
    as (v1 & L & _ & _ & _ & O & _).
  cbv zeta. rewrite O. cbn [options_of opt_bfsk_mark_f opt_bfsk_space_f
                            opt_band_width opt_bfsk_txstopbits].
  destruct (option_loop_field bfsk_mark_f _ _ b
              (option_switch_mark b) answers _ _ L) as (_ & A1).
  destruct (option_loop_field bfsk_space_f _ _ b
              (option_switch_space b) answers _ _ L) as (_ & A2).
  destruct (option_loop_field band_width _ _ b
              (option_switch_band_width b) answers _ _ L) as (_ & A3).
  destruct (option_loop_field bfsk_txstopbits _ _ b
              (option_switch_txstopbits b) answers _ _ L) as (_ & A4).
  rewrite assigns_on in A1. rewrite assigns_on in A2.
  rewrite assigns_on in A3. rewrite assigns_on in A4.
  repeat split.
  - intros E. destruct (given (chr "M") answers); [lia|reflexivity].
  - intros E. rewrite E in A1. exact A1.
  - intros E. destruct (given (chr "S") answers); [lia|reflexivity].
  - intros E. rewrite E in A2. exact A2.
  - intros E. destruct (given (chr "b") answers); [congruence|reflexivity].
  - intros E. rewrite E in A3. rewrite A3. reflexivity.
  - intros E. destruct (given (chr "T") answers); [|reflexivity].
    apply fgt_zero_not_zero in A4. congruence.
  - intros E. rewrite E in A4. rewrite A4. reflexivity.
Qed.

Lemma last_set_default {A : Type} (sets : getopt_answer -> option A)
    (answers : list getopt_answer) (d d' : A) :
  last_set sets answers d =
    (if assigns sets answers then last_set sets answers d' else d).
Proof.
  unfold last_set, assigns. revert d d'.
  induction answers as [|g rest IH]; intros d d'; [reflexivity|].
  cbn [fold_left existsb]. destruct (sets g) as [x|]; cbn [orb].
  - rewrite (IH x x). destruct (existsb _ rest); reflexivity.
  - apply IH.
Qed.

(** X23.  The assert on the number of data bits cannot fail: whatever the
    command line, when [main] gets past its options the number of data bits
    is that of the last [-8] or [-5], or that of the baud mode (5 for
    [rtty], 8 otherwise) when neither was given. *)
Theorem data_bits_assert_holds (b : build)
    (answers : list getopt_answer) (args : list baudmode)
    (v : main_vars) (mode : baudmode) :
  main_options b answers args = inl (v, mode) ->
  data_bits_of (options_of v mode) =
    last_set data_bits_option answers
      (match mode with Rtty => 5 | Bps _ => 8 end) /\
  main_setup (options_of v mode) <> inr AssertDataBits.
Proof.
  intros M.
  destruct (main_options_loop b answers args v mode M)
    as (v1 & L & _ & _ & _ & O & _).
  rewrite O.
  destruct (option_loop_field bfsk_n_data_bits _ _ b
              (option_switch_data_bits b) answers _ _ L) as (A1 & A2).
  assert (D : data_bits_of (options_of v1 mode) =
              last_set data_bits_option answers
                (match mode with Rtty => 5 | Bps _ => 8 end)).
  { unfold data_bits_of. cbn [options_of opt_bfsk_n_data_bits opt_modem_mode].
    rewrite (last_set_default _ _ _ 0).
    change (bfsk_n_data_bits main_vars_init) with 0 in A1, A2.
    rewrite <- A1.
    destruct (assigns data_bits_option answers).
    - destruct A2 as [E|E]; rewrite E; destruct mode; reflexivity.
    - rewrite A2. destruct mode; reflexivity. }
  split; [exact D|].
  assert (K : data_bits_of (options_of v1 mode) = 8 \/
              data_bits_of (options_of v1 mode) = 5).
  { unfold data_bits_of. cbn [options_of opt_bfsk_n_data_bits opt_modem_mode].
    change (bfsk_n_data_bits main_vars_init) with 0 in A2.
    destruct (assigns data_bits_option answers).
    - destruct A2 as [E|E]; rewrite E; destruct mode; auto.
    - rewrite A2. destruct mode; auto. }
  destruct (main_setup_cases (options_of v1 mode))
    as [(_ & E)|[((_ & N8 & N5) & _)|(_ & c & E)]];
    [rewrite E; discriminate|tauto|rewrite E; discriminate].
Qed.

End CommandLine.

(* ================================================================== *)
(** * Part V: the further properties on runs of the program           *)
(* ================================================================== *)

Module FurtherRuns.
Import Bench.

(** *** The transmitter *)

Lemma transmit_nothing_witness :
  forallb (fun ev => negb (Tx.is_getchar ev)) [Tx.Sigalrm; Tx.Sigalrm] = true /\
  Tx.tx_out (Tx.fsk_transmit_stdin (BL := bench_baudot) bell103_tx tt
               [Tx.Sigalrm; Tx.Sigalrm]) = [].
Proof.
  split; [reflexivity|].
  exact (proj1 (transmit_nothing (BL := bench_baudot) bell103_tx tt
                  [Tx.Sigalrm; Tx.Sigalrm] eq_refl)).
Defined.

Lemma transmit_bytes_witness :
  [72; 105] <> [] /\
  map Tx.tone_nsamples
    (Tx.tx_out (Tx.fsk_transmit_stdin (BL := bench_baudot) bell103_tx tt
                  (map Tx.Getchar [72; 105])))
  = repeat 160 (2 + 10 + 10 + 2) ++ [24000].
Proof.
  assert (N : [72; 105] <> []) by (intros H; discriminate H).
  split; [exact N|].
  destruct (transmit_bytes (BL := bench_baudot) bell103_tx tt [72; 105] N)
    as (O & _).
  rewrite O. vm_compute. reflexivity.
Defined.

Lemma ascii8_frame_carries_byte_witness :
  (Tx.framebits_encoder bell103_tx = Ascii8 /\
   Tx.tx_n_data_bits bell103_tx = 8 /\ 0 <= 200 < 256) /\
  map (Tx.spec_word_frame bell103_tx)
    (fst (framebits_encode (BL := bench_baudot)
            (Tx.framebits_encoder bell103_tx) tt 200))
  = [Tx.spec_word_frame bell103_tx 200].
Proof.
  assert (R : 0 <= 200 < 256) by lia.
  split; [split; [reflexivity|split; [reflexivity|exact R]]|].
  exact (ascii8_frame_carries_byte (BL := bench_baudot) bell103_tx tt 200
           eq_refl eq_refl R).
Defined.

Lemma test_tones_witness :
  (0 < 2400 /\ 48000 = 20 * 2400 /\ 48000 < 2 ^ 32 /\ 0 <= 10 /\
   10 * 10 < 2 ^ 31) /\
  exists ts,
    Tx.generate_test_tones 48000 10 = Some ts /\
    Tx.total_nsamples ts = 480000.
Proof.
  assert (H1 : 0 < 2400) by lia.
  assert (H2 : 48000 = 20 * 2400) by reflexivity.
  assert (H3 : 48000 < 2 ^ 32) by lia.
  assert (H4 : 0 <= 10) by lia.
  assert (H5 : 10 * 10 < 2 ^ 31) by lia.
  split; [repeat split; assumption|].
  destruct (test_tones_last_duration_sec 48000 10 2400 H1 H2 H3 H4 H5)
    as ((ts & G & T & _) & _).
  exists ts. split; [exact G|exact T].
Defined.

(** *** The ASCII decoder *)

Lemma bench_frame_data_bits (i : Z) :
  0 <= i < 8 -> Z.testbit bench_frame_bits (i + 2) = Z.testbit 65 i.
Proof.
  intros Hi.
  assert (C : i = 0 \/ i = 1 \/ i = 2 \/ i = 3 \/ i = 4 \/ i = 5 \/ i = 6 \/
              i = 7) by lia.
  destruct C as [->|[->|[->|[->|[->|[->|[->| ->]]]]]]]; reflexivity.
Defined.

Lemma ascii8_decodes_the_byte_sent_witness :
  (n_data_bits bell103_plan <> 5 /\ 0 <= 65 < 256 /\
   forall i, 0 <= i < 8 ->
     Z.testbit bench_frame_bits (i + 2) = Z.testbit 65 i) /\
  framebits_decode_ascii8 (Some tt) 4096
    (chop_framing_bits bell103_plan bench_frame_bits) = Some [65].
Proof.
  assert (N : n_data_bits bell103_plan <> 5) by (intros H; discriminate H).
  assert (R : 0 <= 65 < 256) by lia.
  split; [split; [exact N|split; [exact R|exact bench_frame_data_bits]]|].
  exact (proj2 (ascii8_decodes_the_byte_sent bell103_plan bench_frame_bits 65
                  N R bench_frame_data_bits)).
Defined.

(** *** The receive loop *)

Lemma first_iteration :
  bench_iterate 1
    (rx_init bell103 (one_frame_then_silence (Z.to_nat 9000)) bell103_plan tt
             (repeat f_zero (Z.to_nat 2080)))
  = Some s_acquired.
Proof. vm_compute. reflexivity. Defined.

Lemma stdout_is_printable_witness :
  bench_iterate 1
    (rx_init bell103 (one_frame_then_silence (Z.to_nat 9000)) bell103_plan tt
             (repeat f_zero (Z.to_nat 2080)))
  = Some s_acquired /\
  Forall (fun ch => printable ch = true) (stdout s_acquired).
Proof.
  split; [exact first_iteration|].
  exact (proj1 (stdout_is_printable
                  (FL := bench_fsk) (SA := bench_audio) (BL := bench_baudot)
                  bell103 (one_frame_then_silence (Z.to_nat 9000))
                  bell103_plan tt (repeat f_zero (Z.to_nat 2080)) 1
                  s_acquired first_iteration)).
Defined.

Lemma ascii8_one_character_per_frame_witness :
  bfsk_framebits bell103 = Ascii8 /\
  match bench_body s_start with
  | Next s' =>
      exists (s1 : @rx_state stream unit) (fr : frame),
        bench_locate s_start = Next (s1, fr) /\
        stdout s' =
          stdout s_start
            ++ [printable_char
                  (to_char (chop_framing_bits (fskp s1) (frame_bits fr)))]
  | Continue s' | Break s' => stdout s' = stdout s_start
  | _ => True
  end.
Proof.
  assert (A : bfsk_framebits bell103 = Ascii8) by reflexivity.
  split; [exact A|].
  exact (ascii8_one_character_per_frame
           (FL := bench_fsk) (SA := bench_audio) (BL := bench_baudot)
           bell103 s_start A).
Defined.

Lemma run_to_the_end :
  bench_main_rx 60
    (rx_init bell103 (one_frame_then_silence (Z.to_nat 9000)) bell103_plan tt
             (repeat f_zero (Z.to_nat 2080)))
  = Some (0, s_end).
Proof. vm_compute. reflexivity. Defined.

Lemma run_on_a_broken_stream :
  bench_main_rx 1
    (rx_init bell103 ([], true) bell103_plan tt
             (repeat f_zero (Z.to_nat 2080)))
  = Some (-1, s_broken_end).
Proof. vm_compute. reflexivity. Defined.

Lemma carrier_lines_are_paired_witness :
  bench_main_rx 60
    (rx_init bell103 (one_frame_then_silence (Z.to_nat 9000)) bell103_plan tt
             (repeat f_zero (Z.to_nat 2080)))
  = Some (0, s_end) /\
  count_lines is_carrier_line (stderr s_end) = 1 /\
  count_lines is_nocarrier_line (stderr s_end) = 1.
Proof.
  split; [exact run_to_the_end|].
  destruct (carrier_lines_are_paired
              (FL := bench_fsk) (SA := bench_audio) (BL := bench_baudot)
              bell103 (one_frame_then_silence (Z.to_nat 9000)) bell103_plan
              tt (repeat f_zero (Z.to_nat 2080)) 60 0 s_end run_to_the_end)
    as (E & _).
  rewrite <- E. split; vm_compute; reflexivity.
Defined.

Lemma return_value_tells_read_error_witness :
  bench_main_rx 1
    (rx_init bell103 ([], true) bell103_plan tt
             (repeat f_zero (Z.to_nat 2080)))
  = Some (-1, s_broken_end) /\
  In (Text read_error_message) (stderr s_broken_end).
Proof.
  split; [exact run_on_a_broken_stream|].
  destruct (return_value_tells_read_error
              (FL := bench_fsk) (SA := bench_audio) (BL := bench_baudot)
              bell103 ([], true) bell103_plan tt
              (repeat f_zero (Z.to_nat 2080)) 1 (-1) s_broken_end
              run_on_a_broken_stream)
    as [(Z0 & _)|(_ & _ & I)]; [discriminate Z0|exact I].
Defined.

(** *** The sample buffer *)

Lemma bench_read_contract : read_contract (SA := bench_audio).
Proof.
  intros [samples fails] n Hn. cbn.
  destruct samples as [|x rest]; cbn [fst].
  - destruct fails; lia.
  - pose proof (firstn_le_length (Z.to_nat n) (x :: rest)) as L.
    rewrite length_firstn. lia.
Defined.

Lemma bell103_buffer :
  samplebuf_size bell103 < 2 ^ 63 /\
  List.length (repeat f_zero (Z.to_nat 2080))
    = Z.to_nat (samplebuf_size bell103).
Proof. split; vm_compute; reflexivity. Defined.

Lemma sample_buffer_stays_in_bounds_witness :
  (read_contract (SA := bench_audio) /\
   samplebuf_size bell103 < 2 ^ 63 /\
   List.length (repeat f_zero (Z.to_nat 2080))
     = Z.to_nat (samplebuf_size bell103) /\
   bench_iterate 1
     (rx_init bell103 (one_frame_then_silence (Z.to_nat 9000)) bell103_plan
              tt (repeat f_zero (Z.to_nat 2080)))
   = Some s_acquired) /\
  window_ok bell103 (window s_acquired).
Proof.
  destruct bell103_buffer as (Sz & Len).
  split; [split; [exact bench_read_contract|split; [exact Sz|split;
            [exact Len|exact first_iteration]]]|].
  exact (proj1 (sample_buffer_stays_in_bounds
                  (FL := bench_fsk) (SA := bench_audio) (BL := bench_baudot)
                  bell103 (one_frame_then_silence (Z.to_nat 9000))
                  bell103_plan tt (repeat f_zero (Z.to_nat 2080)) 1
                  s_acquired bench_read_contract Sz Len first_iteration)).
Defined.

Lemma shift_places_the_read_witness :
  (0 < advance s_acquired < samplebuf_size bell103 /\
   advance s_acquired <= samples_nvalid (window s_acquired)) /\
  exists s1 : @rx_state stream unit,
    shift_samples bell103 s_acquired = Next s1 /\
    samples_nvalid (window s1) = 560 /\
    read_nsamples (window s1) = 1520.
Proof.
  assert (A : 0 < advance s_acquired < samplebuf_size bell103)
    by (vm_compute; split; reflexivity).
  assert (B : advance s_acquired <= samples_nvalid (window s_acquired))
    by (vm_compute; intros H; discriminate H).
  split; [split; [exact A|exact B]|].
  destruct (shift_places_the_read bell103 s_acquired A B)
    as (s1 & Sh & Nv & Rn & _).
  exists s1. split; [exact Sh|].
  rewrite Nv, Rn. split; vm_compute; reflexivity.
Defined.

(** *** The plan and the band *)

Lemma plan_rebound_only_by_autodetect_witness :
  (fgt (carrier_autodetect_threshold bell103) f_zero = false /\
   bench_iterate 1 s_start = Some s_acquired) /\
  fskp s_acquired = fskp s_start.
Proof.
  assert (A : fgt (carrier_autodetect_threshold bell103) f_zero = false)
    by reflexivity.
  split; [split; [exact A|exact first_iteration]|].
  exact (proj2 (plan_rebound_only_by_autodetect
                  (FL := bench_fsk) (SA := bench_audio) (BL := bench_baudot)
                  bell103 s_start) A 1%nat s_acquired first_iteration).
Defined.

Lemma carrier_keeps_the_band_witness :
  (bench_iterate 1
     (rx_init bell103 (one_frame_then_silence (Z.to_nat 9000)) bell103_plan
              tt (repeat f_zero (Z.to_nat 2080)))
   = Some s_acquired /\
   carrier (stats s_acquired) = true) /\
  autodetect_runs bell103 s_acquired = false.
Proof.
  assert (C : carrier (stats s_acquired) = true) by (vm_compute; reflexivity).
  split; [split; [exact first_iteration|exact C]|].
  exact (proj1 (carrier_keeps_the_band
                  (FL := bench_fsk) (SA := bench_audio) (BL := bench_baudot)
                  bell103 (one_frame_then_silence (Z.to_nat 9000))
                  bell103_plan tt (repeat f_zero (Z.to_nat 2080)) 1
                  s_acquired first_iteration C)).
Defined.

(** *** The settings *)

Lemma bell103_is_set_up :
  main_setup (default_options (Bps (float_of_Z 300))) = inl bell103.
Proof. vm_compute. reflexivity. Defined.

Lemma setup_decoder_fits_data_bits_witness :
  main_setup (default_options (Bps (float_of_Z 300))) = inl bell103 /\
  plan_fits bell103 bell103_plan.
Proof.
  split; [exact bell103_is_set_up|].
  destruct (setup_decoder_fits_data_bits _ _ bell103_is_set_up) as (_ & F).
  exact (proj1 (F bell103_plan eq_refl)).
Defined.

Lemma setup_is_sane_witness :
  main_setup (default_options (Bps (float_of_Z 300))) = inl bell103 /\
  fgt (rx_band_width bell103) (bfsk_data_rate bell103) = false.
Proof.
  split; [exact bell103_is_set_up|].
  destruct (setup_is_sane _ _ bell103_is_set_up) as (_ & _ & W). exact W.
Defined.


(** *** The command line *)

Lemma tx_command_line :
  Cmdline.main_options full_build tx_answers [Bps (float_of_Z 300)]
  = inl (tx_vars, Bps (float_of_Z 300)).
Proof. vm_compute. reflexivity. Defined.

Lemma transmit_and_receive_exclude_witness :
  Cmdline.main_options full_build tx_answers [Bps (float_of_Z 300)]
  = inl (tx_vars, Bps (float_of_Z 300)) /\
  Cmdline.TX_mode tx_vars = 1 /\
  Cmdline.given (Cmdline.chr "r") tx_answers = false.
Proof.
  split; [exact tx_command_line|].
  destruct (transmit_and_receive_exclude _ _ _ _ _ tx_command_line)
    as [(T & _ & R)|(T & _)]; [split; [exact T|exact R]|].
  vm_compute in T. discriminate T.
Defined.

Lemma sample_format_of_the_stream_witness :
  Cmdline.main_options full_build tx_answers [Bps (float_of_Z 300)]
  = inl (tx_vars, Bps (float_of_Z 300)) /\
  Cmdline.sample_format tx_vars = Cmdline.SA_SAMPLE_FORMAT_FLOAT.
Proof.
  split; [exact tx_command_line|].
  destruct (sample_format_of_the_stream _ _ _ _ _ tx_command_line)
    as (_ & F).
  apply F; [intros H; discriminate H|reflexivity].
Defined.

Lemma zero_means_not_given_witness :
  Cmdline.main_options full_build tx_answers [Bps (float_of_Z 300)]
  = inl (tx_vars, Bps (float_of_Z 300)) /\
  opt_bfsk_space_f (Cmdline.options_of tx_vars (Bps (float_of_Z 300))) = 0 /\
  opt_bfsk_mark_f (Cmdline.options_of tx_vars (Bps (float_of_Z 300))) <> 0.
Proof.
  split; [exact tx_command_line|].
  destruct (zero_means_not_given _ _ _ _ _ tx_command_line)
    as (M & S & _).
  split.
  - apply S. reflexivity.
  - intros E. apply M in E. discriminate E.
Defined.

Lemma data_bits_assert_holds_witness :
  Cmdline.main_options full_build tx_answers [Bps (float_of_Z 300)]
  = inl (tx_vars, Bps (float_of_Z 300)) /\
  data_bits_of (Cmdline.options_of tx_vars (Bps (float_of_Z 300))) = 5.
Proof.
  split; [exact tx_command_line|].
  destruct (data_bits_assert_holds _ _ _ _ _ tx_command_line) as (D & _).
  rewrite D. reflexivity.
Defined.

End FurtherRuns.
